(** * The [user_processing] pipeline of [dags/user_processing.py]

    A shallow embedding of the six tasks of the DAG
    ([create_table], [is_api_available], [extract_user], [process_user],
    [store_user], [validate_data]) together with the parts of the Python
    runtime they call: subscripting and [str], the [csv] module in its
    default (excel) dialect, text-mode files, and the single SQL statements
    the tasks send to PostgreSQL.

    Everything outside the interpreter is a field of [World]: the files,
    the [users] relation, the answers of the HTTP endpoint, faults of the
    database connection, and a trace of the effects performed.  A task is a
    function [World -> outcome A * World]; an exception keeps the effects
    performed before it was raised, as in Python.

    Limits of the model: numbers are integers (no floats), a character is a
    code point below 256, a write to a file always succeeds, and of
    PostgreSQL only the decimal input syntax of [INT], the length rule of
    [VARCHAR(255)], the primary key and [ON CONFLICT (id) DO NOTHING] are
    modelled.  The polling loop of the sensor belongs to the Airflow
    runtime; it appears as a bounded number of pokes, without a clock. *)

From Stdlib Require Import ZArith String Ascii List Lia Bool.
From Stdlib Require Import DecimalString DecimalFacts DecimalPos DecimalZ.
From stdpp Require Import base gmap strings list.

Local Open Scope string_scope.
Local Open Scope Z_scope.
Local Open Scope list_scope.

(** ** Characters and strings

    A Python [str] is modelled as a Rocq [string]; one [ascii] stands for
    one code point below 256. *)

Module Chars.
Definition NUL : ascii := "000"%char.
Definition TAB : ascii := "009"%char.
Definition LF : ascii := "010"%char.
Definition VT : ascii := "011"%char.
Definition FF : ascii := "012"%char.
Definition CR : ascii := "013"%char.
Definition SPACE : ascii := " "%char.
Definition DQUOTE : ascii := "034"%char.
Definition SQUOTE : ascii := "'"%char.
Definition COMMA : ascii := ","%char.
Definition BACKSLASH : ascii := "\"%char.
End Chars.
Import Chars.

Definition str1 (c : ascii) : string := String c EmptyString.

Fixpoint str_contains (c : ascii) (s : string) : bool :=
  match s with
  | EmptyString => false
  | String a s' => Ascii.eqb a c || str_contains c s'
  end.

Fixpoint str_join (sep : string) (l : list string) : string :=
  match l with
  | [] => EmptyString
  | [x] => x
  | x :: r => x +:+ sep +:+ str_join sep r
  end.

Definition str_is_empty (s : string) : bool :=
  match s with EmptyString => true | _ => false end.

(** Decimal text of an integer, as [str(int)] prints it. *)
Definition str_of_Z (z : Z) : string := NilZero.string_of_int (Z.to_int z).

(** ** Python values

    The JSON fragment of Python values: what [response.json()] returns and
    what XCom carries.  A [dict] keeps insertion order, which decides the
    column order of the CSV header, so it is an association list; keys are
    strings, as in JSON. *)

#[warnings="-register-all"]
Inductive pyval : Type :=
| PyNone
| PyBool (b : bool)
| PyInt (z : Z)
| PyStr (s : string)
| PyList (l : list pyval)
| PyDict (d : list (string * pyval)).

Definition is_none (v : pyval) : bool :=
  match v with PyNone => true | _ => false end.

(** Truth value testing ([bool(v)]). *)
Definition py_truthy (v : pyval) : bool :=
  match v with
  | PyNone => false
  | PyBool b => b
  | PyInt z => negb (z =? 0)
  | PyStr s => negb (str_is_empty s)
  | PyList l => match l with [] => false | _ => true end
  | PyDict d => match d with [] => false | _ => true end
  end.

(** [d[k] = v] on a dict: replace in place or append. *)
Fixpoint dict_set {A} (k : string) (v : A) (d : list (string * A)) : list (string * A) :=
  match d with
  | [] => [(k, v)]
  | (k', v') :: r => if String.eqb k' k then (k, v) :: r else (k', v') :: dict_set k v r
  end.

Fixpoint dict_get {A} (k : string) (d : list (string * A)) : option A :=
  match d with
  | [] => None
  | (k', v) :: r => if String.eqb k' k then Some v else dict_get k r
  end.

Definition dict_keys {A} (d : list (string * A)) : list string := map fst d.

(** [dict(pairs)]: later pairs overwrite earlier ones. *)
Definition dict_of_pairs {A} (l : list (string * A)) : list (string * A) :=
  fold_left (fun d kv => dict_set (fst kv) (snd kv) d) l [].

(** *** [repr] and [str] *)

Definition hex_digit (n : N) : ascii :=
  match n with
  | 0%N => "0" | 1%N => "1" | 2%N => "2" | 3%N => "3" | 4%N => "4"
  | 5%N => "5" | 6%N => "6" | 7%N => "7" | 8%N => "8" | 9%N => "9"
  | 10%N => "a" | 11%N => "b" | 12%N => "c" | 13%N => "d" | 14%N => "e"
  | _ => "f"
  end%char.

Definition printable (c : ascii) : bool :=
  let n := N_of_ascii c in
  ((32 <=? n) && (n <? 127) || (161 <=? n) && negb (n =? 173))%N.

Definition repr_char (quote c : ascii) : string :=
  if Ascii.eqb c BACKSLASH then String BACKSLASH (str1 BACKSLASH)
  else if Ascii.eqb c quote then String BACKSLASH (str1 quote)
  else if Ascii.eqb c TAB then "\t"
  else if Ascii.eqb c LF then "\n"
  else if Ascii.eqb c CR then "\r"
  else if printable c then str1 c
  else let n := N_of_ascii c in
       String BACKSLASH (String "x" (String (hex_digit (n / 16)) (str1 (hex_digit (n mod 16))))).

Fixpoint repr_body (quote : ascii) (s : string) : string :=
  match s with
  | EmptyString => EmptyString
  | String c s' => repr_char quote c +:+ repr_body quote s'
  end.

(** [repr] of a [str]: single quotes unless the text has a single quote and
    no double quote. *)
Definition repr_str (s : string) : string :=
  let quote := if str_contains SQUOTE s && negb (str_contains DQUOTE s)
               then DQUOTE else SQUOTE in
  String quote (repr_body quote s +:+ str1 quote).

Fixpoint py_repr (v : pyval) : string :=
  match v with
  | PyNone => "None"
  | PyBool true => "True"
  | PyBool false => "False"
  | PyInt z => str_of_Z z
  | PyStr s => repr_str s
  | PyList l =>
      "[" +:+ (fix items (l : list pyval) : string :=
                 match l with
                 | [] => EmptyString
                 | x :: r => py_repr x +:+
                     match r with [] => EmptyString | _ => ", " +:+ items r end
                 end) l +:+ "]"
  | PyDict d =>
      "{" +:+ (fix items (d : list (string * pyval)) : string :=
                 match d with
                 | [] => EmptyString
                 | (k, x) :: r => repr_str k +:+ ": " +:+ py_repr x +:+
                     match r with [] => EmptyString | _ => ", " +:+ items r end
                 end) d +:+ "}"
  end.

Definition py_str (v : pyval) : string :=
  match v with
  | PyStr s => s
  | _ => py_repr v
  end.

(** ** Exceptions *)

Inductive exc_class : Type :=
| KeyError | TypeError | ValueError | AttributeError | IndexError
| OSError | FileNotFoundError | csv_Error
| RequestException | JSONDecodeError | DatabaseError
| AirflowSensorTimeout
| KeyboardInterrupt | SystemExit.

Record exn : Type := Exn { exn_class : exc_class; exn_arg : string }.

(** [isinstance(e, Exception)]: what [except Exception] catches.  A bare
    [except:] also catches the two classes that derive from [BaseException]
    only. *)
Definition is_Exception (e : exn) : bool :=
  match exn_class e with
  | KeyboardInterrupt | SystemExit => false
  | _ => true
  end.

(** [str(e)]; a [KeyError] prints the [repr] of its key. *)
Definition exn_str (e : exn) : string :=
  match exn_class e with
  | KeyError => repr_str (exn_arg e)
  | _ => exn_arg e
  end.

Inductive outcome (A : Type) : Type :=
| Returns (a : A)
| Raises (e : exn).
Arguments Returns {A} a.
Arguments Raises {A} e.

(** ** The world outside the interpreter *)

Record UserRow : Type := {
  u_id : Z;
  u_firstname : option string;
  u_lastname : option string;
  u_email : option string;
  u_created_at : Z;
}.

Record Response : Type := {
  status_code : Z;
  json_body : outcome pyval;   (* what [response.json()] does *)
}.

Inductive HttpOutcome : Type :=
| HttpFails (e : exn)
| HttpResponds (r : Response).

Inductive Event : Type :=
| EvHttpGet (url : string)
| EvOpen (path mode : string)
| EvSql (statement : string)
| EvPrint (line : string).

Record World : Type := {
  fs : gmap string string;          (* path to file content *)
  users : option (list UserRow);    (* the relation, [None] before its DDL ran *)
  now : Z;                          (* CURRENT_TIMESTAMP of the next statement *)
  http : list HttpOutcome;          (* answers of the successive GET requests *)
  db_faults : list (option exn);    (* fault, if any, of the successive database calls *)
  trace : list Event;               (* effects performed so far, oldest first *)
}.

(** ** The monad of tasks *)

Definition M (A : Type) : Type := World -> outcome A * World.

Definition ret {A} (a : A) : M A := fun w => (Returns a, w).
Definition raise {A} (e : exn) : M A := fun w => (Raises e, w).
Definition bind {A B} (m : M A) (k : A -> M B) : M B :=
  fun w => match m w with
           | (Returns a, w') => k a w'
           | (Raises e, w') => (Raises e, w')
           end.
Definition lift {A} (o : outcome A) : M A := fun w => (o, w).

(** [try: m  except: h] (bare except) *)
Definition try_except {A} (m : M A) (h : exn -> M A) : M A :=
  fun w => match m w with
           | (Returns a, w') => (Returns a, w')
           | (Raises e, w') => h e w'
           end.

(** [try: m  except Exception as e: h e] *)
Definition try_except_Exception {A} (m : M A) (h : exn -> M A) : M A :=
  fun w => match m w with
           | (Returns a, w') => (Returns a, w')
           | (Raises e, w') => if is_Exception e then h e w' else (Raises e, w')
           end.

(** Sequencing of computations that touch nothing outside. *)
Definition obind {A B} (o : outcome A) (k : A -> outcome B) : outcome B :=
  match o with
  | Returns a => k a
  | Raises e => Raises e
  end.

Declare Scope task_scope.
Delimit Scope task_scope with task.
Notation "'do' x <- m ; k" := (bind m (fun x => k))
  (at level 10, x name, m at level 100, k at level 200) : task_scope.
Notation "'do!' x <- o ; k" := (obind o (fun x => k))
  (at level 10, x name, o at level 100, k at level 200) : task_scope.
Notation "m ;; k" := (bind m (fun _ => k))
  (at level 100, k at level 200, right associativity) : task_scope.
Local Open Scope task_scope.

Definition log_event (ev : Event) : M unit :=
  fun w => (Returns tt,
            {| fs := fs w; users := users w; now := now w; http := http w;
               db_faults := db_faults w; trace := trace w ++ [ev] |}).

Definition print (line : string) : M unit := log_event (EvPrint line).

(** *** HTTP: [requests.get] and [response.json()] *)

Definition API_URL : string :=
  "https://raw.githubusercontent.com/marclamberti/datasets/refs/heads/main/fakeuser.json".

Definition requests_get (url : string) : M Response :=
  fun w =>
    let w' := {| fs := fs w; users := users w; now := now w; http := tl (http w);
                 db_faults := db_faults w; trace := trace w ++ [EvHttpGet url] |} in
    match http w with
    | HttpResponds r :: _ => (Returns r, w')
    | HttpFails e :: _ => (Raises e, w')
    | [] => (Raises (Exn RequestException "connection failed"), w')
    end.

Definition response_json (r : Response) : M pyval := lift (json_body r).

(** *** Files *)

(** [open(path, "w", newline='')]: creates or truncates; nothing is
    translated on the way out. *)
Definition open_w (path : string) : M unit :=
  fun w => (Returns tt,
            {| fs := <[path := EmptyString]> (fs w); users := users w; now := now w;
               http := http w; db_faults := db_faults w;
               trace := trace w ++ [EvOpen path "w"] |}).

Definition file_write (path data : string) : M unit :=
  fun w => (Returns tt,
            {| fs := <[path := default EmptyString (fs w !! path) +:+ data]> (fs w);
               users := users w; now := now w; http := http w;
               db_faults := db_faults w; trace := trace w |}).

(** Text mode with the default [newline=None]: on input every CR LF, CR
    and LF ends a line and is handed over as LF.  The result is the list of
    lines a loop over the file object sees. *)
Fixpoint text_lines (s : string) : list string :=
  match s with
  | EmptyString => []
  | String c s' =>
      if Ascii.eqb c CR then
        match s' with
        | String c' s'' =>
            if Ascii.eqb c' LF then str1 LF :: text_lines s''
            else str1 LF :: text_lines s'
        | EmptyString => [str1 LF]
        end
      else if Ascii.eqb c LF then str1 LF :: text_lines s'
      else match text_lines s' with
           | [] => [str1 c]
           | l :: ls => String c l :: ls
           end
  end.

(** [open(path, "r")] followed by reading the lines; [path] is whatever
    value the caller holds.  An [int] (and a [bool], which is one) names a
    file descriptor, not a file: a negative one is refused, and since the
    world records files by path only, no descriptor is open in it.  The
    statements about [store_user] that need more than "nothing is written"
    take the pulled value to be a [str]. *)
Definition open_r (path : pyval) : M (list string) :=
  match path with
  | PyStr p =>
      if str_contains NUL p then raise (Exn ValueError "embedded null byte")
      else fun w =>
        let w' := {| fs := fs w; users := users w; now := now w; http := http w;
                     db_faults := db_faults w; trace := trace w ++ [EvOpen p "r"] |} in
        match fs w !! p with
        | Some content => (Returns (text_lines content), w')
        | None => (Raises (Exn FileNotFoundError p), w)
        end
  | PyInt fd =>
      if fd <? 0 then raise (Exn ValueError "negative file descriptor")
      else raise (Exn OSError "Bad file descriptor")
  | PyBool _ => raise (Exn OSError "Bad file descriptor")
  | _ => raise (Exn TypeError "expected str, bytes or os.PathLike object")
  end.

(** *** The run context and XCom *)

Record TaskInstance : Type := {
  xcoms : gmap string pyval;      (* task id to pushed return value *)
  pull_fault : option exn;        (* a failure of the XCom backend *)
}.

Record Context : Type := {
  task_instance : option TaskInstance;
}.

(** [context['task_instance']] *)
Definition context_task_instance (context : Context) : M TaskInstance :=
  match task_instance context with
  | Some ti => ret ti
  | None => raise (Exn KeyError "task_instance")
  end.

(** [ti.xcom_pull(task_ids=t)]: the value pushed by [t] in this run, [None]
    when there is none. *)
Definition xcom_pull (ti : TaskInstance) (task_ids : string) : M pyval :=
  match pull_fault ti with
  | Some e => raise e
  | None => ret (default PyNone (xcoms ti !! task_ids))
  end.

(** *** Subscripting and [keys] *)

(** [v[k]] for a string [k]. *)
Definition getitem (v : pyval) (k : string) : M pyval :=
  match v with
  | PyDict d =>
      match dict_get k d with
      | Some x => ret x
      | None => raise (Exn KeyError k)
      end
  | PyList _ => raise (Exn TypeError "list indices must be integers or slices, not str")
  | PyStr _ => raise (Exn TypeError "string indices must be integers, not 'str'")
  | PyNone => raise (Exn TypeError "'NoneType' object is not subscriptable")
  | PyBool _ => raise (Exn TypeError "'bool' object is not subscriptable")
  | PyInt _ => raise (Exn TypeError "'int' object is not subscriptable")
  end.

(** [v.keys()] *)
Definition py_keys (v : pyval) : M (list string) :=
  match v with
  | PyDict d => ret (dict_keys d)
  | _ => raise (Exn AttributeError "object has no attribute 'keys'")
  end.

(** ** The [csv] module, excel dialect

    delimiter [,], quotechar and doubled quotes, lineterminator CR LF,
    QUOTE_MINIMAL, no escapechar, not strict. *)

Module csv.

Definition field_size_limit : Z := 131072.

(** *** Writer *)

Definition special (c : ascii) : bool :=
  Ascii.eqb c COMMA || Ascii.eqb c DQUOTE || Ascii.eqb c CR || Ascii.eqb c LF.

Fixpoint needs_quoting (s : string) : bool :=
  match s with
  | EmptyString => false
  | String c s' => special c || needs_quoting s'
  end.

Fixpoint double_quotes (s : string) : string :=
  match s with
  | EmptyString => EmptyString
  | String c s' =>
      if Ascii.eqb c DQUOTE then String DQUOTE (String DQUOTE (double_quotes s'))
      else String c (double_quotes s')
  end.

Definition write_field (s : string) : string :=
  if needs_quoting s then String DQUOTE (double_quotes s +:+ str1 DQUOTE) else s.

(** The text of a cell: [None] is empty, a [str] is itself, anything else
    goes through [str]. *)
Definition cell_text (v : pyval) : string :=
  match v with
  | PyNone => EmptyString
  | _ => py_str v
  end.

(** [writer.writerow(row)]: the line handed to [f.write].  A record of one
    empty field is written as a pair of quotes. *)
Definition writerow (row : list pyval) : string :=
  let texts := map cell_text row in
  (match texts with
   | [t] => if str_is_empty t then String DQUOTE (str1 DQUOTE) else write_field t
   | _ => str_join (str1 COMMA) (map write_field texts)
   end) +:+ String CR (str1 LF).

(** *** [DictWriter], with [restval=''] and [extrasaction='raise'] *)

Definition dict_to_list (fieldnames : list string) (rowdict : list (string * pyval))
  : outcome (list pyval) :=
  if forallb (fun k => existsb (String.eqb k) fieldnames) (dict_keys rowdict)
  then Returns (map (fun k => default (PyStr EmptyString) (dict_get k rowdict)) fieldnames)
  else Raises (Exn ValueError "dict contains fields not in fieldnames").

Definition DictWriter_writerow (path : string) (fieldnames : list string)
           (rowdict : list (string * pyval)) : M unit :=
  do row <- lift (dict_to_list fieldnames rowdict);
  file_write path (writerow row).

Definition DictWriter_writeheader (path : string) (fieldnames : list string) : M unit :=
  DictWriter_writerow path fieldnames
    (dict_of_pairs (map (fun k => (k, PyStr k)) fieldnames)).

(** *** Reader

    The character automaton of the reader.  The escape states are left
    out: the excel dialect has no escapechar, so they are never entered. *)

Inductive ParserState : Type :=
| START_RECORD | START_FIELD | IN_FIELD
| IN_QUOTED_FIELD | QUOTE_IN_QUOTED_FIELD | EAT_CRNL.

Record Reader : Type := {
  state : ParserState;
  field : string;            (* the field being collected *)
  fields : list string;      (* the fields of the record so far *)
}.

(** What the automaton is fed: the characters of a line, then an
    end-of-line mark. *)
Inductive csvchar : Type :=
| Chr (c : ascii)
| EOL.

Definition is_newline (ch : csvchar) : bool :=
  match ch with
  | Chr c => Ascii.eqb c LF || Ascii.eqb c CR
  | EOL => false
  end.

Definition parse_reset : Reader :=
  {| state := START_RECORD; field := EmptyString; fields := [] |}.

Definition set_state (st : ParserState) (r : Reader) : Reader :=
  {| state := st; field := field r; fields := fields r |}.

Definition parse_save_field (r : Reader) : Reader :=
  {| state := state r; field := EmptyString; fields := fields r ++ [field r] |}.

Definition parse_add_char (r : Reader) (c : ascii) : outcome Reader :=
  if Z.of_nat (String.length (field r)) >=? field_size_limit
  then Raises (Exn csv_Error "field larger than field limit (131072)")
  else Returns {| state := state r; field := field r +:+ str1 c; fields := fields r |}.

Definition after_newline (ch : csvchar) : ParserState :=
  match ch with EOL => START_RECORD | Chr _ => EAT_CRNL end.

Definition start_field (r : Reader) (ch : csvchar) : outcome Reader :=
  match ch with
  | EOL => Returns (set_state START_RECORD (parse_save_field r))
  | Chr c =>
      if is_newline ch then Returns (set_state EAT_CRNL (parse_save_field r))
      else if Ascii.eqb c DQUOTE then Returns (set_state IN_QUOTED_FIELD r)
      else if Ascii.eqb c COMMA then Returns (parse_save_field r)
      else match parse_add_char r c with
           | Returns r' => Returns (set_state IN_FIELD r')
           | Raises e => Raises e
           end
  end.

Definition parse_process_char (r : Reader) (ch : csvchar) : outcome Reader :=
  match state r with
  | START_RECORD =>
      match ch with
      | EOL => Returns r
      | Chr _ =>
          if is_newline ch then Returns (set_state EAT_CRNL r)
          else start_field (set_state START_FIELD r) ch
      end
  | START_FIELD => start_field r ch
  | IN_FIELD =>
      match ch with
      | EOL => Returns (set_state START_RECORD (parse_save_field r))
      | Chr c =>
          if is_newline ch then Returns (set_state EAT_CRNL (parse_save_field r))
          else if Ascii.eqb c COMMA then Returns (set_state START_FIELD (parse_save_field r))
          else parse_add_char r c
      end
  | IN_QUOTED_FIELD =>
      match ch with
      | EOL => Returns r
      | Chr c =>
          if Ascii.eqb c DQUOTE then Returns (set_state QUOTE_IN_QUOTED_FIELD r)
          else parse_add_char r c
      end
  | QUOTE_IN_QUOTED_FIELD =>
      match ch with
      | EOL => Returns (set_state START_RECORD (parse_save_field r))
      | Chr c =>
          if Ascii.eqb c DQUOTE then
            match parse_add_char r c with
            | Returns r' => Returns (set_state IN_QUOTED_FIELD r')
            | Raises e => Raises e
            end
          else if Ascii.eqb c COMMA then Returns (set_state START_FIELD (parse_save_field r))
          else if is_newline ch then Returns (set_state EAT_CRNL (parse_save_field r))
          else match parse_add_char r c with
               | Returns r' => Returns (set_state IN_FIELD r')
               | Raises e => Raises e
               end
      end
  | EAT_CRNL =>
      match ch with
      | EOL => Returns (set_state START_RECORD r)
      | Chr _ =>
          if is_newline ch then Returns r
          else Raises (Exn csv_Error "new-line character seen in unquoted field")
      end
  end.

Fixpoint parse_chars (r : Reader) (line : string) : outcome Reader :=
  match line with
  | EmptyString => Returns r
  | String c rest =>
      match parse_process_char r (Chr c) with
      | Returns r' => parse_chars r' rest
      | Raises e => Raises e
      end
  end.

(** One line of input: its characters, then the end-of-line mark. *)
Definition parse_line (r : Reader) (line : string) : outcome Reader :=
  match parse_chars r line with
  | Returns r' => parse_process_char r' EOL
  | Raises e => Raises e
  end.

(** *** [DictReader] and the loop over it

    [for row in csv.DictReader(f): body(row)].  The reader pulls lines
    until a record is complete; the first record is the header, empty
    records after it are skipped, every other record becomes a dict and
    the body runs on it before the next line is pulled.  A value of a row
    dict is a [str], or [None] for a column the record is too short for;
    surplus fields go under the key [None], which no string key reaches,
    and are left out. *)

Fixpoint zip_row (fieldnames : list string) (row : list string)
  : list (string * option string) :=
  match fieldnames, row with
  | k :: ks, x :: xs => (k, Some x) :: zip_row ks xs
  | ks, [] => map (fun k => (k, None)) ks
  | [], _ => []
  end.

Definition row_dict (fieldnames row : list string) : list (string * option string) :=
  dict_of_pairs (zip_row fieldnames row).

(** What to do with a completed record. *)
Definition deliver (body : list (string * option string) -> M unit)
           (fieldnames : option (list string)) (record : list string)
  : M (option (list string)) :=
  match fieldnames with
  | None => ret (Some record)
  | Some names =>
      match record with
      | [] => ret fieldnames
      | _ => body (row_dict names record);; ret fieldnames
      end
  end.

Fixpoint DictReader_loop (body : list (string * option string) -> M unit)
         (fieldnames : option (list string)) (r : Reader) (lines : list string)
  : M unit :=
  match lines with
  | [] =>
      if negb (str_is_empty (field r))
         || match state r with IN_QUOTED_FIELD => true | _ => false end
      then deliver body fieldnames (fields (parse_save_field r));; ret tt
      else ret tt
  | line :: rest =>
      do r' <- lift (parse_line r line);
      match state r' with
      | START_RECORD =>
          do fieldnames' <- deliver body fieldnames (fields r');
          DictReader_loop body fieldnames' parse_reset rest
      | _ => DictReader_loop body fieldnames r' rest
      end
  end.

Definition DictReader_for_each (lines : list string)
           (body : list (string * option string) -> M unit) : M unit :=
  DictReader_loop body None parse_reset lines.

End csv.

(** ** PostgreSQL: the [users] relation and the statements of the DAG

    [users(id INT PRIMARY KEY, firstname VARCHAR(255), lastname VARCHAR(255),
    email VARCHAR(255), created_at TIMESTAMP DEFAULT CURRENT_TIMESTAMP)]. *)

Module pg.

(** Every call of the hook opens a connection; the next entry of
    [db_faults] says whether that fails.  The clock moves on with each
    statement. *)
Definition connect (statement : string) : M unit :=
  fun w =>
    let w' := {| fs := fs w; users := users w; now := now w + 1; http := http w;
                 db_faults := tl (db_faults w);
                 trace := trace w ++ [EvSql statement] |} in
    match db_faults w with
    | Some e :: _ => (Raises e, w')
    | _ => (Returns tt, w')
    end.

Definition get_table : M (list UserRow) :=
  fun w => match users w with
           | Some t => (Returns t, w)
           | None => (Raises (Exn DatabaseError "relation users does not exist"), w)
           end.

Definition set_table (t : list UserRow) : M unit :=
  fun w => (Returns tt,
            {| fs := fs w; users := Some t; now := now w; http := http w;
               db_faults := db_faults w; trace := trace w |}).

Definition current_timestamp : M Z := fun w => (Returns (now w), w).

(** [CREATE TABLE IF NOT EXISTS users (...)] *)
Definition create_table_sql : string := "CREATE TABLE IF NOT EXISTS users".

Definition create_table_if_not_exists : M unit :=
  connect create_table_sql;;
  fun w => match users w with
           | Some _ => (Returns tt, w)
           | None => set_table [] w
           end.

(** Input syntax of [INT]: blanks, an optional sign, decimal digits,
    blanks; the value has to fit 32 bits. *)
Definition is_space (c : ascii) : bool :=
  Ascii.eqb c SPACE || Ascii.eqb c TAB || Ascii.eqb c LF
  || Ascii.eqb c VT || Ascii.eqb c FF || Ascii.eqb c CR.

Fixpoint skip_spaces (s : string) : string :=
  match s with
  | String c s' => if is_space c then skip_spaces s' else s
  | EmptyString => s
  end.

Fixpoint split_digits (s : string) : string * string :=
  match s with
  | String c s' =>
      if ((48 <=? N_of_ascii c) && (N_of_ascii c <=? 57))%N
      then let (d, r) := split_digits s' in (String c d, r)
      else (EmptyString, s)
  | EmptyString => (EmptyString, EmptyString)
  end.

Definition int4in (s : string) : option Z :=
  let s1 := skip_spaces s in
  let (negative, s2) :=
    match s1 with
    | String c r =>
        if Ascii.eqb c "-" then (true, r)
        else if Ascii.eqb c "+" then (false, r)
        else (false, s1)
    | EmptyString => (false, s1)
    end in
  let (digits, s3) := split_digits s2 in
  match NilZero.uint_of_string digits, skip_spaces s3 with
  | Some u, EmptyString =>
      let z := if negative then - Z.of_uint u else Z.of_uint u in
      if (-2147483648 <=? z) && (z <=? 2147483647) then Some z else None
  | _, _ => None
  end.

(** Assignment to [VARCHAR(255)]: longer text is an error unless the
    surplus is all spaces, which is cut off. *)
Fixpoint all_spaces (s : string) : bool :=
  match s with
  | EmptyString => true
  | String c s' => Ascii.eqb c SPACE && all_spaces s'
  end.

Definition varchar255 (s : string) : option string :=
  if (String.length s <=? 255)%nat then Some s
  else if all_spaces (String.substring 255 (String.length s - 255) s)
       then Some (String.substring 0 255 s)
       else None.

Definition has_id (id : Z) (t : list UserRow) : bool :=
  existsb (fun r => u_id r =? id) t.

Definition insert_sql : string :=
  "INSERT INTO users (id, firstname, lastname, email) VALUES (%(id)s, %(firstname)s, %(lastname)s, %(email)s) ON CONFLICT (id) DO NOTHING".

(** The driver fills a placeholder [%(k)s] from [parameters[k]]: a
    missing key is a [KeyError], [None] becomes NULL, a [str] becomes a
    quoted literal and may not hold a NUL. *)
Definition placeholder (parameters : list (string * option string)) (k : string)
  : outcome (option string) :=
  match dict_get k parameters with
  | None => Raises (Exn KeyError k)
  | Some None => Returns None
  | Some (Some s) =>
      if str_contains NUL s
      then Raises (Exn ValueError "A string literal cannot contain NUL (0x00) characters.")
      else Returns (Some s)
  end.

Record InsertValues : Type := {
  v_id : option string;
  v_firstname : option string;
  v_lastname : option string;
  v_email : option string;
}.

(** Client side: the four placeholders, in the order of the statement. *)
Definition bind_parameters (parameters : list (string * option string))
  : outcome InsertValues :=
  do! p_id <- placeholder parameters "id";
  do! p_firstname <- placeholder parameters "firstname";
  do! p_lastname <- placeholder parameters "lastname";
  do! p_email <- placeholder parameters "email";
  Returns {| v_id := p_id; v_firstname := p_firstname;
             v_lastname := p_lastname; v_email := p_email |}.

Definition to_varchar255 (v : option string) : outcome (option string) :=
  match v with
  | None => Returns None
  | Some s =>
      match varchar255 s with
      | Some s' => Returns (Some s')
      | None => Raises (Exn DatabaseError "value too long for type character varying(255)")
      end
  end.

Definition to_int4 (v : option string) : outcome Z :=
  match v with
  | None => Raises (Exn DatabaseError "null value in column id violates not-null constraint")
  | Some s =>
      match int4in s with
      | Some z => Returns z
      | None => Raises (Exn DatabaseError "invalid input syntax for type integer")
      end
  end.

(** Server side: the literals are converted to the column types and
    [created_at] takes its default. *)
Definition new_row (v : InsertValues) (ts : Z) : outcome UserRow :=
  do! id <- to_int4 (v_id v);
  do! firstname <- to_varchar255 (v_firstname v);
  do! lastname <- to_varchar255 (v_lastname v);
  do! email <- to_varchar255 (v_email v);
  Returns {| u_id := id; u_firstname := firstname; u_lastname := lastname;
             u_email := email; u_created_at := ts |}.

(** [hook.run(insert_sql, parameters=row)]; a row whose [id] is taken is
    dropped by [ON CONFLICT (id) DO NOTHING]. *)
Definition run_insert (parameters : list (string * option string)) : M unit :=
  connect insert_sql;;
  do values <- lift (bind_parameters parameters);
  do t <- get_table;
  do ts <- current_timestamp;
  do row <- lift (new_row values ts);
  if has_id (u_id row) t then ret tt
  else set_table (t ++ [row]).

(** [hook.get_first(sql)]: the first row of the result, as a tuple, or
    [None]. *)
Definition count_sql : string := "SELECT COUNT(*) as count FROM users".
Definition latest_sql : string :=
  "SELECT id, firstname, lastname, email, created_at FROM users ORDER BY created_at DESC LIMIT 1".

Definition get_first_count : M (option (list pyval)) :=
  connect count_sql;;
  do t <- get_table;
  ret (Some [PyInt (Z.of_nat (length t))]).

Definition py_text (v : option string) : pyval :=
  match v with Some s => PyStr s | None => PyNone end.

(** A row with the greatest [created_at]; among equal ones the first. *)
Fixpoint latest_row (t : list UserRow) : option UserRow :=
  match t with
  | [] => None
  | r :: t' =>
      match latest_row t' with
      | Some r' => if u_created_at r <? u_created_at r' then Some r' else Some r
      | None => Some r
      end
  end.

Definition row_tuple (r : UserRow) : list pyval :=
  [PyInt (u_id r); py_text (u_firstname r); py_text (u_lastname r);
   py_text (u_email r); PyInt (u_created_at r)].

Definition get_first_latest : M (option (list pyval)) :=
  connect latest_sql;;
  do t <- get_table;
  ret (option_map row_tuple (latest_row t)).

End pg.

(** ** The tasks of the DAG *)

(** Task 1: [create_table] *)
Definition create_table : M unit := pg.create_table_if_not_exists.

(** Task 2: [is_api_available], one poke of the sensor *)

Record PokeReturnValue : Type := {
  is_done : bool;
  xcom_value : pyval;
}.

Definition poke_interval : Z := 10.
Definition timeout : Z := 300.

(** The body of the [try]: the request and, on status 200, the decoding
    of the answer. *)
Definition probe : M PokeReturnValue :=
  do response <- requests_get API_URL;
  if status_code response =? 200 then
    do fake_user <- response_json response;
    ret {| is_done := true; xcom_value := fake_user |}
  else
    ret {| is_done := false; xcom_value := PyNone |}.

Definition is_api_available : M PokeReturnValue :=
  try_except_Exception probe
    (fun e =>
       print ("API check failed: " +:+ exn_str e);;
       ret {| is_done := false; xcom_value := PyNone |}).

(** Task 3: [extract_user] *)

(** The value bound to [fake_user]: the sensor's XCom, or a direct fetch. *)
Definition extract_user_fake_user (context : Context) : M pyval :=
  try_except
    (do ti <- context_task_instance context;
     do fake_user <- xcom_pull ti "is_api_available";
     if is_none fake_user then raise (Exn ValueError "No data from sensor")
     else ret fake_user)
    (fun _ =>
       do response <- requests_get API_URL;
       response_json response).

(** The returned dict display; its items are evaluated left to right. *)
Definition extract_user_fields (fake_user : pyval) : M pyval :=
  do id <- getitem fake_user "id";
  do info1 <- getitem fake_user "personalInfo";
  do firstname <- getitem info1 "firstName";
  do info2 <- getitem fake_user "personalInfo";
  do lastname <- getitem info2 "lastName";
  do info3 <- getitem fake_user "personalInfo";
  do email <- getitem info3 "email";
  ret (PyDict [("id", id); ("firstname", firstname);
               ("lastname", lastname); ("email", email)]).

Definition extract_user (context : Context) : M pyval :=
  do fake_user <- extract_user_fake_user context;
  extract_user_fields fake_user.

(** Task 4: [process_user] *)

Definition sample_user : pyval :=
  PyDict [("id", PyStr "12345"); ("firstname", PyStr "John");
          ("lastname", PyStr "Doe"); ("email", PyStr "john.doe@example.com")].

Definition csv_path : string := "/tmp/user_info.csv".

(** The value bound to [user_info]. *)
Definition process_user_user_info (context : Context) : M pyval :=
  try_except
    (do ti <- context_task_instance context;
     do user_info <- xcom_pull ti "extract_user";
     if is_none user_info then raise (Exn ValueError "No data from extract_user")
     else ret user_info)
    (fun _ => ret sample_user).

(** [with open(path, "w", newline='') as f:] a [DictWriter] over the keys
    of [data] writes the header and the one row. *)
Definition write_csv (path : string) (data : pyval) : M unit :=
  open_w path;;
  do fieldnames <- py_keys data;
  csv.DictWriter_writeheader path fieldnames;;
  csv.DictWriter_writerow path fieldnames
    (match data with PyDict d => d | _ => [] end).

Definition process_user (context : Context) : M pyval :=
  do user_info <- process_user_user_info context;
  let csv_file_path := csv_path in
  write_csv csv_file_path user_info;;
  ret (PyStr csv_file_path).

(** Task 5: [store_user] *)

(** The value bound to [csv_file_path]. *)
Definition store_user_csv_file_path (context : Context) : M pyval :=
  try_except
    (do ti <- context_task_instance context;
     do csv_file_path <- xcom_pull ti "process_user";
     if is_none csv_file_path then raise (Exn ValueError "No CSV file path from process_user")
     else ret csv_file_path)
    (fun _ =>
       let csv_file_path := csv_path in
       let sample_data := sample_user in
       write_csv csv_file_path sample_data;;
       ret (PyStr csv_file_path)).

Definition store_user (context : Context) : M pyval :=
  do csv_file_path <- store_user_csv_file_path context;
  do f <- open_r csv_file_path;
  csv.DictReader_for_each f (fun row => pg.run_insert row);;
  ret (PyStr "User stored successfully").

(** Task 6: [validate_data] *)

(** [t[i]] on a tuple *)
Definition tuple_getitem (t : list pyval) (i : nat) : M pyval :=
  match nth_error t i with
  | Some v => ret v
  | None => raise (Exn IndexError "tuple index out of range")
  end.

(** Truth value of what [get_first] returned: [None] and the empty tuple
    are false. *)
Definition record_truthy (r : option (list pyval)) : bool :=
  match r with
  | Some (_ :: _) => true
  | _ => false
  end.

Definition validate_data (context : Context) : M pyval :=
  try_except_Exception
    (do result <- pg.get_first_count;
     do total_count <- (if record_truthy result
                        then tuple_getitem (default [] result) 0
                        else ret (PyInt 0));
     do latest_record <- pg.get_first_latest;
     print ("Total users in database: " +:+ py_str total_count);;
     (if record_truthy latest_record then
        do email <- tuple_getitem (default [] latest_record) 3;
        do id <- tuple_getitem (default [] latest_record) 0;
        print ("Latest user: " +:+ py_str email +:+ " (ID: " +:+ py_str id +:+ ")")
      else ret tt);;
     do latest_user <- (if record_truthy latest_record
                        then tuple_getitem (default [] latest_record) 3
                        else ret PyNone);
     ret (PyDict [("total_users", total_count);
                  ("latest_user", latest_user);
                  ("validation_status", PyStr "SUCCESS")]))
    (fun e =>
       print ("Data validation failed: " +:+ exn_str e);;
       raise e).

(** ** A run of the DAG

    [create_table >> is_api_available() >> extract_user() >> process_user()
    >> store_user() >> validate_data()]: each task starts when the one
    before it succeeded, and a return value other than [None] is pushed to
    XCom under the task's id. *)

Definition xcom_push (task_id : string) (v : pyval) (ti : TaskInstance) : TaskInstance :=
  if is_none v then ti
  else {| xcoms := <[task_id := v]> (xcoms ti); pull_fault := pull_fault ti |}.

Definition run_task (task_id : string) (task : Context -> M pyval) (ti : TaskInstance)
  : M TaskInstance :=
  do v <- task {| task_instance := Some ti |};
  ret (xcom_push task_id v ti).

(** [@task.sensor(poke_interval=10, timeout=300)]: the runtime pokes until
    a poke is done and pushes its [xcom_value]; when the time is up it
    raises.  How many pokes fit into [timeout] is decided by the wall
    clock, so their number is a parameter here. *)
Fixpoint sensor (pokes : nat) : M pyval :=
  match pokes with
  | O => raise (Exn AirflowSensorTimeout "Sensor has timed out")
  | S n =>
      do r <- is_api_available;
      if is_done r then ret (xcom_value r) else sensor n
  end.

Definition new_task_instance : TaskInstance :=
  {| xcoms := ∅; pull_fault := None |}.

Definition user_processing (pokes : nat) : M (TaskInstance * pyval) :=
  create_table;;
  do ti <- run_task "is_api_available" (fun _ => sensor pokes) new_task_instance;
  do ti <- run_task "extract_user" extract_user ti;
  do ti <- run_task "process_user" process_user ti;
  do ti <- run_task "store_user" store_user ti;
  do report <- validate_data {| task_instance := Some ti |};
  ret (ti, report).

(** ** Vocabulary of the statements *)

Definition set_fs (f : gmap string string) (w : World) : World :=
  {| fs := f; users := users w; now := now w; http := http w;
     db_faults := db_faults w; trace := trace w |}.

Definition add_trace (evs : list Event) (w : World) : World :=
  {| fs := fs w; users := users w; now := now w; http := http w;
     db_faults := db_faults w; trace := trace w ++ evs |}.

(** The upstream task left nothing to pull: the context has no task
    instance, the XCom backend fails, or the value is [None]. *)
Definition upstream_absent (context : Context) (task_id : string) : bool :=
  match task_instance context with
  | None => true
  | Some ti =>
      match pull_fault ti with
      | Some _ => true
      | None => is_none (default PyNone (xcoms ti !! task_id))
      end
  end.

(** The upstream task left the value [v]. *)
Definition upstream_value (context : Context) (task_id : string) : option pyval :=
  match task_instance context with
  | None => None
  | Some ti =>
      match pull_fault ti with
      | Some _ => None
      | None => xcoms ti !! task_id
      end
  end.

Definition CRLF : string := String CR (str1 LF).

(** The artifact of the placeholder record: header, one row. *)
Definition sample_csv : string :=
  "id,firstname,lastname,email" +:+ CRLF +:+
  "12345,John,Doe,john.doe@example.com" +:+ CRLF.

(** No database call of the rest of the run meets a connection fault. *)
Definition fault_free (w : World) : bool :=
  forallb (fun f => match f with None => true | Some _ => false end) (db_faults w).

Definition lacks (k : string) (d : list (string * pyval)) : bool :=
  match dict_get k d with None => true | Some _ => false end.

(** A payload that is an object in which [id], [personalInfo] or one of
    [firstName], [lastName], [email] of [personalInfo] is absent. *)
Definition required_key_absent (payload : pyval) : bool :=
  match payload with
  | PyDict d =>
      lacks "id" d || lacks "personalInfo" d ||
      match dict_get "personalInfo" d with
      | Some (PyDict info) => lacks "firstName" info || lacks "lastName" info || lacks "email" info
      | _ => false
      end
  | _ => false
  end.

Definition required_keys : list string :=
  ["id"; "personalInfo"; "firstName"; "lastName"; "email"].

Definition not_done : PokeReturnValue := {| is_done := false; xcom_value := PyNone |}.

(** The rows of the relation; none before the relation exists. *)
Definition table (w : World) : list UserRow := default [] (users w).

(** The world a database call continues in. *)
Definition after_connect (statement : string) (w : World) : World :=
  {| fs := fs w; users := users w; now := now w + 1; http := http w;
     db_faults := tl (db_faults w); trace := trace w ++ [EvSql statement] |}.

Definition ids (w : World) : list Z := map u_id (table w).

(** *** Vocabulary for the reader proofs *)

(** The lines of a text without CR, followed by the lines [L] of what
    comes after it: the last piece of the text joins the first of [L]. *)
Fixpoint glue (s : string) (L : list string) : list string :=
  match s with
  | EmptyString => L
  | String c s' =>
      if Ascii.eqb c LF then str1 LF :: glue s' L
      else match glue s' L with
           | [] => [str1 c]
           | l :: ls => String c l :: ls
           end
  end.

Definition cr_free (s : string) : bool := negb (str_contains CR s).

(** A field the reader can hold. *)
Definition fits (s : string) : Prop :=
  Z.of_nat (String.length s) <= csv.field_size_limit.

Definition mk_reader (st : csv.ParserState) (f : string) (fs : list string) : csv.Reader :=
  {| csv.state := st; csv.field := f; csv.fields := fs |}.

(** The reader has just passed the text of field [f], after the fields
    [acc]. *)
Inductive field_end (acc : list string) (f : string) : csv.Reader -> Prop :=
| fe_unquoted : f <> EmptyString -> field_end acc f (mk_reader csv.IN_FIELD f acc)
| fe_quoted : field_end acc f (mk_reader csv.QUOTE_IN_QUOTED_FIELD f acc)
| fe_empty : f = EmptyString -> field_end acc f (mk_reader csv.START_FIELD EmptyString acc)
| fe_empty_first : f = EmptyString -> acc = [] ->
    field_end acc f (mk_reader csv.START_RECORD EmptyString acc).

(** The reader is about to start a field, after the fields [acc]. *)
Inductive field_start (acc : list string) : csv.Reader -> Prop :=
| fs_record : acc = [] -> field_start acc (mk_reader csv.START_RECORD EmptyString acc)
| fs_field : field_start acc (mk_reader csv.START_FIELD EmptyString acc).

(** The text of the fields after the first of a record. *)
Fixpoint more_fields (texts : list string) : string :=
  match texts with
  | [] => EmptyString
  | t :: ts => String COMMA (csv.write_field t +:+ more_fields ts)
  end.

(** The text of a record, before its line terminator. *)
Definition row_text (texts : list string) : string :=
  match texts with
  | [t] => if str_is_empty t then String DQUOTE (str1 DQUOTE) else csv.write_field t
  | _ => str_join (str1 COMMA) (map csv.write_field texts)
  end.

(** A text the artifact carries unchanged: no CR, and short enough for the
    reader. *)
Definition clean (s : string) : Prop := cr_free s = true /\ fits s.

(** ** Vocabulary of the end-to-end statement *)

(** The four values of a payload of the documented shape
    [{id, personalInfo: {firstName, lastName, email}}]. *)
Definition payload_fields (payload : pyval) : option (pyval * pyval * pyval * pyval) :=
  match payload with
  | PyDict d =>
      match dict_get "id" d, dict_get "personalInfo" d with
      | Some id, Some (PyDict info) =>
          match dict_get "firstName" info, dict_get "lastName" info, dict_get "email" info with
          | Some firstName, Some lastName, Some email =>
              Some (id, firstName, lastName, email)
          | _, _, _ => None
          end
      | _, _ => None
      end
  | _ => None
  end.

(** The canonical record of four values. *)
Definition canonical (id firstname lastname email : pyval) : pyval :=
  PyDict [("id", id); ("firstname", firstname); ("lastname", lastname); ("email", email)].

(** An integer the [INT] column takes. *)
Definition int4_range (z : Z) : bool := (-2147483648 <=? z) && (z <=? 2147483647).

(** A text that passes through the artifact and into a [VARCHAR(255)]
    column as it is: no CR, no NUL, at most 255 characters. *)
Definition plain_text (s : string) : bool :=
  negb (str_contains CR s) && negb (str_contains NUL s) && (String.length s <=? 255)%nat.

(** The relation holds a row with these values. *)
Definition stores_row (id : Z) (firstname lastname email : string) (w : World) : bool :=
  existsb (fun r => (u_id r =? id)
                    && bool_decide (u_firstname r = Some firstname)
                    && bool_decide (u_lastname r = Some lastname)
                    && bool_decide (u_email r = Some email))
          (table w).

Definition ready (payload : pyval) : HttpOutcome :=
  HttpResponds {| status_code := 200; json_body := Returns payload |}.

Definition header_row : list pyval :=
  [PyStr "id"; PyStr "firstname"; PyStr "lastname"; PyStr "email"].

Definition new_user (id : Z) (firstname lastname email : string) (ts : Z) : UserRow :=
  {| u_id := id; u_firstname := Some firstname; u_lastname := Some lastname;
     u_email := Some email; u_created_at := ts |}.

(** ** Vocabulary of the further properties *)

(** The world after one GET request whose answer was the head of [http]. *)
Definition after_get (w : World) : World :=
  {| fs := fs w; users := users w; now := now w; http := tl (http w);
     db_faults := db_faults w; trace := trace w ++ [EvHttpGet API_URL] |}.

Definition is_dict (v : pyval) : bool :=
  match v with PyDict _ => true | _ => false end.

(** The text of several rows, one after the other. *)
Fixpoint written (rows : list (list pyval)) : string :=
  match rows with
  | [] => EmptyString
  | row :: more => csv.writerow row +:+ written more
  end.

(** The body on every record that is not empty, in order: what
    [for row in reader] comes to once the records are known. *)
Fixpoint for_rows (body : list (string * option string) -> M unit)
         (names : list string) (records : list (list string)) : M unit :=
  match records with
  | [] => ret tt
  | record :: more =>
      (match record with
       | [] => ret tt
       | _ => body (csv.row_dict names record)
       end);;
      for_rows body names more
  end.

(** The row dict of a record: every key with the text of its value. *)
Definition as_row (d : list (string * pyval)) : list (string * option string) :=
  map (fun kv => (fst kv, Some (csv.cell_text (snd kv)))) d.

(** A computation keeps a property of the world, however it ends. *)
Definition keeps {A} (P : World -> Prop) (m : M A) : Prop :=
  forall w o w', m w = (o, w') -> P w -> P w'.

(** ** Vocabulary of the answers a run meets *)

(** An answer on which a poke is not done and the sensor pokes again: a
    request that fails with an [Exception], a status other than 200, or a
    body that does not decode. *)
Definition not_ready (answer : HttpOutcome) : bool :=
  match answer with
  | HttpFails e => is_Exception e
  | HttpResponds r =>
      if status_code r =? 200
      then match json_body r with
           | Raises e => is_Exception e
           | Returns _ => false
           end
      else true
  end.

(** The answers from which a run obtains [payload]: a poke is done on a
    body that decodes to it, or the poke is done on [null], nothing is
    pushed, and [extract_user] takes the body of a request of its own,
    whatever the status. *)
Definition obtains (payload : pyval) (answers : list HttpOutcome) : Prop :=
  match answers with
  | HttpResponds r :: more =>
      status_code r = 200 /\
      (json_body r = Returns payload \/
       json_body r = Returns PyNone /\
       match more with
       | HttpResponds r' :: _ => json_body r' = Returns payload
       | _ => False
       end)
  | _ => False
  end.

(** ** Vocabulary of the rows of an artifact *)

(** The row a completed record gives the loop, if any: none for the
    header and for an empty record. *)
Definition delivered (fieldnames : option (list string)) (record : list string)
  : list (list (string * option string)) :=
  match fieldnames, record with
  | Some names, _ :: _ => [csv.row_dict names record]
  | _, _ => []
  end.

Definition fieldnames_after (fieldnames : option (list string)) (record : list string)
  : option (list string) :=
  match fieldnames with
  | None => Some record
  | Some _ => fieldnames
  end.

(** The rows [csv.DictReader] yields from the lines, up to a line the
    parser refuses: the reader of [csv.DictReader_loop] without the body. *)
Fixpoint DictReader_rows (fieldnames : option (list string)) (r : csv.Reader)
         (lines : list string) : list (list (string * option string)) :=
  match lines with
  | [] =>
      if negb (str_is_empty (csv.field r))
         || match csv.state r with csv.IN_QUOTED_FIELD => true | _ => false end
      then delivered fieldnames (csv.fields (csv.parse_save_field r))
      else []
  | line :: rest =>
      match csv.parse_line r line with
      | Raises _ => []
      | Returns r' =>
          match csv.state r' with
          | csv.START_RECORD =>
              delivered fieldnames (csv.fields r')
              ++ DictReader_rows (fieldnames_after fieldnames (csv.fields r'))
                   csv.parse_reset rest
          | _ => DictReader_rows fieldnames r' rest
          end
      end
  end.

(** The rows of an artifact, as [store_user] reads it. *)
Definition artifact_rows (content : string) : list (list (string * option string)) :=
  DictReader_rows None csv.parse_reset (text_lines content).

(** The rows of the relation with a given id. *)
Definition rows_with_id (id : Z) (w : World) : list UserRow :=
  List.filter (fun r => u_id r =? id) (table w).

(** The path of the artifact [store_user] reads: the fixed one when it
    fell back, else the pulled value when that is a [str]. *)
Definition artifact_path (context : Context) : option string :=
  if upstream_absent context "process_user" then Some csv_path
  else match upstream_value context "process_user" with
       | Some (PyStr p) => Some p
       | _ => None
       end.

(** ** The fallbacks of the stages *)

Lemma write_csv_sample (w : World) :
  write_csv csv_path sample_user w =
  (Returns tt, add_trace [EvOpen csv_path "w"] (set_fs (<[csv_path := sample_csv]> (fs w)) w)).
Proof.
  unfold write_csv, bind, open_w, py_keys, ret, sample_user. cbn.
  unfold csv.DictWriter_writeheader, csv.DictWriter_writerow, bind, lift, file_write. cbn.
  rewrite !lookup_insert_eq. cbn. rewrite !insert_insert_eq.
  reflexivity.
Qed.

(** The three stages select their input the same way. *)
Lemma try_pull (context : Context) (task_id : string) (e : exn) (fallback : M pyval) (w : World) :
  try_except
    (do ti <- context_task_instance context;
     do v <- xcom_pull ti task_id;
     if is_none v then raise e else ret v)
    (fun _ => fallback) w
  = if upstream_absent context task_id then fallback w
    else (Returns (default PyNone (upstream_value context task_id)), w).
Proof.
  unfold upstream_absent, upstream_value, try_except, bind,
    context_task_instance, xcom_pull.
  destruct (task_instance context) as [ti|]; [|reflexivity].
  unfold ret at 1. destruct (pull_fault ti); [reflexivity|].
  unfold ret at 1. destruct (xcoms ti !! task_id) as [[]|]; reflexivity.
Qed.

Lemma absent_process_user_user_info context w :
  upstream_absent context "extract_user" = true ->
  process_user_user_info context w = (Returns sample_user, w).
Proof.
  intros H. unfold process_user_user_info. rewrite try_pull, H. reflexivity.
Qed.

Lemma absent_store_user_csv_file_path context w :
  upstream_absent context "process_user" = true ->
  store_user_csv_file_path context w =
  (Returns (PyStr csv_path),
   add_trace [EvOpen csv_path "w"] (set_fs (<[csv_path := sample_csv]> (fs w)) w)).
Proof.
  intros H. unfold store_user_csv_file_path. rewrite try_pull, H.
  unfold bind. rewrite write_csv_sample. reflexivity.
Qed.

Lemma absent_process_user context w :
  upstream_absent context "extract_user" = true ->
  process_user context w =
  (Returns (PyStr csv_path),
   add_trace [EvOpen csv_path "w"] (set_fs (<[csv_path := sample_csv]> (fs w)) w)).
Proof.
  intros H. unfold process_user, bind.
  rewrite (absent_process_user_user_info _ _ H).
  rewrite write_csv_sample. reflexivity.
Qed.

(** C2.  When the result of [extract_user] is absent, [process_user]
    returns the artifact path and leaves at that path exactly the header row
    and the one row of the placeholder record (12345, John, Doe,
    john.doe@example.com); the content is the constant [sample_csv]
    whatever the run, and no other file is touched. *)
Theorem process_user_placeholder_artifact (context : Context) (w : World) :
  upstream_absent context "extract_user" = true ->
  exists w',
    process_user context w = (Returns (PyStr "/tmp/user_info.csv"), w') /\
    fs w' = <["/tmp/user_info.csv" := sample_csv]> (fs w) /\
    fs w' !! "/tmp/user_info.csv" =
      Some ("id,firstname,lastname,email" +:+ String CR (str1 LF) +:+
            "12345,John,Doe,john.doe@example.com" +:+ String CR (str1 LF)).
Proof.
  intros H. eexists. split; [apply (absent_process_user _ _ H)|].
  split; [reflexivity|]. cbn. apply lookup_insert_eq.
Qed.

Lemma process_user_placeholder_artifact_witness :
  exists w',
    process_user {| task_instance := None |}
      {| fs := ∅; users := None; now := 0; http := []; db_faults := []; trace := [] |}
    = (Returns (PyStr "/tmp/user_info.csv"), w') /\
    fs w' !! "/tmp/user_info.csv" =
      Some ("id,firstname,lastname,email" +:+ String CR (str1 LF) +:+
            "12345,John,Doe,john.doe@example.com" +:+ String CR (str1 LF)).
Proof.
  destruct (process_user_placeholder_artifact {| task_instance := None |}
      {| fs := ∅; users := None; now := 0; http := []; db_faults := []; trace := [] |})
    as (w' & H1 & _ & H3); [reflexivity|].
  exists w'. split; assumption.
Defined.

(** C9.  When the result of [process_user] is absent, the fallback of
    [store_user] is the same computation as [process_user] with its own
    upstream absent: same path, same world afterwards, and at the path the
    same header and placeholder row. *)
Theorem store_user_fallback_matches_process_user
        (context_store context_process : Context) (w : World) :
  upstream_absent context_store "process_user" = true ->
  upstream_absent context_process "extract_user" = true ->
  store_user_csv_file_path context_store w = process_user context_process w /\
  fst (store_user_csv_file_path context_store w) = Returns (PyStr csv_path) /\
  fs (snd (store_user_csv_file_path context_store w)) !! csv_path = Some sample_csv.
Proof.
  intros Hs Hp.
  rewrite (absent_store_user_csv_file_path _ _ Hs), (absent_process_user _ _ Hp).
  repeat split. cbn. apply lookup_insert_eq.
Qed.

Lemma store_user_fallback_matches_process_user_witness :
  let ti := {| xcoms := {["extract_user" := PyNone]}; pull_fault := None |} in
  let w := {| fs := ∅; users := Some []; now := 5; http := [];
              db_faults := []; trace := [] |} in
  store_user_csv_file_path {| task_instance := None |} w
  = process_user {| task_instance := Some ti |} w.
Proof.
  intros ti w.
  apply (store_user_fallback_matches_process_user
           {| task_instance := None |} {| task_instance := Some ti |} w);
    reflexivity.
Defined.

Lemma present_not_absent context task_id v :
  upstream_value context task_id = Some v -> v <> PyNone ->
  upstream_absent context task_id = false.
Proof.
  unfold upstream_value, upstream_absent.
  destruct (task_instance context) as [ti|]; [|discriminate].
  destruct (pull_fault ti); [discriminate|].
  intros -> Hv. destruct v; try reflexivity. congruence.
Qed.

(** A value other than [None] left by the upstream task is what the stage
    works on. *)
Lemma extract_user_present (context : Context) (v : pyval) (w : World) :
  upstream_value context "is_api_available" = Some v -> v <> PyNone ->
  extract_user_fake_user context w = (Returns v, w) /\
  extract_user context w = extract_user_fields v w.
Proof.
  intros Hup Hv. pose proof (present_not_absent _ _ _ Hup Hv) as Ha.
  unfold extract_user, bind, extract_user_fake_user.
  rewrite try_pull, Ha, Hup. split; reflexivity.
Qed.

Lemma process_user_present (context : Context) (v : pyval) (w : World) :
  upstream_value context "extract_user" = Some v -> v <> PyNone ->
  process_user_user_info context w = (Returns v, w) /\
  process_user context w = (write_csv csv_path v;; ret (PyStr csv_path)) w.
Proof.
  intros Hup Hv. pose proof (present_not_absent _ _ _ Hup Hv) as Ha.
  unfold process_user, bind, process_user_user_info.
  rewrite try_pull, Ha, Hup. split; reflexivity.
Qed.

Lemma store_user_present (context : Context) (v : pyval) (w : World) :
  upstream_value context "process_user" = Some v -> v <> PyNone ->
  store_user_csv_file_path context w = (Returns v, w) /\
  store_user context w =
    (do f <- open_r v;
     csv.DictReader_for_each f (fun row => pg.run_insert row);;
     ret (PyStr "User stored successfully")) w.
Proof.
  intros Hup Hv. pose proof (present_not_absent _ _ _ Hup Hv) as Ha.
  unfold store_user, bind, store_user_csv_file_path.
  rewrite try_pull, Ha, Hup. split; reflexivity.
Qed.

(** C5.  A value pulled from upstream that is not [None] is the input of
    the stage, also when it is falsy (an empty record, the id 0, an empty
    path): [extract_user], [process_user] and [store_user] go on with that
    very value and perform none of the effects of their fallback (no direct
    fetch, no placeholder file), the world being unchanged by the
    selection. *)
Theorem falsy_upstream_is_used (context : Context) (v : pyval) (w : World) :
  py_truthy v = false -> v <> PyNone ->
  (upstream_value context "is_api_available" = Some v ->
     extract_user_fake_user context w = (Returns v, w) /\
     extract_user context w = extract_user_fields v w) /\
  (upstream_value context "extract_user" = Some v ->
     process_user_user_info context w = (Returns v, w) /\
     process_user context w = (write_csv csv_path v;; ret (PyStr csv_path)) w) /\
  (upstream_value context "process_user" = Some v ->
     store_user_csv_file_path context w = (Returns v, w) /\
     store_user context w =
       (do f <- open_r v;
        csv.DictReader_for_each f (fun row => pg.run_insert row);;
        ret (PyStr "User stored successfully")) w).
Proof.
  intros _ Hv. split; [|split]; intros Hup.
  - now apply extract_user_present.
  - now apply process_user_present.
  - now apply store_user_present.
Qed.

Lemma falsy_upstream_is_used_witness :
  let context := {| task_instance := Some
       {| xcoms := {["is_api_available" := PyDict []]}; pull_fault := None |} |} in
  let w := {| fs := ∅; users := None; now := 0; http := []; db_faults := []; trace := [] |} in
  py_truthy (PyDict []) = false /\
  extract_user_fake_user context w = (Returns (PyDict []), w).
Proof.
  intros context w. split; [reflexivity|].
  refine (proj1 (proj1 (falsy_upstream_is_used context (PyDict []) w _ _) _)).
  - reflexivity.
  - discriminate.
  - reflexivity.
Defined.

Lemma getitem_lacks k d w :
  lacks k d = true -> getitem (PyDict d) k w = (Raises (Exn KeyError k), w).
Proof. unfold lacks, getitem. destruct (dict_get k d); [discriminate|reflexivity]. Qed.

Lemma getitem_has k d w :
  lacks k d = false -> exists x, dict_get k d = Some x /\ getitem (PyDict d) k w = (Returns x, w).
Proof.
  unfold lacks, getitem. destruct (dict_get k d) as [x|]; [|discriminate].
  intros _. exists x. split; reflexivity.
Qed.

Lemma extract_user_fields_missing (payload : pyval) (w : World) :
  required_key_absent payload = true ->
  exists k, In k required_keys /\
            extract_user_fields payload w = (Raises (Exn KeyError k), w).
Proof.
  unfold required_key_absent, required_keys.
  destruct payload as [| | | | |d]; try discriminate.
  unfold extract_user_fields, bind.
  destruct (lacks "id" d) eqn:Hid.
  { intros _. exists "id". split; [cbn; tauto|]. now rewrite getitem_lacks. }
  destruct (getitem_has _ _ w Hid) as (xid & _ & ->).
  destruct (lacks "personalInfo" d) eqn:Hpi.
  { intros _. exists "personalInfo". split; [cbn; tauto|]. now rewrite getitem_lacks. }
  destruct (getitem_has _ _ w Hpi) as (info & -> & Hg).
  rewrite !Hg. cbn [orb].
  destruct info as [| | | | |info]; try discriminate.
  destruct (lacks "firstName" info) eqn:Hfn.
  { intros _. exists "firstName". split; [cbn; tauto|]. now rewrite getitem_lacks. }
  destruct (getitem_has _ _ w Hfn) as (xfn & _ & ->). rewrite !Hg.
  destruct (lacks "lastName" info) eqn:Hln.
  { intros _. exists "lastName". split; [cbn; tauto|]. now rewrite getitem_lacks. }
  destruct (getitem_has _ _ w Hln) as (xln & _ & ->). rewrite !Hg.
  destruct (lacks "email" info) eqn:Hem; [|discriminate].
  intros _. exists "email". split; [cbn; tauto|]. now rewrite getitem_lacks.
Qed.

(** C4.  A payload that lacks [id], [personalInfo], or one of [firstName],
    [lastName], [email] inside [personalInfo] makes [extract_user] raise the
    [KeyError] of a required key (the schema mismatch): no field is filled
    in.  When the payload came from the sensor the stage does not turn to
    its direct fetch either, the world is left as it was; when it came from
    the direct fetch the error surfaces all the same. *)
Theorem extract_user_schema_mismatch (context : Context) (payload : pyval) (w : World) :
  required_key_absent payload = true ->
  (upstream_value context "is_api_available" = Some payload ->
     exists k, In k required_keys /\
               extract_user context w = (Raises (Exn KeyError k), w)) /\
  (upstream_absent context "is_api_available" = true ->
     forall status rest,
       http w = HttpResponds {| status_code := status; json_body := Returns payload |} :: rest ->
       exists k, In k required_keys /\
                 fst (extract_user context w) = Raises (Exn KeyError k)).
Proof.
  intros Hmiss. split.
  - intros Hup.
    assert (payload <> PyNone) as Hne by (destruct payload; discriminate).
    destruct (extract_user_fields_missing payload w Hmiss) as (k & Hk & Hf).
    exists k. split; [exact Hk|].
    unfold extract_user, bind, extract_user_fake_user.
    rewrite try_pull, (present_not_absent _ _ _ Hup Hne), Hup. exact Hf.
  - intros Habs status rest Hhttp.
    unfold extract_user, bind at 1, extract_user_fake_user.
    rewrite try_pull, Habs.
    unfold bind, requests_get, response_json, lift. rewrite Hhttp. cbn.
    match goal with |- context [extract_user_fields payload ?w'] =>
      destruct (extract_user_fields_missing payload w' Hmiss) as (k & Hk & Hf) end.
    exists k. split; [exact Hk|]. rewrite Hf. reflexivity.
Qed.

Lemma extract_user_schema_mismatch_witness :
  let payload := PyDict [("id", PyInt 7);
                         ("personalInfo", PyDict [("firstName", PyStr "Ann");
                                                  ("email", PyStr "ann@x.com")])] in
  let context := {| task_instance := Some
       {| xcoms := {["is_api_available" := payload]}; pull_fault := None |} |} in
  let w := {| fs := ∅; users := Some []; now := 0; http := []; db_faults := []; trace := [] |} in
  exists k, In k required_keys /\ extract_user context w = (Raises (Exn KeyError k), w).
Proof.
  intros payload context w.
  apply (proj1 (extract_user_schema_mismatch context payload w eq_refl)).
  reflexivity.
Defined.

(** C7, amended.  Whatever instance of [Exception] the probe raises
    during a poke, be it the request or the decoding of the answer, the
    poke itself returns: not done, no payload, the failure printed.  The
    sensor then goes on to its next poke.  The handler is [except
    Exception], so the statement is about instances of [Exception]. *)
Theorem poke_survives_probe_exception (w w1 : World) (e : exn) :
  is_Exception e = true ->
  probe w = (Raises e, w1) ->
  is_api_available w
    = (Returns not_done, add_trace [EvPrint ("API check failed: " +:+ exn_str e)] w1) /\
  forall pokes, sensor (S pokes) w
    = sensor pokes (add_trace [EvPrint ("API check failed: " +:+ exn_str e)] w1).
Proof.
  intros He Hp.
  assert (is_api_available w
    = (Returns not_done, add_trace [EvPrint ("API check failed: " +:+ exn_str e)] w1)) as H.
  { unfold is_api_available, try_except_Exception. rewrite Hp, He. reflexivity. }
  split; [exact H|].
  intros pokes. cbn [sensor]. unfold bind at 1. rewrite H. reflexivity.
Qed.

Lemma poke_survives_probe_exception_witness :
  let e := Exn JSONDecodeError "Expecting value: line 1 column 1 (char 0)" in
  let w := {| fs := ∅; users := Some []; now := 0;
              http := [HttpResponds {| status_code := 200; json_body := Raises e |}];
              db_faults := []; trace := [] |} in
  fst (is_api_available w) = Returns not_done.
Proof.
  intros e w.
  rewrite (proj1 (poke_survives_probe_exception w _ e eq_refl eq_refl)).
  reflexivity.
Defined.

(** C7 as stated fails for an exception that is no [Exception]: a
    [KeyboardInterrupt] raised by the request passes [except Exception],
    the poke raises it instead of returning not done, and the sensor fails
    with it although a later poke would have found the endpoint ready. *)
Lemma keyboard_interrupt_leaves_the_poke :
  let e := Exn KeyboardInterrupt EmptyString in
  let w := {| fs := ∅; users := Some []; now := 0;
              http := [HttpFails e; ready (PyDict [])];
              db_faults := []; trace := [] |} in
  fst (probe w) = Raises e /\
  fst (is_api_available w) = Raises e /\
  fst (sensor 2 w) = Raises e /\
  ~ (forall e' w' w1, probe w' = (Raises e', w1) ->
       exists w2, is_api_available w' = (Returns not_done, w2)).
Proof.
  intros e w.
  assert (fst (is_api_available w) = Raises e) as H by reflexivity.
  repeat split; try reflexivity.
  intros Hall.
  destruct (Hall e w (snd (probe w)) eq_refl) as (w2 & E).
  rewrite E in H. discriminate H.
Qed.

(** C6.  When the count query raises, or the count query returns and the
    latest-row query raises, [validate_data] raises that same exception:
    no report is returned in its place. *)
Theorem validate_data_reraises (context : Context) (w : World) (e : exn) :
  (forall w1, pg.get_first_count w = (Raises e, w1) ->
     fst (validate_data context w) = Raises e) /\
  (forall result w1 w2,
     pg.get_first_count w = (Returns result, w1) ->
     pg.get_first_latest w1 = (Raises e, w2) ->
     fst (validate_data context w) = Raises e).
Proof.
  split.
  - intros w1 H. unfold validate_data, try_except_Exception, bind at 1.
    rewrite H. destruct (is_Exception e); reflexivity.
  - intros result w1 w2 H1 H2.
    unfold validate_data, try_except_Exception, bind at 1.
    rewrite H1.
    assert (exists v, (if record_truthy result
                       then tuple_getitem (default [] result) 0
                       else ret (PyInt 0)) w1 = (Returns v, w1)) as [v Hv].
    { destruct result as [[|x t]|]; cbn; eauto. }
    unfold bind at 1. rewrite Hv.
    unfold bind at 1. rewrite H2.
    destruct (is_Exception e); reflexivity.
Qed.

Lemma validate_data_reraises_witness :
  let e := Exn DatabaseError "connection refused" in
  let w := {| fs := ∅; users := Some []; now := 0; http := [];
              db_faults := [None; Some e]; trace := [] |} in
  fst (validate_data {| task_instance := None |} w) = Raises e.
Proof.
  intros e w.
  apply (proj2 (validate_data_reraises {| task_instance := None |} w e)
               (Some [PyInt 0]) _ _ eq_refl eq_refl).
Defined.

(** C10.  A report returned by [validate_data] has [validation_status]
    equal to SUCCESS, there is no other value it can take; on an empty
    [users] relation the stage returns total 0, no latest user, SUCCESS. *)
Theorem validate_data_status_success (context : Context) (w : World) :
  (forall report w', validate_data context w = (Returns report, w') ->
     exists total latest,
       report = PyDict [("total_users", total); ("latest_user", latest);
                        ("validation_status", PyStr "SUCCESS")]) /\
  (users w = Some [] -> fault_free w = true ->
     fst (validate_data context w)
     = Returns (PyDict [("total_users", PyInt 0); ("latest_user", PyNone);
                        ("validation_status", PyStr "SUCCESS")])).
Proof.
  split.
  - intros report w'. unfold validate_data, try_except_Exception.
    match goal with |- context [match ?m w with _ => _ end] => destruct (m w) as [[r|e] w1] eqn:Hm end.
    + intros [= <- <-]. revert Hm. unfold bind.
      repeat match goal with
             | |- context [match ?x with (o, w') => _ end] =>
                 let o := fresh "o" in destruct x as [[o|?] ?]; try discriminate
             end.
      intros [= <-]. eauto.
    + destruct (is_Exception e); [|discriminate].
      unfold bind, print, log_event, raise. discriminate.
  - intros Hu Hf. unfold validate_data, try_except_Exception, bind,
      pg.get_first_count, pg.get_first_latest, pg.connect, pg.get_table, bind.
    unfold fault_free in Hf.
    destruct (db_faults w) as [|[f|] [|[g|] fl]]; cbn in Hf; try discriminate;
      cbn; rewrite Hu; reflexivity.
Qed.

Lemma validate_data_status_success_witness :
  let w := {| fs := ∅; users := Some []; now := 0; http := [];
              db_faults := []; trace := [] |} in
  fst (validate_data {| task_instance := None |} w)
  = Returns (PyDict [("total_users", PyInt 0); ("latest_user", PyNone);
                     ("validation_status", PyStr "SUCCESS")]).
Proof.
  intros w.
  apply (proj2 (validate_data_status_success {| task_instance := None |} w));
    reflexivity.
Defined.

(** ** The insert and the loop over the artifact *)

Section Insert.

(** [run_insert] in one piece. *)
Lemma run_insert_unfold (parameters : list (string * option string)) (w : World) :
  pg.run_insert parameters w =
  let w' := after_connect pg.insert_sql w in
  match db_faults w with
  | Some e :: _ => (Raises e, w')
  | _ =>
      match pg.bind_parameters parameters with
      | Raises e => (Raises e, w')
      | Returns values =>
          match users w with
          | None => (Raises (Exn DatabaseError "relation users does not exist"), w')
          | Some t =>
              match pg.new_row values (now w + 1) with
              | Raises e => (Raises e, w')
              | Returns row =>
                  if pg.has_id (u_id row) t then (Returns tt, w')
                  else (Returns tt,
                        {| fs := fs w; users := Some (t ++ [row]); now := now w + 1;
                           http := http w; db_faults := tl (db_faults w);
                           trace := trace w ++ [EvSql pg.insert_sql] |})
              end
          end
      end
  end.
Proof.
  unfold pg.run_insert, bind, pg.connect, lift, pg.get_table, pg.current_timestamp,
    pg.set_table, after_connect, ret.
  destruct (db_faults w) as [|[e|] fl]; cbn;
    destruct (pg.bind_parameters parameters); cbn; try reflexivity;
    destruct (users w); cbn; try reflexivity;
    destruct (pg.new_row a _); cbn; try reflexivity;
    destruct (pg.has_id _ _); reflexivity.
Qed.

Lemma has_id_app id t t' : pg.has_id id (t ++ t') = pg.has_id id t || pg.has_id id t'.
Proof. unfold pg.has_id. apply existsb_app. Qed.

Lemma has_id_In id t : pg.has_id id t = true <-> In id (map u_id t).
Proof.
  unfold pg.has_id. rewrite existsb_exists, in_map_iff. split.
  - intros (r & Hr & E). exists r. split; [lia|exact Hr].
  - intros (r & E & Hr). exists r. split; [exact Hr|lia].
Qed.

(** What a successful insert leaves behind. *)
Lemma run_insert_returns parameters w w' :
  pg.run_insert parameters w = (Returns tt, w') ->
  exists t values row,
    users w = Some t /\
    pg.bind_parameters parameters = Returns values /\
    pg.new_row values (now w + 1) = Returns row /\
    users w' = Some (if pg.has_id (u_id row) t then t else (t ++ [row])) /\
    fs w' = fs w /\ db_faults w' = tl (db_faults w).
Proof.
  rewrite run_insert_unfold. cbn zeta.
  destruct (db_faults w) as [|[e|] fl] eqn:Hf; try discriminate.
  all: destruct (pg.bind_parameters parameters) as [values|]; try discriminate.
  all: destruct (users w) as [t|] eqn:Hu; try discriminate.
  all: destruct (pg.new_row values (now w + 1)) as [row|] eqn:Hrow; try discriminate.
  all: destruct (pg.has_id (u_id row) t) eqn:Hid; intros [= <-].
  all: exists t, values, row; rewrite ?Hid; cbn; rewrite ?Hf; repeat split; auto.
Qed.

(** Whatever it does, an insert keeps the rows there are, keeps ids
    unique, and leaves the files alone. *)
Lemma run_insert_any parameters w o w' :
  pg.run_insert parameters w = (o, w') ->
  fs w' = fs w /\ db_faults w' = tl (db_faults w) /\
  (users w' = users w \/
   exists t row, users w = Some t /\ users w' = Some (t ++ [row]) /\
                 pg.has_id (u_id row) t = false).
Proof.
  rewrite run_insert_unfold. cbn zeta.
  destruct (db_faults w) as [|[e|] fl] eqn:Hf.
  all: try (intros [= <- <-]; cbn; rewrite ?Hf; auto).
  all: destruct (pg.bind_parameters parameters) as [values|];
    try (intros [= <- <-]; cbn; rewrite ?Hf; auto).
  all: destruct (users w) as [t|] eqn:Hu;
    try (intros [= <- <-]; cbn; rewrite ?Hf; auto).
  all: destruct (pg.new_row values (now w + 1)) as [row|] eqn:Hrow;
    try (intros [= <- <-]; cbn; rewrite ?Hf; auto).
  all: destruct (pg.has_id (u_id row) t) eqn:Hid; intros [= <- <-]; cbn; rewrite ?Hf.
  all: repeat split; eauto 6.
Qed.

(** An insert whose id is taken leaves the relation as it is, whatever
    names it carries. *)
Lemma run_insert_conflict parameters (s : string) (z : Z) w o w' :
  dict_get "id" parameters = Some (Some s) ->
  pg.int4in s = Some z ->
  pg.has_id z (table w) = true ->
  pg.run_insert parameters w = (o, w') ->
  users w' = users w.
Proof.
  intros Hs Hz Hid. rewrite run_insert_unfold. cbn zeta.
  destruct (db_faults w) as [|[e|] fl].
  all: try (intros [= <- <-]; reflexivity).
  all: destruct (pg.bind_parameters parameters) as [values|] eqn:Hb;
    try (intros [= <- <-]; reflexivity).
  all: assert (pg.v_id values = Some s) as Hv
      by (revert Hb; unfold pg.bind_parameters, obind, pg.placeholder at 1; rewrite Hs;
          destruct (str_contains NUL s); [discriminate|];
          do 3 (destruct (pg.placeholder _ _); [|discriminate]);
          intros [= <-]; reflexivity).
  all: unfold table in Hid.
  all: destruct (users w) as [t|] eqn:Hu; try (intros [= <- <-]; cbn; congruence).
  all: change (default [] (Some t)) with t in Hid.
  all: destruct (pg.new_row values (now w + 1)) as [row|] eqn:Hrow;
    try (intros [= <- <-]; cbn; congruence).
  all: assert (u_id row = z) as ->
      by (revert Hrow; unfold pg.new_row, obind, pg.to_int4; rewrite Hv, Hz;
          do 3 (destruct (pg.to_varchar255 _); [|discriminate]);
          intros [= <-]; reflexivity).
  all: rewrite Hid; intros [= <- <-]; cbn; congruence.
Qed.

End Insert.

Section Loop.

Variable body : list (string * option string) -> M unit.

(** A property of the world that every call of the body keeps is kept by
    the loop, however it ends. *)
Variable P : World -> Prop.
Hypothesis body_keeps : forall row w o w', body row w = (o, w') -> P w -> P w'.

Lemma deliver_keeps fieldnames record w o w' :
  csv.deliver body fieldnames record w = (o, w') -> P w -> P w'.
Proof.
  unfold csv.deliver. destruct fieldnames as [names|].
  - destruct record as [|x xs].
    + intros [= <- <-]. auto.
    + unfold bind. destruct (body _ w) as [[[]|e] w1] eqn:Hb.
      all: intros [= <- <-]; eauto.
  - intros [= <- <-]. auto.
Qed.

Lemma DictReader_loop_keeps lines :
  forall fieldnames r w o w',
    csv.DictReader_loop body fieldnames r lines w = (o, w') -> P w -> P w'.
Proof.
  induction lines as [|line rest IH]; intros fieldnames r w o w'; cbn [csv.DictReader_loop].
  - destruct (_ || _).
    + unfold bind. destruct (csv.deliver _ _ _ w) as [[fn'|e] w1] eqn:Hd.
      all: intros [= <- <-]; eauto using deliver_keeps.
    + intros [= <- <-]. auto.
  - unfold bind at 1, lift. destruct (csv.parse_line r line) as [r'|e].
    + destruct (csv.state r'); try (apply IH).
      unfold bind. destruct (csv.deliver _ _ _ w) as [[fn'|e] w1] eqn:Hd.
      * intros H Hw. eapply IH; [exact H|]. eauto using deliver_keeps.
      * intros [= <- <-]. eauto using deliver_keeps.
    + intros [= <- <-]. auto.
Qed.

End Loop.

Lemma fault_free_tl w w' :
  fault_free w = true -> db_faults w' = tl (db_faults w) -> fault_free w' = true.
Proof.
  unfold fault_free. intros H ->. destruct (db_faults w) as [|f fl]; [reflexivity|].
  cbn in *. apply andb_true_iff in H. tauto.
Qed.

(** An insert that went through once goes through again, and changes
    nothing, in any world whose relation is the one the run ended with. *)
Lemma run_insert_again parameters wa wa' wb w1 :
  pg.run_insert parameters wa = (Returns tt, wa') ->
  users wb = users w1 -> fault_free wb = true ->
  (forall id, In id (ids wa') -> In id (ids w1)) ->
  exists wb', pg.run_insert parameters wb = (Returns tt, wb') /\
              users wb' = users wb /\ fs wb' = fs wb /\ fault_free wb' = true.
Proof.
  intros Ha HT Hff Hsub.
  destruct (run_insert_returns _ _ _ Ha) as (t & values & row & Hu & Hb & Hrow & Hu' & _).
  assert (In (u_id row) (ids w1)) as Hin.
  { apply Hsub. unfold ids, table. rewrite Hu'. cbn.
    destruct (pg.has_id (u_id row) t) eqn:Hid.
    - now apply has_id_In.
    - rewrite map_app, in_app_iff. right. cbn. auto. }
  unfold ids, table in Hin.
  destruct (users w1) as [T|] eqn:Hw1; [cbn in Hin|destruct Hin].
  assert (exists ts, pg.new_row values (now wb + 1)
                     = Returns {| u_id := u_id row; u_firstname := u_firstname row;
                                  u_lastname := u_lastname row; u_email := u_email row;
                                  u_created_at := ts |}) as [ts Hrow'].
  { revert Hrow. unfold pg.new_row, obind.
    destruct (pg.to_int4 _); try discriminate.
    do 3 (destruct (pg.to_varchar255 _); try discriminate).
    intros [= <-]. eexists. reflexivity. }
  pose proof (run_insert_unfold parameters wb) as E. cbn zeta in E.
  rewrite Hb, HT, Hrow' in E. cbn [u_id] in E.
  apply has_id_In in Hin. rewrite Hin in E.
  assert (match db_faults wb with Some _ :: _ => False | _ => True end) as Hhd.
  { unfold fault_free in Hff. destruct (db_faults wb) as [|[e|] fl]; cbn in Hff; auto. discriminate. }
  exists (after_connect pg.insert_sql wb). split.
  - rewrite E. destruct (db_faults wb) as [|[e|] fl]; tauto.
  - repeat split. eapply fault_free_tl; [exact Hff|reflexivity].
Qed.

Lemma deliver_again fieldnames record fieldnames' wa wa' wb w1 :
  csv.deliver pg.run_insert fieldnames record wa = (Returns fieldnames', wa') ->
  users wb = users w1 -> fault_free wb = true ->
  (forall id, In id (ids wa') -> In id (ids w1)) ->
  exists wb', csv.deliver pg.run_insert fieldnames record wb = (Returns fieldnames', wb') /\
              users wb' = users wb /\ fs wb' = fs wb /\ fault_free wb' = true.
Proof.
  unfold csv.deliver. destruct fieldnames as [names|].
  - destruct record as [|x xs].
    + intros [= <- <-] HT Hff _. exists wb. auto.
    + unfold bind. destruct (pg.run_insert _ wa) as [[[]|e] w2] eqn:Ha; [|discriminate].
      intros [= <- <-] HT Hff Hsub.
      destruct (run_insert_again _ _ _ _ _ Ha HT Hff Hsub) as (wb' & -> & ?).
      exists wb'. auto.
  - intros [= <- <-] HT Hff _. exists wb. auto.
Qed.

(** Ids only accumulate. *)
Lemma run_insert_ids id0 : forall row w o w',
  pg.run_insert row w = (o, w') -> In id0 (ids w) -> In id0 (ids w').
Proof.
  intros row w o w' H. destruct (run_insert_any _ _ _ _ H) as (_ & _ & [E|(t & r & Hu & Hu' & _)]).
  - unfold ids, table. now rewrite E.
  - unfold ids, table. rewrite Hu, Hu'. cbn. rewrite map_app, in_app_iff. auto.
Qed.

(** The loop of [store_user], run a second time on the relation it produced. *)
Lemma store_loop_again lines :
  forall fieldnames r wa w1 wb,
    csv.DictReader_loop pg.run_insert fieldnames r lines wa = (Returns tt, w1) ->
    users wb = users w1 -> fault_free wb = true ->
    exists wb', csv.DictReader_loop pg.run_insert fieldnames r lines wb = (Returns tt, wb') /\
                users wb' = users wb /\ fs wb' = fs wb /\ fault_free wb' = true.
Proof.
  induction lines as [|line rest IH]; intros fieldnames r wa w1 wb; cbn [csv.DictReader_loop].
  - destruct (_ || _).
    + unfold bind. destruct (csv.deliver _ _ _ wa) as [[fn'|e] wa'] eqn:Hd; [|discriminate].
      intros [= <-] HT Hff.
      destruct (deliver_again _ _ _ _ _ _ _ Hd HT Hff (fun _ H => H)) as (wb' & -> & ?).
      exists wb'. auto.
    + intros [= <-] HT Hff. exists wb. auto.
  - unfold bind at 1 3, lift. destruct (csv.parse_line r line) as [r'|e]; [|discriminate].
    destruct (csv.state r'); try (apply IH).
    unfold bind. destruct (csv.deliver _ _ _ wa) as [[fn'|e] wa'] eqn:Hd; [|discriminate].
    intros Hrest HT Hff.
    assert (forall id, In id (ids wa') -> In id (ids w1)) as Hsub'.
    { intros id Hid.
      eapply (DictReader_loop_keeps pg.run_insert (fun w => In id (ids w)));
        [apply run_insert_ids|exact Hrest|exact Hid]. }
    destruct (deliver_again _ _ _ _ _ _ _ Hd HT Hff Hsub') as (wb' & -> & HT' & Hfs & Hff').
    destruct (IH _ _ _ _ wb' Hrest) as (wb'' & -> & ? & Hfs' & ?); [congruence|exact Hff'|].
    exists wb''. repeat split; auto; congruence.
Qed.

Lemma open_path_returns (p : string) w lines w' :
  open_r (PyStr p) w = (Returns lines, w') ->
  (exists content, fs w !! p = Some content /\ lines = text_lines content) /\
  fs w' = fs w /\ users w' = users w /\ db_faults w' = db_faults w /\
  forall wb, fs wb = fs w ->
    exists wb', open_r (PyStr p) wb = (Returns lines, wb') /\
                fs wb' = fs wb /\ users wb' = users wb /\ db_faults wb' = db_faults wb.
Proof.
  unfold open_r, raise.
  destruct (str_contains NUL p); [discriminate|].
  destruct (fs w !! p) as [content|] eqn:Hp; [|discriminate].
  intros [= <- <-]. split; [eauto|]. repeat split.
  intros wb Hwb. rewrite Hwb, Hp. eexists. repeat split.
Qed.

Lemma write_sample_then_path (w : World) :
  (write_csv csv_path sample_user;; ret (PyStr csv_path)) w =
  (Returns (PyStr csv_path),
   add_trace [EvOpen csv_path "w"] (set_fs (<[csv_path := sample_csv]> (fs w)) w)).
Proof. unfold bind. rewrite write_csv_sample. reflexivity. Qed.

(** The selection of the artifact path touches neither the relation nor
    the fault schedule, and selecting again in a world with the files it
    left gives the same path and the same files. *)
Lemma store_user_csv_file_path_returns context w v wa :
  store_user_csv_file_path context w = (Returns v, wa) ->
  users wa = users w /\ db_faults wa = db_faults w /\
  forall wb, fs wb = fs wa ->
    exists wb', store_user_csv_file_path context wb = (Returns v, wb') /\
                fs wb' = fs wb /\ users wb' = users wb /\ db_faults wb' = db_faults wb.
Proof.
  unfold store_user_csv_file_path. rewrite try_pull.
  destruct (upstream_absent context "process_user") eqn:Habs.
  - rewrite write_sample_then_path. intros [= <- <-]. repeat split.
    intros wb Hwb. eexists. split.
    + rewrite try_pull, Habs. apply write_sample_then_path.
    + cbn. rewrite Hwb. cbn. rewrite insert_insert_eq. repeat split.
  - intros [= <- <-]. repeat split.
    intros wb Hwb. exists wb. rewrite try_pull, Habs. repeat split.
Qed.

Lemma run_insert_extends t0 : forall row w o w',
  pg.run_insert row w = (o, w') ->
  (exists added, users w = Some (t0 ++ added) /\
                 (NoDup (map u_id t0) -> NoDup (map u_id (t0 ++ added)))) ->
  (exists added, users w' = Some (t0 ++ added) /\
                 (NoDup (map u_id t0) -> NoDup (map u_id (t0 ++ added)))).
Proof.
  intros row w o w' H (added & Hu & Hnd).
  destruct (run_insert_any _ _ _ _ H) as (_ & _ & [E|(t & r & Hu1 & Hu' & Hid)]).
  - exists added. rewrite E. auto.
  - rewrite Hu in Hu1. injection Hu1 as <-.
    exists (added ++ [r]). rewrite Hu', app_assoc. split; [reflexivity|].
    intros H0. specialize (Hnd H0). rewrite map_app. cbn.
    apply NoDup_app. repeat split; [exact Hnd| |apply NoDup_singleton].
    intros x Hx Hx'. apply list_elem_of_In in Hx. apply list_elem_of_In in Hx'.
    destruct Hx' as [<-|[]].
    apply has_id_In in Hx. congruence.
Qed.

Lemma run_insert_fs F : forall row w o w',
  pg.run_insert row w = (o, w') -> fs w = F -> fs w' = F.
Proof.
  intros row w o w' H <-. now destruct (run_insert_any _ _ _ _ H) as (-> & _).
Qed.

Section Visits.

Variable body : list (string * option string) -> M unit.

(** A property [Q row] of the world that the body establishes when it
    returns on [row], and that no later call of the body destroys, holds
    at the end of a loop that returns for every row of the artifact. *)
Variable Q : list (string * option string) -> World -> Prop.
Hypothesis body_establishes : forall row w w', body row w = (Returns tt, w') -> Q row w'.
Hypothesis body_keeps : forall row0 row w o w', body row w = (o, w') -> Q row0 w -> Q row0 w'.

Lemma deliver_visits fieldnames record w fieldnames' w' :
  csv.deliver body fieldnames record w = (Returns fieldnames', w') ->
  fieldnames' = fieldnames_after fieldnames record /\
  forall row, In row (delivered fieldnames record) -> Q row w'.
Proof.
  unfold csv.deliver, delivered, fieldnames_after. destruct fieldnames as [names|].
  - destruct record as [|x xs].
    + intros [= <- <-]. split; [reflexivity|]. intros row [].
    + unfold bind. destruct (body _ w) as [[[]|e] w1] eqn:Hb; [|discriminate].
      intros [= <- <-]. split; [reflexivity|]. intros row [<-|[]]. eauto.
  - intros [= <- <-]. split; [reflexivity|]. intros row [].
Qed.

Lemma DictReader_loop_visits lines :
  forall fieldnames r w w',
    csv.DictReader_loop body fieldnames r lines w = (Returns tt, w') ->
    forall row, In row (DictReader_rows fieldnames r lines) -> Q row w'.
Proof.
  induction lines as [|line rest IH]; intros fieldnames r w w';
    cbn [csv.DictReader_loop DictReader_rows].
  - destruct (_ || _); [|intros _ row []].
    unfold bind. destruct (csv.deliver _ _ _ w) as [[fn'|e] w1] eqn:Hd; [|discriminate].
    intros [= <-]. exact (proj2 (deliver_visits _ _ _ _ _ Hd)).
  - unfold bind at 1, lift. destruct (csv.parse_line r line) as [r'|e]; [|discriminate].
    destruct (csv.state r'); try (apply IH).
    unfold bind. destruct (csv.deliver _ _ _ w) as [[fn'|e] w1] eqn:Hd; [|discriminate].
    destruct (deliver_visits _ _ _ _ _ Hd) as (-> & Hnow).
    intros Hrest row [Hin|Hin]%in_app_iff.
    + eapply (DictReader_loop_keeps body (Q row)); [apply body_keeps|exact Hrest|].
      now apply Hnow.
    + eapply IH; [exact Hrest|exact Hin].
Qed.

End Visits.

(** An insert that returns has the id of its row in the relation. *)
Lemma run_insert_stores_id parameters w w' :
  pg.run_insert parameters w = (Returns tt, w') ->
  exists s id, dict_get "id" parameters = Some (Some s) /\ pg.int4in s = Some id /\
               In id (ids w').
Proof.
  intros H.
  destruct (run_insert_returns _ _ _ H) as (t & values & row & Hu & Hb & Hrow & Hu' & _).
  assert (exists s, dict_get "id" parameters = Some (Some s) /\ pg.v_id values = Some s /\
                    pg.int4in s = Some (u_id row)) as (s & Hs & _ & Hz).
  { revert Hb Hrow. unfold pg.bind_parameters, pg.new_row, obind, pg.placeholder at 1.
    destruct (dict_get "id" parameters) as [[s|]|]; [| |discriminate].
    - destruct (str_contains NUL s); [discriminate|].
      do 3 (destruct (pg.placeholder _ _); [|discriminate]).
      intros [= <-]. cbn [pg.v_id pg.to_int4].
      destruct (pg.int4in s) as [z|] eqn:Hz; [|discriminate].
      do 3 (destruct (pg.to_varchar255 _); [|discriminate]).
      intros [= <-]. exists s. cbn [u_id]. auto.
    - do 3 (destruct (pg.placeholder _ _); [|discriminate]).
      intros [= <-]. discriminate. }
  exists s, (u_id row). split; [exact Hs|]. split; [exact Hz|].
  unfold ids, table. rewrite Hu'. cbn.
  destruct (pg.has_id (u_id row) t) eqn:Hid.
  - now apply has_id_In.
  - rewrite map_app, in_app_iff. right. cbn. auto.
Qed.

Lemma rows_with_id_unique (id : Z) (w : World) :
  NoDup (ids w) -> (length (rows_with_id id w) <= 1)%nat.
Proof.
  unfold rows_with_id, ids. induction (table w) as [|r t IH]; cbn [List.filter map length]; [lia|].
  intros [Hr Ht]%NoDup_cons. specialize (IH Ht).
  destruct (u_id r =? id) eqn:E; [|exact IH].
  apply Z.eqb_eq in E. subst id. cbn [length].
  assert (List.filter (fun r0 => u_id r0 =? u_id r) t = []) as ->; [|cbn; lia].
  clear IH Ht. induction t as [|r0 t IH]; [reflexivity|]. cbn [List.filter].
  destruct (u_id r0 =? u_id r) eqn:E0.
  - apply Z.eqb_eq in E0. exfalso. apply Hr. cbn [map]. rewrite E0. apply list_elem_of_here.
  - apply IH. intros H. apply Hr. cbn [map]. now apply list_elem_of_further.
Qed.

Lemma rows_with_id_present (id : Z) (w : World) :
  In id (ids w) -> (1 <= length (rows_with_id id w))%nat.
Proof.
  unfold rows_with_id, ids. induction (table w) as [|r t IH]; cbn [List.filter map In]; [tauto|].
  destruct (u_id r =? id) eqn:E; [cbn; lia|].
  apply Z.eqb_neq in E. intros [?|Hin]; [contradiction|]. auto.
Qed.

(** C3.  Take the artifact at the path [store_user] reads.  A second run
    of [store_user] over the artifact of a first, successful run succeeds
    as well and leaves the relation and the files exactly as the first run
    left them.  The first run keeps every row it found and may only append
    rows with new ids.  So when the ids were unique before, the relation
    has, after the two runs, at most one row for any id and exactly one
    row for the id of every row of the artifact.  An insert whose id is
    taken is a no-op whatever the other values are: the first write
    wins. *)
Theorem store_user_twice (context : Context) (p : string) (w w1 : World)
        (result : pyval) :
  artifact_path context = Some p ->
  store_user context w = (Returns result, w1) ->
  fault_free w1 = true ->
  exists (content : string) (w2 : World),
    fs w1 !! p = Some content /\
    store_user context w1 = (Returns result, w2) /\
    users w2 = users w1 /\ fs w2 = fs w1 /\
    (forall t, users w = Some t ->
       exists added, users w1 = Some (t ++ added) /\
                     (NoDup (map u_id t) -> NoDup (map u_id (t ++ added)))) /\
    (NoDup (ids w) ->
     (forall id, (length (rows_with_id id w2) <= 1)%nat) /\
     (forall row, In row (artifact_rows content) ->
        exists s id, dict_get "id" row = Some (Some s) /\ pg.int4in s = Some id /\
                     length (rows_with_id id w2) = 1%nat)) /\
    (forall parameters s z wa o wb,
       dict_get "id" parameters = Some (Some s) -> pg.int4in s = Some z ->
       pg.has_id z (table wa) = true ->
       pg.run_insert parameters wa = (o, wb) -> users wb = users wa).
Proof.
  intros Hpath. unfold store_user. unfold bind at 1.
  destruct (store_user_csv_file_path context w) as [[v|e] wa] eqn:Hsel; [|discriminate].
  assert (v = PyStr p) as ->.
  { revert Hpath Hsel. unfold artifact_path, store_user_csv_file_path. rewrite try_pull.
    destruct (upstream_absent context "process_user").
    - rewrite write_sample_then_path. now intros [= <-] [= <- _].
    - destruct (upstream_value context "process_user") as [[| | |q| |]|]; try discriminate.
      cbn. now intros [= <-] [= <- _]. }
  unfold bind at 1.
  destruct (open_r (PyStr p) wa) as [[lines|e] wl] eqn:Hopen; [|discriminate].
  unfold bind at 1, csv.DictReader_for_each.
  destruct (csv.DictReader_loop _ _ _ lines wl) as [[[]|e] w1'] eqn:Hloop; [|discriminate].
  intros [= <- <-] Hff.
  destruct (store_user_csv_file_path_returns _ _ _ _ Hsel) as (Hua & Hfa & Hsel2).
  destruct (open_path_returns _ _ _ _ Hopen)
    as ((content & Hp & ->) & Hfsl & Hul & Hfl & Hopen2).
  assert (fs w1' = fs wl) as Hfs1.
  { eapply (DictReader_loop_keeps pg.run_insert (fun x => fs x = fs wl));
      [apply run_insert_fs|exact Hloop|reflexivity]. }
  (* the second run *)
  destruct (Hsel2 w1') as (wa2 & E1 & Hfs2 & Hu2 & Hf2); [congruence|].
  destruct (Hopen2 wa2) as (wl2 & E2 & Hfs3 & Hu3 & Hf3); [congruence|].
  destruct (store_loop_again (text_lines content) None csv.parse_reset wl w1' wl2 Hloop)
    as (w2 & E3 & Hu4 & Hfs4 & _); [congruence| |].
  { unfold fault_free in *. congruence. }
  assert (users w2 = users w1') as Hsame by congruence.
  (* what the first run did to the relation *)
  assert (forall t, users w = Some t ->
            exists added, users w1' = Some (t ++ added) /\
                          (NoDup (map u_id t) -> NoDup (map u_id (t ++ added)))) as Hgrow.
  { intros t Ht.
    eapply (DictReader_loop_keeps pg.run_insert
              (fun x => exists added, users x = Some (t ++ added) /\
                          (NoDup (map u_id t) -> NoDup (map u_id (t ++ added)))));
      [apply run_insert_extends|exact Hloop|].
    exists []. rewrite app_nil_r. split; [congruence|auto]. }
  exists content, w2. split; [congruence|].
  split.
  { unfold bind at 1. rewrite E1. unfold bind at 1. rewrite E2.
    unfold bind at 1, csv.DictReader_for_each.
    change (fun row => pg.run_insert row) with pg.run_insert.
    rewrite E3. reflexivity. }
  split; [exact Hsame|]. split; [congruence|]. split; [exact Hgrow|].
  split; [|intros parameters s z wx o wy; apply run_insert_conflict].
  intros Hnd.
  assert (NoDup (ids w2)) as Hnd2.
  { unfold ids, table in *. rewrite Hsame.
    destruct (users w) as [t|] eqn:Hu.
    - destruct (Hgrow t eq_refl) as (added & -> & Hkeep). cbn in *. auto.
    - assert (users w1' = None) as ->; [|constructor].
      eapply (DictReader_loop_keeps pg.run_insert (fun x => users x = None));
        [|exact Hloop|congruence].
      intros row x o x' Hx Hnone.
      destruct (run_insert_any _ _ _ _ Hx) as (_ & _ & [E|(t & r & Ht & _)]); congruence. }
  split; [intros id; now apply rows_with_id_unique|].
  intros row Hrow.
  assert (exists s id, dict_get "id" row = Some (Some s) /\ pg.int4in s = Some id /\
                       In id (ids w1')) as (s & id & Hs & Hid & Hin).
  { apply (DictReader_loop_visits pg.run_insert
             (fun row x => exists s id, dict_get "id" row = Some (Some s) /\
                                        pg.int4in s = Some id /\ In id (ids x)))
      with (lines := text_lines content) (fieldnames := None) (r := csv.parse_reset)
           (w := wl); [| |exact Hloop|exact Hrow].
    - intros row0 x x'. apply run_insert_stores_id.
    - intros row0 row1 x o x' Hx (s & id & ? & ? & ?). exists s, id.
      eauto using run_insert_ids. }
  exists s, id. split; [exact Hs|]. split; [exact Hid|].
  assert (In id (ids w2)) as Hin2 by (unfold ids, table in *; now rewrite Hsame).
  pose proof (rows_with_id_unique id w2 Hnd2). pose proof (rows_with_id_present id w2 Hin2).
  lia.
Qed.

Lemma store_user_twice_witness :
  let context := {| task_instance := None |} in
  let w := {| fs := ∅; users := Some []; now := 0; http := [];
              db_faults := []; trace := [] |} in
  let w1 := snd (store_user context w) in
  store_user context w = (Returns (PyStr "User stored successfully"), w1) /\
  fault_free w1 = true /\
  artifact_rows sample_csv
  = [[("id", Some "12345"); ("firstname", Some "John"); ("lastname", Some "Doe");
      ("email", Some "john.doe@example.com")]] /\
  exists w2, store_user context w1 = (Returns (PyStr "User stored successfully"), w2) /\
             users w2 = users w1 /\ fs w2 = fs w1 /\
             length (rows_with_id 12345 w2) = 1%nat.
Proof.
  intros context w w1.
  assert (store_user context w = (Returns (PyStr "User stored successfully"), w1)) as H1
    by (vm_compute; reflexivity).
  assert (fault_free w1 = true) as H2 by (vm_compute; reflexivity).
  split; [exact H1|]. split; [exact H2|]. split; [vm_compute; reflexivity|].
  destruct (store_user_twice context csv_path w w1 _ eq_refl H1 H2)
    as (content & w2 & Hc & E & Hu & Hfs & _ & Hone & _).
  exists w2. split; [exact E|]. split; [exact Hu|]. split; [exact Hfs|].
  assert (content = sample_csv) as ->
      by (vm_compute in Hc; injection Hc as <-; reflexivity).
  destruct Hone as (_ & Hone); [constructor|].
  destruct (Hone [("id", Some "12345"); ("firstname", Some "John"); ("lastname", Some "Doe");
                  ("email", Some "john.doe@example.com")])
    as (s & id & Hs & Hid & Hlen); [vm_compute; left; reflexivity|].
  cbn in Hs. injection Hs as <-.
  vm_compute in Hid. injection Hid as <-. exact Hlen.
Defined.

(** ** Strings *)

Lemma str_app_cons (x : ascii) (a b : string) : String x a +:+ b = String x (a +:+ b).
Proof. reflexivity. Qed.

Lemma str_app_nil_l (b : string) : EmptyString +:+ b = b.
Proof. reflexivity. Qed.

Lemma str_app_assoc (a b c : string) : (a +:+ b) +:+ c = a +:+ (b +:+ c).
Proof.
  induction a as [|x a IH]; [reflexivity|].
  rewrite !str_app_cons. now rewrite IH.
Qed.

Lemma str_app_nil_r (a : string) : a +:+ EmptyString = a.
Proof.
  induction a as [|x a IH]; [reflexivity|].
  rewrite str_app_cons. now rewrite IH.
Qed.

Lemma str_length_app (a b : string) :
  String.length (a +:+ b) = (String.length a + String.length b)%nat.
Proof.
  induction a as [|x a IH]; [reflexivity|].
  rewrite str_app_cons. cbn [String.length]. now rewrite IH.
Qed.

Lemma str_contains_app c (a b : string) :
  str_contains c (a +:+ b) = str_contains c a || str_contains c b.
Proof.
  induction a as [|x a IH]; [reflexivity|].
  rewrite str_app_cons. cbn [str_contains]. rewrite IH. apply orb_assoc.
Qed.

(** ** Text mode reading of a text without CR *)

Lemma glue_app (a b : string) (L : list string) : glue (a +:+ b) L = glue a (glue b L).
Proof.
  induction a as [|x a IH]; [reflexivity|].
  rewrite str_app_cons. cbn [glue]. now rewrite IH.
Qed.

Lemma glue_nonempty (s : string) (L : list string) : L <> [] -> glue s L <> [].
Proof.
  intros HL. induction s as [|c s IH]; cbn; [exact HL|].
  destruct (Ascii.eqb c LF); [discriminate|].
  destruct (glue s L); discriminate.
Qed.

Lemma text_lines_app (s t : string) :
  cr_free s = true -> text_lines (s +:+ t) = glue s (text_lines t).
Proof.
  unfold cr_free. induction s as [|c s IH]; [reflexivity|].
  rewrite str_app_cons. cbn [str_contains text_lines glue].
  rewrite negb_orb. intros [Hc Hs]%andb_true_iff.
  apply negb_true_iff in Hc. rewrite Hc.
  destruct (Ascii.eqb c LF); rewrite (IH Hs); reflexivity.
Qed.

Lemma text_lines_CRLF (t : string) : text_lines (CRLF +:+ t) = str1 LF :: text_lines t.
Proof. reflexivity. Qed.

(** ** The reader on what the writer wrote *)

Section ReaderSteps.

Variable body : list (string * option string) -> M unit.
Variable fieldnames : option (list string).

(** A character that is not LF stays on the current line. *)
Lemma loop_char (c : ascii) (s : string) (L : list string) (r r' : csv.Reader) (w : World) :
  Ascii.eqb c LF = false -> L <> [] ->
  csv.parse_process_char r (csv.Chr c) = Returns r' ->
  csv.DictReader_loop body fieldnames r (glue (String c s) L) w
  = csv.DictReader_loop body fieldnames r' (glue s L) w.
Proof.
  intros Hc HL Hstep. cbn [glue]. rewrite Hc.
  pose proof (glue_nonempty s L HL) as Hne.
  destruct (glue s L) as [|l ls]; [congruence|].
  cbn [csv.DictReader_loop]. unfold csv.parse_line. cbn [csv.parse_chars].
  rewrite Hstep. reflexivity.
Qed.

Lemma add_char_fits (st : csv.ParserState) (b : string) (acc : list string) (c : ascii) :
  fits (b +:+ str1 c) ->
  csv.parse_add_char (mk_reader st b acc) c = Returns (mk_reader st (b +:+ str1 c) acc).
Proof.
  unfold fits, csv.parse_add_char, mk_reader. cbn [csv.field csv.state csv.fields].
  rewrite str_length_app. cbn [String.length str1]. intros H.
  destruct (Z.geb_spec (Z.of_nat (String.length b)) csv.field_size_limit); [lia|reflexivity].
Qed.

Lemma fits_prefix (a b : string) : fits (a +:+ b) -> fits a.
Proof. unfold fits. rewrite str_length_app. lia. Qed.

Lemma app_snoc (b : string) (c : ascii) (s : string) : (b +:+ str1 c) +:+ s = b +:+ String c s.
Proof. rewrite str_app_assoc. reflexivity. Qed.

Lemma step_in_quoted (b : string) (acc : list string) (c : ascii) :
  Ascii.eqb c DQUOTE = false -> fits (b +:+ str1 c) ->
  csv.parse_process_char (mk_reader csv.IN_QUOTED_FIELD b acc) (csv.Chr c)
  = Returns (mk_reader csv.IN_QUOTED_FIELD (b +:+ str1 c) acc).
Proof.
  intros Hq Hfit. unfold csv.parse_process_char. cbn [csv.state mk_reader]. rewrite Hq.
  apply (add_char_fits csv.IN_QUOTED_FIELD); exact Hfit.
Qed.

Lemma step_quote_quote (b : string) (acc : list string) :
  fits (b +:+ str1 DQUOTE) ->
  csv.parse_process_char (mk_reader csv.QUOTE_IN_QUOTED_FIELD b acc) (csv.Chr DQUOTE)
  = Returns (mk_reader csv.IN_QUOTED_FIELD (b +:+ str1 DQUOTE) acc).
Proof.
  intros Hfit. unfold csv.parse_process_char. cbn [csv.state mk_reader].
  rewrite Ascii.eqb_refl.
  rewrite (add_char_fits csv.QUOTE_IN_QUOTED_FIELD) by exact Hfit. reflexivity.
Qed.

(** A line break inside quotes ends the line, not the record. *)
Lemma loop_quoted_newline (b : string) (acc : list string) (s : string)
      (L : list string) (w : World) :
  fits (b +:+ str1 LF) ->
  csv.DictReader_loop body fieldnames (mk_reader csv.IN_QUOTED_FIELD b acc)
    (glue (String LF s) L) w
  = csv.DictReader_loop body fieldnames (mk_reader csv.IN_QUOTED_FIELD (b +:+ str1 LF) acc)
      (glue s L) w.
Proof.
  intros Hfit. cbn [glue]. rewrite Ascii.eqb_refl.
  cbn [csv.DictReader_loop]. unfold csv.parse_line. cbn [csv.parse_chars str1].
  rewrite (step_in_quoted b acc LF eq_refl Hfit). reflexivity.
Qed.

(** Inside quotes: the escaped text of [f] is collected as [f], line
    breaks included. *)
Lemma loop_quoted (f : string) : forall (b : string) (acc : list string) (t : string)
    (L : list string) (w : World),
  cr_free f = true -> fits (b +:+ f) -> L <> [] ->
  csv.DictReader_loop body fieldnames (mk_reader csv.IN_QUOTED_FIELD b acc)
    (glue (csv.double_quotes f +:+ t) L) w
  = csv.DictReader_loop body fieldnames (mk_reader csv.IN_QUOTED_FIELD (b +:+ f) acc)
      (glue t L) w.
Proof.
  induction f as [|c f IH]; intros b acc t L w Hcr Hfit HL.
  - rewrite str_app_nil_r. reflexivity.
  - unfold cr_free in Hcr. cbn [str_contains] in Hcr. rewrite negb_orb in Hcr.
    apply andb_true_iff in Hcr as [Hc Hf]. apply negb_true_iff in Hc.
    rewrite <- app_snoc in Hfit |- *.
    pose proof (fits_prefix _ _ Hfit) as Hfit1.
    cbn [csv.double_quotes].
    destruct (Ascii.eqb c DQUOTE) eqn:Hq.
    + apply Ascii.eqb_eq in Hq. subst c. rewrite !str_app_cons.
      rewrite (loop_char DQUOTE _ L _ (mk_reader csv.QUOTE_IN_QUOTED_FIELD b acc));
        [|reflexivity|exact HL|reflexivity].
      rewrite (loop_char DQUOTE _ L _ (mk_reader csv.IN_QUOTED_FIELD (b +:+ str1 DQUOTE) acc));
        [|reflexivity|exact HL|apply step_quote_quote; exact Hfit1].
      apply IH; assumption.
    + rewrite str_app_cons. destruct (Ascii.eqb c LF) eqn:Hlf.
      * apply Ascii.eqb_eq in Hlf. subst c.
        rewrite loop_quoted_newline by exact Hfit1. apply IH; assumption.
      * rewrite (loop_char c _ L _ (mk_reader csv.IN_QUOTED_FIELD (b +:+ str1 c) acc));
          [|exact Hlf|exact HL|apply step_in_quoted; assumption].
        apply IH; assumption.
Qed.

Lemma special_false (c : ascii) :
  csv.special c = false ->
  Ascii.eqb c COMMA = false /\ Ascii.eqb c DQUOTE = false /\
  Ascii.eqb c CR = false /\ Ascii.eqb c LF = false.
Proof.
  unfold csv.special. intros H.
  repeat (apply orb_false_iff in H as [H ?]). auto.
Qed.

Lemma step_in_field (b : string) (acc : list string) (c : ascii) :
  csv.special c = false -> fits (b +:+ str1 c) ->
  csv.parse_process_char (mk_reader csv.IN_FIELD b acc) (csv.Chr c)
  = Returns (mk_reader csv.IN_FIELD (b +:+ str1 c) acc).
Proof.
  intros (Hcomma & _ & Hcr & Hlf)%special_false Hfit.
  unfold csv.parse_process_char. cbn [csv.state mk_reader csv.is_newline].
  rewrite Hlf, Hcr, Hcomma. cbn [orb].
  apply (add_char_fits csv.IN_FIELD); exact Hfit.
Qed.

(** Outside quotes: text without special characters is collected as it is. *)
Lemma loop_plain (s : string) : forall (b : string) (acc : list string) (t : string)
    (L : list string) (w : World),
  csv.needs_quoting s = false -> fits (b +:+ s) -> L <> [] ->
  csv.DictReader_loop body fieldnames (mk_reader csv.IN_FIELD b acc) (glue (s +:+ t) L) w
  = csv.DictReader_loop body fieldnames (mk_reader csv.IN_FIELD (b +:+ s) acc) (glue t L) w.
Proof.
  induction s as [|c s IH]; intros b acc t L w Hnq Hfit HL.
  - rewrite str_app_nil_r. reflexivity.
  - cbn [csv.needs_quoting] in Hnq. apply orb_false_iff in Hnq as [Hc Hs].
    rewrite <- app_snoc in Hfit |- *. rewrite str_app_cons.
    rewrite (loop_char c _ L _ (mk_reader csv.IN_FIELD (b +:+ str1 c) acc));
      [|apply (special_false c Hc)|exact HL
       |apply step_in_field; [exact Hc|exact (fits_prefix _ _ Hfit)]].
    apply IH; assumption.
Qed.

Lemma step_start_quote (acc : list string) (r : csv.Reader) :
  field_start acc r ->
  csv.parse_process_char r (csv.Chr DQUOTE)
  = Returns (mk_reader csv.IN_QUOTED_FIELD EmptyString acc).
Proof. intros []; reflexivity. Qed.

Lemma step_start_plain (acc : list string) (r : csv.Reader) (c : ascii) :
  field_start acc r -> csv.special c = false ->
  csv.parse_process_char r (csv.Chr c) = Returns (mk_reader csv.IN_FIELD (str1 c) acc).
Proof.
  intros Hr (Hcomma & Hq & Hcr & Hlf)%special_false.
  destruct Hr; unfold csv.parse_process_char, csv.start_field;
    cbn [csv.state mk_reader csv.is_newline csv.set_state];
    rewrite Hlf, Hcr, Hcomma, Hq; reflexivity.
Qed.

Lemma step_end_comma (acc : list string) (f : string) (r : csv.Reader) :
  field_end acc f r ->
  csv.parse_process_char r (csv.Chr COMMA)
  = Returns (mk_reader csv.START_FIELD EmptyString (acc ++ [f])).
Proof. intros [H| |H|H H']; subst; reflexivity. Qed.

Lemma line_end (acc : list string) (f : string) (r : csv.Reader) :
  field_end acc f r -> csv.state r <> csv.START_RECORD ->
  csv.parse_line r (str1 LF)
  = Returns (mk_reader csv.START_RECORD EmptyString (acc ++ [f])).
Proof. intros [H| |H|H H'] Hst; subst; try reflexivity. now cbn in Hst. Qed.

(** The text the writer makes of a field is read back as the field. *)
Lemma read_field (acc : list string) (f : string) (r : csv.Reader) :
  field_start acc r -> cr_free f = true -> fits f ->
  exists r1, field_end acc f r1 /\
    forall (t : string) (L : list string) (w : World), L <> [] ->
      csv.DictReader_loop body fieldnames r (glue (csv.write_field f +:+ t) L) w
      = csv.DictReader_loop body fieldnames r1 (glue t L) w.
Proof.
  intros Hr Hcr Hfit. unfold csv.write_field.
  destruct (csv.needs_quoting f) eqn:Hnq.
  - exists (mk_reader csv.QUOTE_IN_QUOTED_FIELD f acc). split; [constructor|].
    intros t L w HL. rewrite str_app_cons, str_app_assoc.
    rewrite (loop_char DQUOTE _ L _ _ w eq_refl HL (step_start_quote _ _ Hr)).
    rewrite loop_quoted by assumption. rewrite str_app_nil_l.
    change (str1 DQUOTE +:+ t) with (String DQUOTE t).
    apply loop_char; [reflexivity|exact HL|reflexivity].
  - destruct f as [|c f].
    + exists r. split; [destruct Hr; constructor; auto|]. reflexivity.
    + exists (mk_reader csv.IN_FIELD (String c f) acc).
      split; [constructor; discriminate|].
      intros t L w HL. cbn [csv.needs_quoting] in Hnq.
      apply orb_false_iff in Hnq as [Hc Hf]. rewrite str_app_cons.
      rewrite (loop_char c _ L _ _ w (proj2 (proj2 (proj2 (special_false c Hc)))) HL
                 (step_start_plain _ _ c Hr Hc)).
      apply (loop_plain f (str1 c)); assumption.
Qed.

Lemma field_end_not_first (acc : list string) (f : string) (r : csv.Reader) :
  field_end acc f r -> acc <> [] \/ f <> EmptyString -> csv.state r <> csv.START_RECORD.
Proof. intros [H| |H|H H'] [Ha|Hf]; subst; cbn; congruence. Qed.

(** The remaining fields of a record and its line end. *)
Lemma read_more_fields (texts : list string) :
  forall (acc : list string) (f : string) (r : csv.Reader) (L : list string) (w : World),
    field_end acc f r ->
    csv.state r <> csv.START_RECORD \/ texts <> [] ->
    Forall clean texts ->
    csv.DictReader_loop body fieldnames r (glue (more_fields texts) (str1 LF :: L)) w
    = (do fieldnames' <- csv.deliver body fieldnames (acc ++ f :: texts);
       csv.DictReader_loop body fieldnames' csv.parse_reset L) w.
Proof.
  induction texts as [|g texts IH]; intros acc f r L w Hend Hst Hclean.
  - destruct Hst as [Hst|]; [|congruence].
    cbn [more_fields glue csv.DictReader_loop].
    rewrite (line_end _ _ _ Hend Hst). reflexivity.
  - cbn [more_fields].
    rewrite (loop_char COMMA _ (str1 LF :: L) _ _ w eq_refl ltac:(discriminate)
               (step_end_comma _ _ _ Hend)).
    inversion Hclean as [|? ? [Hcr Hfit] Hrest]; subst.
    destruct (read_field (acc ++ [f]) g _ (fs_field _) Hcr Hfit) as (r1 & Hend1 & Hread).
    rewrite Hread by discriminate.
    rewrite (IH (acc ++ [f]) g r1 L w Hend1); [|left|exact Hrest].
    + rewrite <- app_assoc. reflexivity.
    + eapply field_end_not_first; [exact Hend1|]. left. destruct acc; discriminate.
Qed.

Lemma join_more (t : string) (texts : list string) :
  str_join (str1 COMMA) (map csv.write_field (t :: texts))
  = csv.write_field t +:+ more_fields texts.
Proof.
  revert t. induction texts as [|u texts IH]; intros t.
  - cbn. now rewrite str_app_nil_r.
  - change (str_join (str1 COMMA) (map csv.write_field (t :: u :: texts)))
      with (csv.write_field t +:+ str1 COMMA +:+
            str_join (str1 COMMA) (map csv.write_field (u :: texts))).
    rewrite IH. reflexivity.
Qed.

(** A record the writer wrote is read back field by field. *)
Lemma read_row (texts : list string) (L : list string) (w : World) :
  Forall clean texts ->
  csv.DictReader_loop body fieldnames csv.parse_reset (glue (row_text texts) (str1 LF :: L)) w
  = (do fieldnames' <- csv.deliver body fieldnames texts;
     csv.DictReader_loop body fieldnames' csv.parse_reset L) w.
Proof.
  intros Hclean. destruct texts as [|t [|u texts]].
  - reflexivity.
  - unfold row_text. inversion Hclean as [|? ? [Hcr Hfit] _]; subst.
    destruct t as [|c t]; cbn [str_is_empty].
    + reflexivity.
    + destruct (read_field [] (String c t) csv.parse_reset (fs_record _ eq_refl) Hcr Hfit)
        as (r1 & Hend1 & Hread).
      rewrite <- (str_app_nil_r (csv.write_field (String c t))).
      rewrite Hread by discriminate.
      apply (read_more_fields [] [] (String c t) r1 L w Hend1); [|constructor].
      left. eapply field_end_not_first; [exact Hend1|]. right. discriminate.
  - unfold row_text. rewrite join_more.
    inversion Hclean as [|? ? [Hcr Hfit] Hrest]; subst.
    destruct (read_field [] t csv.parse_reset (fs_record _ eq_refl) Hcr Hfit)
      as (r1 & Hend1 & Hread).
    rewrite Hread by discriminate.
    apply (read_more_fields (u :: texts) [] t r1 L w Hend1); [|exact Hrest].
    right. discriminate.
Qed.

End ReaderSteps.

(** ** The artifact, written and read back *)

Lemma cr_free_app (a b : string) : cr_free (a +:+ b) = cr_free a && cr_free b.
Proof. unfold cr_free. rewrite str_contains_app. apply negb_orb. Qed.

Lemma cr_free_double_quotes (s : string) : cr_free (csv.double_quotes s) = cr_free s.
Proof.
  unfold cr_free. f_equal. induction s as [|c s IH]; [reflexivity|].
  cbn [csv.double_quotes]. destruct (Ascii.eqb c DQUOTE) eqn:Hq.
  - apply Ascii.eqb_eq in Hq. subst c. cbn [str_contains]. now rewrite IH.
  - cbn [str_contains]. now rewrite IH.
Qed.

Lemma cr_free_write_field (s : string) : cr_free (csv.write_field s) = cr_free s.
Proof.
  unfold csv.write_field. destruct (csv.needs_quoting s); [|reflexivity].
  change (String DQUOTE (csv.double_quotes s +:+ str1 DQUOTE))
    with (str1 DQUOTE +:+ csv.double_quotes s +:+ str1 DQUOTE).
  rewrite !cr_free_app, cr_free_double_quotes.
  change (cr_free (str1 DQUOTE)) with true. now rewrite andb_true_r.
Qed.

Lemma cr_free_more_fields (texts : list string) :
  Forall clean texts -> cr_free (more_fields texts) = true.
Proof.
  induction 1 as [|t texts [Hcr _] _ IH]; [reflexivity|].
  cbn [more_fields].
  change (String COMMA (csv.write_field t +:+ more_fields texts))
    with (str1 COMMA +:+ csv.write_field t +:+ more_fields texts).
  rewrite !cr_free_app, cr_free_write_field, Hcr, IH. reflexivity.
Qed.

Lemma cr_free_row_text (texts : list string) :
  Forall clean texts -> cr_free (row_text texts) = true.
Proof.
  intros Hclean. destruct texts as [|t [|u texts]]; [reflexivity| |].
  - unfold row_text. destruct (str_is_empty t); [reflexivity|].
    rewrite cr_free_write_field. inversion Hclean as [|? ? [Hcr _] _]. exact Hcr.
  - unfold row_text. rewrite join_more, cr_free_app, cr_free_write_field.
    inversion Hclean as [|? ? [Hcr _] Hrest]; subst.
    rewrite Hcr. now apply cr_free_more_fields.
Qed.

Lemma writerow_row_text (row : list pyval) :
  csv.writerow row = row_text (map csv.cell_text row) +:+ CRLF.
Proof. reflexivity. Qed.

(** A row written by the writer and read through a text-mode file reaches
    the loop as the texts of its cells. *)
Lemma read_written_row (body : list (string * option string) -> M unit)
      (fieldnames : option (list string)) (row : list pyval) (rest : string) (w : World) :
  Forall clean (map csv.cell_text row) ->
  csv.DictReader_loop body fieldnames csv.parse_reset
    (text_lines (csv.writerow row +:+ rest)) w
  = (do fieldnames' <- csv.deliver body fieldnames (map csv.cell_text row);
     csv.DictReader_loop body fieldnames' csv.parse_reset (text_lines rest)) w.
Proof.
  intros Hclean.
  rewrite writerow_row_text, str_app_assoc.
  rewrite text_lines_app by (now apply cr_free_row_text).
  rewrite text_lines_CRLF. now apply read_row.
Qed.

(** ** Integers as text *)

Lemma string_of_uint_digits (d : Decimal.uint) :
  pg.split_digits (NilEmpty.string_of_uint d) = (NilEmpty.string_of_uint d, EmptyString).
Proof.
  induction d; cbn [NilEmpty.string_of_uint pg.split_digits]; try reflexivity.
  all: change ((48 <=? N_of_ascii _)%N && (N_of_ascii _ <=? 57)%N) with true.
  all: cbn match; rewrite IHd; reflexivity.
Qed.

Lemma int4in_str_of_Z (z : Z) :
  -2147483648 <= z <= 2147483647 -> pg.int4in (str_of_Z z) = Some z.
Proof.
  intros Hz. unfold str_of_Z, pg.int4in.
  assert (forall p, exists c s, NilEmpty.string_of_uint (Pos.to_uint p) = String c s /\
                                pg.is_space c = false /\
                                Ascii.eqb c "-" = false /\ Ascii.eqb c "+" = false) as Hhd.
  { intros p. pose proof (DecimalPos.Unsigned.to_uint_nonnil p) as Hnn.
    destruct (Pos.to_uint p); [congruence| ..]; cbn [NilEmpty.string_of_uint];
      eexists _, _; repeat split. }
  assert (forall p, NilZero.string_of_uint (Pos.to_uint p)
                    = NilEmpty.string_of_uint (Pos.to_uint p)) as Hnz.
  { intros p. pose proof (DecimalPos.Unsigned.to_uint_nonnil p) as Hnn.
    destruct (Pos.to_uint p); [congruence| ..]; reflexivity. }
  assert (forall p, NilZero.uint_of_string (NilEmpty.string_of_uint (Pos.to_uint p))
                    = Some (Pos.to_uint p)) as Hback.
  { intros p. rewrite <- Hnz. apply NilZero.usu. apply DecimalPos.Unsigned.to_uint_nonnil. }
  assert (forall p, Z.of_uint (Pos.to_uint p) = Z.pos p) as Hval.
  { intros p. unfold Z.of_uint. now rewrite DecimalPos.Unsigned.of_to. }
  destruct z as [|p|p]; cbn [Z.to_int NilZero.string_of_int].
  - reflexivity.
  - rewrite Hnz. destruct (Hhd p) as (c & s & E & Hsp & Hm & Hp).
    rewrite E. cbn [pg.skip_spaces]. rewrite Hsp, Hm, Hp. rewrite <- E.
    rewrite string_of_uint_digits, Hback. cbn [pg.skip_spaces]. rewrite Hval.
    destruct (Z.leb_spec (-2147483648) (Z.pos p)), (Z.leb_spec (Z.pos p) 2147483647);
      try lia. reflexivity.
  - rewrite Hnz. cbn [pg.skip_spaces pg.is_space].
    change (pg.is_space "-") with false. cbn match.
    change (Ascii.eqb "-" "-") with true. cbn match.
    rewrite string_of_uint_digits, Hback. cbn [pg.skip_spaces]. rewrite Hval.
    change (- Z.pos p) with (Z.neg p).
    destruct (Z.leb_spec (-2147483648) (Z.neg p)), (Z.leb_spec (Z.neg p) 2147483647);
      try lia. reflexivity.
Qed.

Lemma nb_digits_double (d : Decimal.uint) :
  (Decimal.nb_digits (Decimal.Little.double d) <= S (Decimal.nb_digits d) /\
   Decimal.nb_digits (Decimal.Little.succ_double d) <= S (Decimal.nb_digits d))%nat.
Proof.
  induction d as [| d [IH1 IH2] | d [IH1 IH2] | d [IH1 IH2] | d [IH1 IH2] | d [IH1 IH2]
                  | d [IH1 IH2] | d [IH1 IH2] | d [IH1 IH2] | d [IH1 IH2] | d [IH1 IH2]];
    cbn [Decimal.Little.double Decimal.Little.succ_double Decimal.nb_digits]; lia.
Qed.

Lemma nb_digits_to_little_uint (p : positive) :
  forall n : nat, Z.pos p < 2 ^ Z.of_nat n -> (Decimal.nb_digits (Pos.to_little_uint p) <= n)%nat.
Proof.
  induction p as [p IH|p IH|]; intros n Hn; cbn [Pos.to_little_uint].
  - destruct n as [|n]; [cbn in Hn; lia|].
    rewrite Nat2Z.inj_succ, Z.pow_succ_r in Hn by lia.
    pose proof (proj2 (nb_digits_double (Pos.to_little_uint p))).
    specialize (IH n ltac:(lia)). lia.
  - destruct n as [|n]; [cbn in Hn; lia|].
    rewrite Nat2Z.inj_succ, Z.pow_succ_r in Hn by lia.
    pose proof (proj1 (nb_digits_double (Pos.to_little_uint p))).
    specialize (IH n ltac:(lia)). lia.
  - destruct n as [|n]; [cbn in Hn; lia|]. cbn. lia.
Qed.

Lemma length_string_of_uint (d : Decimal.uint) :
  String.length (NilEmpty.string_of_uint d) = Decimal.nb_digits d.
Proof. induction d; cbn; congruence. Qed.

Lemma contains_string_of_uint (c : ascii) (d : Decimal.uint) :
  (N_of_ascii c <? 48)%N = true -> str_contains c (NilEmpty.string_of_uint d) = false.
Proof.
  intros Hc. induction d; cbn [NilEmpty.string_of_uint str_contains]; [reflexivity|..].
  all: rewrite IHd, orb_false_r; apply Ascii.eqb_neq; intros <-; discriminate.
Qed.

Lemma str_of_Z_pos (p : positive) :
  str_of_Z (Z.pos p) = NilEmpty.string_of_uint (Pos.to_uint p).
Proof.
  unfold str_of_Z. cbn [Z.to_int NilZero.string_of_int].
  pose proof (DecimalPos.Unsigned.to_uint_nonnil p).
  destruct (Pos.to_uint p); [congruence|..]; reflexivity.
Qed.

Lemma str_of_Z_neg (p : positive) :
  str_of_Z (Z.neg p) = String "-" (NilEmpty.string_of_uint (Pos.to_uint p)).
Proof.
  unfold str_of_Z. cbn [Z.to_int NilZero.string_of_int].
  pose proof (DecimalPos.Unsigned.to_uint_nonnil p).
  destruct (Pos.to_uint p); [congruence|..]; reflexivity.
Qed.

(** The decimal text of a 32-bit integer is short, and free of CR and NUL. *)
Lemma str_of_Z_plain (z : Z) :
  int4_range z = true ->
  clean (str_of_Z z) /\ str_contains NUL (str_of_Z z) = false.
Proof.
  unfold int4_range. intros [H1 H2]%andb_true_iff.
  apply Z.leb_le in H1. apply Z.leb_le in H2.
  assert (forall p, Z.pos p < 2 ^ Z.of_nat 32 ->
                    (String.length (NilEmpty.string_of_uint (Pos.to_uint p)) <= 32)%nat) as Hlen.
  { intros p Hp. rewrite length_string_of_uint. unfold Pos.to_uint.
    rewrite DecimalFacts.nb_digits_rev. now apply nb_digits_to_little_uint. }
  unfold clean, cr_free, fits, csv.field_size_limit.
  destruct z as [|p|p].
  - repeat split; cbn; lia.
  - rewrite str_of_Z_pos.
    rewrite !contains_string_of_uint by reflexivity.
    specialize (Hlen p ltac:(cbn; lia)). repeat split; lia.
  - rewrite str_of_Z_neg. cbn [str_contains String.length].
    rewrite !contains_string_of_uint by reflexivity.
    specialize (Hlen p ltac:(cbn; lia)). repeat split; lia.
Qed.

(** ** The stages on a well-formed payload *)

Lemma fault_free_head (w : World) :
  fault_free w = true ->
  match db_faults w with Some _ :: _ => False | _ => True end.
Proof.
  unfold fault_free. destruct (db_faults w) as [|[e|] fl]; cbn; auto. discriminate.
Qed.

Lemma connect_returns (statement : string) (w : World) :
  fault_free w = true ->
  pg.connect statement w = (Returns tt, after_connect statement w).
Proof.
  intros H%fault_free_head. unfold pg.connect, after_connect.
  destruct (db_faults w) as [|[e|] fl]; [reflexivity|tauto|reflexivity].
Qed.

Lemma fault_free_after_connect (statement : string) (w : World) :
  fault_free w = true -> fault_free (after_connect statement w) = true.
Proof. intros H. eapply fault_free_tl; [exact H|reflexivity]. Qed.

Lemma create_table_returns (w : World) :
  fault_free w = true ->
  exists w', create_table w = (Returns tt, w') /\
             users w' = Some (table w) /\ fs w' = fs w /\ http w' = http w /\
             now w' = now w + 1 /\ fault_free w' = true.
Proof.
  intros Hff. unfold create_table, pg.create_table_if_not_exists, bind.
  rewrite (connect_returns _ _ Hff).
  pose proof (fault_free_after_connect pg.create_table_sql w Hff) as Hff'.
  unfold table. cbn [users after_connect].
  destruct (users w) as [t|] eqn:Hu.
  - eexists. split; [reflexivity|]. cbn. rewrite Hu. repeat split. exact Hff'.
  - eexists. split; [reflexivity|]. cbn. repeat split. exact Hff'.
Qed.

Lemma sensor_ready (payload : pyval) (rest : list HttpOutcome) (pokes : nat) (w : World) :
  http w = ready payload :: rest ->
  exists w', sensor (S pokes) w = (Returns payload, w') /\
             users w' = users w /\ fs w' = fs w /\ now w' = now w /\
             db_faults w' = db_faults w.
Proof.
  intros Hh. cbn [sensor]. unfold bind, is_api_available, try_except_Exception, probe,
    bind, requests_get, response_json, lift, ready in *.
  rewrite Hh. cbn. eexists. split; [reflexivity|]. repeat split.
Qed.

(** A poke on an answer that is not ready returns not done; it consumes
    the answer and leaves files, relation, clock and fault schedule. *)
Lemma poke_not_ready (answer : HttpOutcome) (more : list HttpOutcome) (w : World) :
  http w = answer :: more -> not_ready answer = true ->
  exists w', is_api_available w = (Returns not_done, w') /\
             http w' = more /\ users w' = users w /\ fs w' = fs w /\
             now w' = now w /\ db_faults w' = db_faults w.
Proof.
  intros Hh Hn. unfold is_api_available, try_except_Exception, probe, bind at 1,
    requests_get. rewrite Hh. destruct answer as [e|r]; cbn [not_ready] in Hn.
  - rewrite Hn. eexists. split; [reflexivity|]. repeat split.
  - cbn beta iota zeta. destruct (status_code r =? 200).
    + unfold bind, response_json, lift. destruct (json_body r) as [v|e]; [discriminate|].
      rewrite Hn. eexists. split; [reflexivity|]. repeat split.
    + eexists. split; [reflexivity|]. repeat split.
Qed.

(** Pokes that are not ready are passed over: the sensor goes on with the
    answers after them. *)
Lemma sensor_passes (waiting : list HttpOutcome) :
  forall (answers : list HttpOutcome) (n : nat) (w : World),
    http w = waiting ++ answers -> forallb not_ready waiting = true ->
    exists w', sensor (length waiting + n) w = sensor n w' /\
               http w' = answers /\ users w' = users w /\ fs w' = fs w /\
               now w' = now w /\ db_faults w' = db_faults w.
Proof.
  induction waiting as [|answer waiting IH]; intros answers n w Hh Hall.
  - exists w. repeat split. exact Hh.
  - cbn [forallb] in Hall. apply andb_true_iff in Hall as [Hn Hall].
    destruct (poke_not_ready answer (waiting ++ answers) w Hh Hn)
      as (w1 & E & Hh1 & Hu1 & Hfs1 & Hn1 & Hd1).
    destruct (IH answers n w1 Hh1 Hall) as (w' & E' & Hh' & Hu' & Hfs' & Hn' & Hd').
    exists w'. split; [|repeat split; congruence].
    cbn [length Nat.add sensor]. unfold bind at 1. rewrite E. exact E'.
Qed.

(** A poke on status 200 and a body that decodes is done, whatever the
    body is. *)
Lemma sensor_done (r : Response) (more : list HttpOutcome) (v : pyval) (n : nat)
      (w : World) :
  http w = HttpResponds r :: more -> status_code r = 200 -> json_body r = Returns v ->
  sensor (S n) w = (Returns v, after_get w).
Proof.
  intros Hh Hs Hj. cbn [sensor]. unfold bind, is_api_available, try_except_Exception,
    probe, bind, requests_get, response_json, lift, after_get.
  rewrite Hh, Hs, Hj. reflexivity.
Qed.

(** With nothing pulled, [extract_user] maps the body of its own request. *)
Lemma extract_user_fetches (context : Context) (r : Response) (more : list HttpOutcome)
      (payload : pyval) (w : World) :
  upstream_absent context "is_api_available" = true ->
  http w = HttpResponds r :: more -> json_body r = Returns payload ->
  extract_user context w = extract_user_fields payload (after_get w).
Proof.
  intros Habs Hh Hj. unfold extract_user, bind at 1, extract_user_fake_user.
  rewrite try_pull, Habs. unfold bind, requests_get, response_json, lift, after_get.
  rewrite Hh, Hj. reflexivity.
Qed.

Lemma extract_user_fields_returns (payload id firstName lastName email : pyval) (w : World) :
  payload_fields payload = Some (id, firstName, lastName, email) ->
  extract_user_fields payload w = (Returns (canonical id firstName lastName email), w).
Proof.
  unfold payload_fields. destruct payload as [| | | | |d]; try discriminate.
  unfold extract_user_fields, bind, getitem, ret.
  destruct (dict_get "id" d) as [x|]; [|discriminate].
  destruct (dict_get "personalInfo" d) as [[| | | | |info]|]; try discriminate.
  destruct (dict_get "firstName" info) as [a|] eqn:Ha; [|discriminate].
  destruct (dict_get "lastName" info) as [b|] eqn:Hb; [|discriminate].
  destruct (dict_get "email" info) as [c|] eqn:Hc; [|discriminate].
  intros [= -> -> -> ->]. reflexivity.
Qed.

(** The artifact of a canonical record. *)
Lemma write_csv_canonical (id firstname lastname email : pyval) (w : World) :
  write_csv csv_path (canonical id firstname lastname email) w =
  (Returns tt,
   add_trace [EvOpen csv_path "w"]
     (set_fs (<[csv_path := csv.writerow header_row +:+
                            csv.writerow [id; firstname; lastname; email]]> (fs w)) w)).
Proof.
  unfold write_csv, canonical, bind, open_w, py_keys, ret,
    csv.DictWriter_writeheader, csv.DictWriter_writerow, bind, lift, file_write.
  cbn -[csv.writerow].
  rewrite !lookup_insert_eq. cbn -[csv.writerow]. rewrite !insert_insert_eq.
  reflexivity.
Qed.

Lemma plain_text_spec (s : string) :
  plain_text s = true ->
  clean s /\ str_contains NUL s = false /\ pg.varchar255 s = Some s.
Proof.
  unfold plain_text, clean, cr_free, fits, csv.field_size_limit, pg.varchar255.
  intros [[H1 H2]%andb_true_iff H3]%andb_true_iff.
  rewrite H1, H3. apply negb_true_iff in H2. apply Nat.leb_le in H3.
  repeat split; auto. lia.
Qed.

Lemma header_clean : Forall clean (map csv.cell_text header_row).
Proof.
  repeat constructor; unfold fits, csv.field_size_limit; cbn; lia.
Qed.

(** The insert of the row read from the artifact of a canonical record
    with a new id. *)
Lemma run_insert_canonical (z : Z) (fn ln em : string) (t : list UserRow) (w : World) :
  int4_range z = true -> plain_text fn = true -> plain_text ln = true ->
  plain_text em = true ->
  users w = Some t -> pg.has_id z t = false -> fault_free w = true ->
  exists w', pg.run_insert [("id", Some (str_of_Z z)); ("firstname", Some fn);
                            ("lastname", Some ln); ("email", Some em)] w
             = (Returns tt, w') /\
             users w' = Some (t ++ [new_user z fn ln em (now w + 1)]) /\
             fs w' = fs w /\ fault_free w' = true.
Proof.
  intros Hz Hfn Hln Hem Hu Hid Hff.
  destruct (str_of_Z_plain z Hz) as (_ & Hznul).
  destruct (plain_text_spec _ Hfn) as (_ & Hfnul & Hfv).
  destruct (plain_text_spec _ Hln) as (_ & Hlnul & Hlv).
  destruct (plain_text_spec _ Hem) as (_ & Henul & Hev).
  assert (-2147483648 <= z <= 2147483647) as Hrange.
  { unfold int4_range in Hz. apply andb_true_iff in Hz as [? ?]. lia. }
  rewrite run_insert_unfold. cbn zeta.
  assert (pg.bind_parameters [("id", Some (str_of_Z z)); ("firstname", Some fn);
                              ("lastname", Some ln); ("email", Some em)]
          = Returns {| pg.v_id := Some (str_of_Z z); pg.v_firstname := Some fn;
                       pg.v_lastname := Some ln; pg.v_email := Some em |}) as ->.
  { unfold pg.bind_parameters, pg.placeholder, obind. cbn [dict_get String.eqb Ascii.eqb Bool.eqb].
    cbn -[str_of_Z str_contains]. rewrite Hznul, Hfnul, Hlnul, Henul. reflexivity. }
  rewrite Hu.
  assert (pg.new_row {| pg.v_id := Some (str_of_Z z); pg.v_firstname := Some fn;
                        pg.v_lastname := Some ln; pg.v_email := Some em |} (now w + 1)
          = Returns (new_user z fn ln em (now w + 1))) as ->.
  { unfold pg.new_row, pg.to_int4, pg.to_varchar255, obind.
    cbn [pg.v_id pg.v_firstname pg.v_lastname pg.v_email].
    rewrite (int4in_str_of_Z z Hrange), Hfv, Hlv, Hev. reflexivity. }
  cbn [u_id new_user]. rewrite Hid.
  pose proof (fault_free_head w Hff) as Hhd.
  exists {| fs := fs w; users := Some (t ++ [new_user z fn ln em (now w + 1)]);
            now := now w + 1; http := http w; db_faults := tl (db_faults w);
            trace := trace w ++ [EvSql pg.insert_sql] |}.
  split.
  - destruct (db_faults w) as [|[e|] fl]; [reflexivity|tauto|reflexivity].
  - repeat split. eapply fault_free_tl; [exact Hff|reflexivity].
Qed.

(** [store_user]'s loop over the artifact of a canonical record. *)
Lemma store_loop_canonical (z : Z) (fn ln em : string) (t : list UserRow) (w : World) :
  int4_range z = true -> plain_text fn = true -> plain_text ln = true ->
  plain_text em = true ->
  users w = Some t -> pg.has_id z t = false -> fault_free w = true ->
  exists w',
    csv.DictReader_for_each
      (text_lines (csv.writerow header_row +:+
                   csv.writerow [PyInt z; PyStr fn; PyStr ln; PyStr em]))
      (fun row => pg.run_insert row) w = (Returns tt, w') /\
    users w' = Some (t ++ [new_user z fn ln em (now w + 1)]) /\
    fs w' = fs w /\ fault_free w' = true.
Proof.
  intros Hz Hfn Hln Hem Hu Hid Hff.
  destruct (run_insert_canonical z fn ln em t w Hz Hfn Hln Hem Hu Hid Hff)
    as (w' & Hins & Hw').
  exists w'. split; [|exact Hw'].
  unfold csv.DictReader_for_each.
  rewrite read_written_row by apply header_clean.
  unfold bind at 1. cbn [csv.deliver ret].
  rewrite <- (str_app_nil_r (csv.writerow _)).
  rewrite read_written_row.
  - unfold bind at 1. cbn [csv.deliver map csv.cell_text py_str py_repr header_row].
    unfold csv.row_dict, dict_of_pairs. cbn [csv.zip_row fold_left fst snd].
    cbn [dict_set String.eqb Ascii.eqb Bool.eqb].
    cbn [map fold_left]. unfold bind at 1. rewrite Hins. reflexivity.
  - destruct (str_of_Z_plain z Hz) as (Hzc & _).
    destruct (plain_text_spec _ Hfn) as (? & _).
    destruct (plain_text_spec _ Hln) as (? & _).
    destruct (plain_text_spec _ Hem) as (? & _).
    cbn [map csv.cell_text py_str py_repr].
    repeat (constructor; [assumption|]). constructor.
Qed.

Lemma validate_data_returns (context : Context) (t : list UserRow) (w : World) :
  users w = Some t -> fault_free w = true ->
  exists report w', validate_data context w = (Returns report, w') /\ users w' = Some t.
Proof.
  intros Hu Hff.
  unfold validate_data, try_except_Exception, bind,
    pg.get_first_count, pg.get_first_latest, pg.connect, pg.get_table, bind.
  unfold fault_free in Hff.
  destruct (db_faults w) as [|[f|] [|[g|] fl]]; cbn in Hff; try discriminate.
  all: cbn -[pg.latest_row]; rewrite Hu; cbn -[pg.latest_row].
  all: destruct (pg.latest_row t) as [r|]; cbn; eauto.
Qed.

Lemma upstream_value_pushed (ti : TaskInstance) (task_id : string) (v : pyval) :
  pull_fault ti = None -> v <> PyNone ->
  upstream_value {| task_instance := Some (xcom_push task_id v ti) |} task_id = Some v.
Proof.
  intros Hp Hv. unfold upstream_value, xcom_push. cbn [task_instance].
  destruct v; try congruence; cbn [is_none pull_fault xcoms]; rewrite Hp;
    apply lookup_insert_eq.
Qed.

Lemma pull_fault_pushed (ti : TaskInstance) (task_id : string) (v : pyval) :
  pull_fault (xcom_push task_id v ti) = pull_fault ti.
Proof. unfold xcom_push. destruct (is_none v); reflexivity. Qed.

(** C1 (amended).  Take a payload of the documented shape whose id is an
    integer of the [INT] range and whose three names are texts of at most
    255 characters without CR or NUL, a relation in which that id is not
    yet taken, and a database without connection faults.  When the run
    obtains this payload from the endpoint -- after any number of pokes
    that were not ready, from the poke that is done or, when that poke
    carried [null], from the request [extract_user] makes itself -- the
    run succeeds, [extract_user] returns the canonical record made of the
    four payload values, and [store_user] appends to [users] exactly one
    row, which holds these four values. *)
Theorem well_formed_payload_is_stored
        (payload : pyval) (id : Z) (firstName lastName email : string)
        (waiting answers : list HttpOutcome) (pokes : nat) (w : World) :
  payload_fields payload = Some (PyInt id, PyStr firstName, PyStr lastName, PyStr email) ->
  int4_range id = true ->
  plain_text firstName = true -> plain_text lastName = true -> plain_text email = true ->
  pg.has_id id (table w) = false ->
  fault_free w = true ->
  http w = waiting ++ answers ->
  forallb not_ready waiting = true -> (length waiting < pokes)%nat ->
  obtains payload answers ->
  exists ti report w',
    user_processing pokes w = (Returns (ti, report), w') /\
    xcoms ti !! "extract_user"
      = Some (canonical (PyInt id) (PyStr firstName) (PyStr lastName) (PyStr email)) /\
    users w' = Some (table w ++ [new_user id firstName lastName email (now w + 2)]) /\
    stores_row id firstName lastName email w' = true.
Proof.
  intros Hp Hid Hfn Hln Hem Hfresh Hff Hhttp Hwait Hlen Hobt.
  unfold user_processing.
  (* create_table *)
  destruct (create_table_returns w Hff) as (w1 & E1 & Hu1 & Hfs1 & Hh1 & Hn1 & Hff1).
  unfold bind at 1. rewrite E1.
  (* the sensor, then extract_user *)
  assert (payload <> PyNone) as Hpn by (destruct payload; discriminate).
  set (record := canonical (PyInt id) (PyStr firstName) (PyStr lastName) (PyStr email)).
  assert (exists ti1 wS w2,
            run_task "is_api_available" (fun _ => sensor pokes) new_task_instance w1
            = (Returns ti1, wS) /\
            pull_fault ti1 = None /\
            extract_user {| task_instance := Some ti1 |} wS = (Returns record, w2) /\
            users w2 = users w1 /\ fs w2 = fs w1 /\ now w2 = now w1 /\
            db_faults w2 = db_faults w1)
    as (ti1 & wS & w2 & ES & Hpf1 & E3 & Hu2 & Hfs2 & Hn2 & Hf2).
  { replace pokes with (length waiting + S (pokes - S (length waiting)))%nat by lia.
    destruct (sensor_passes waiting answers (S (pokes - S (length waiting))) w1
                ltac:(congruence) Hwait) as (wP & EP & HhP & HuP & HfsP & HnP & HdP).
    unfold run_task, bind at 1. rewrite EP.
    destruct answers as [|[e|r] more]; cbn [obtains] in Hobt; try contradiction.
    destruct Hobt as (H200 & [Hj|(Hj & Hmore)]).
    - rewrite (sensor_done r more payload _ wP HhP H200 Hj). unfold ret.
      exists (xcom_push "is_api_available" payload new_task_instance),
        (after_get wP), (after_get wP).
      split; [reflexivity|]. split; [apply pull_fault_pushed|].
      split; [|cbn [after_get users fs now db_faults]; repeat split; assumption].
      pose proof (upstream_value_pushed new_task_instance "is_api_available" payload
                    eq_refl Hpn) as Hv.
      rewrite (proj2 (extract_user_present _ _ _ Hv Hpn)).
      now apply extract_user_fields_returns.
    - rewrite (sensor_done r more PyNone _ wP HhP H200 Hj). unfold ret.
      destruct more as [|[e'|r'] more']; try contradiction.
      exists new_task_instance, (after_get wP), (after_get (after_get wP)).
      split; [reflexivity|]. split; [reflexivity|].
      split; [|cbn [after_get users fs now db_faults]; repeat split; assumption].
      rewrite (extract_user_fetches {| task_instance := Some new_task_instance |}
                 r' more' payload (after_get wP) eq_refl
                 ltac:(cbn [after_get http]; rewrite HhP; reflexivity) Hmore).
      now apply extract_user_fields_returns. }
  unfold bind at 1. rewrite ES.
  unfold bind at 1, run_task at 1, bind at 1. rewrite E3. unfold ret at 1.
  set (ti2 := xcom_push "extract_user" record ti1).
  (* process_user *)
  unfold bind at 1, run_task at 1, bind at 1.
  assert (record <> PyNone) as Hrn by discriminate.
  assert (pull_fault ti2 = None) as Hpf2 by (unfold ti2; now rewrite pull_fault_pushed).
  pose proof (upstream_value_pushed ti1 "extract_user" record Hpf1 Hrn) as Hv2.
  fold ti2 in Hv2.
  assert (process_user {| task_instance := Some ti2 |} w2
          = (Returns (PyStr csv_path),
             add_trace [EvOpen csv_path "w"]
               (set_fs (<[csv_path := csv.writerow header_row +:+
                            csv.writerow [PyInt id; PyStr firstName; PyStr lastName;
                                          PyStr email]]> (fs w2)) w2))) as E4.
  { rewrite (proj2 (process_user_present _ _ w2 Hv2 Hrn)).
    unfold bind, record. rewrite write_csv_canonical. reflexivity. }
  rewrite E4. unfold ret at 1.
  set (w3 := add_trace _ _).
  set (ti3 := xcom_push "process_user" (PyStr csv_path) ti2).
  assert (pull_fault ti3 = None) as Hpf3 by (unfold ti3; now rewrite pull_fault_pushed).
  pose proof (upstream_value_pushed ti2 "process_user" (PyStr csv_path) Hpf2
                ltac:(discriminate)) as Hv3.
  fold ti3 in Hv3.
  (* store_user *)
  assert (users w3 = Some (table w)) as Hu3 by (unfold w3; cbn; congruence).
  assert (fault_free w3 = true) as Hff3.
  { unfold fault_free in *. unfold w3. cbn. now rewrite Hf2. }
  assert (now w3 = now w + 1) as Hn3 by (unfold w3; cbn; congruence).
  set (w3r := add_trace [EvOpen csv_path "r"] w3).
  destruct (store_loop_canonical id firstName lastName email (table w) w3r
              Hid Hfn Hln Hem Hu3 Hfresh Hff3)
    as (w4 & E5 & Hu4 & Hfs4 & Hff4).
  change (now w3r) with (now w3) in Hu4.
  unfold bind at 1, run_task at 1, bind at 1.
  assert (store_user {| task_instance := Some ti3 |} w3
          = (Returns (PyStr "User stored successfully"), w4)) as E6.
  { rewrite (proj2 (store_user_present _ _ w3 Hv3 ltac:(discriminate))).
    unfold bind at 1, open_r. cbn [str_contains csv_path Ascii.eqb Bool.eqb NUL orb].
    unfold w3 at 1 2. cbn [fs add_trace set_fs]. rewrite lookup_insert_eq.
    match goal with
    | |- _ ?x = _ => change x with w3r
    end.
    unfold bind at 1. rewrite E5. reflexivity. }
  rewrite E6. unfold ret at 1.
  (* validate_data *)
  destruct (validate_data_returns
              {| task_instance := Some (xcom_push "store_user"
                                          (PyStr "User stored successfully") ti3) |}
              _ w4 Hu4 Hff4) as (report & w5 & E7 & Hu5).
  unfold bind at 1. rewrite E7. unfold ret.
  eexists _, report, w5. split; [reflexivity|].
  rewrite Hn3 in Hu5.
  replace (now w + 1 + 1) with (now w + 2) in Hu5 by lia.
  split; [|split; [exact Hu5|]].
  - unfold xcom_push. cbn [is_none xcoms pull_fault ti3 ti2 xcom_push record canonical].
    rewrite lookup_insert_ne by discriminate.
    rewrite lookup_insert_ne by discriminate.
    apply lookup_insert_eq.
  - unfold stores_row.
    replace (table w5) with (table w ++ [new_user id firstName lastName email (now w + 2)])
      by (unfold table at 2; rewrite Hu5; reflexivity).
    rewrite existsb_app.
    apply orb_true_iff. right. cbn [existsb new_user u_id u_firstname u_lastname u_email].
    rewrite Z.eqb_refl, !bool_decide_eq_true_2 by reflexivity. reflexivity.
Qed.

Lemma well_formed_payload_is_stored_witness :
  let payload :=
    PyDict [("id", PyInt 7);
            ("personalInfo", PyDict [("firstName", PyStr "Ann"); ("lastName", PyStr "Lee");
                                     ("email", PyStr "ann@x.com")])] in
  let waiting :=
    [HttpFails (Exn RequestException "Read timed out.");
     HttpResponds {| status_code := 503; json_body := Returns PyNone |}] in
  let w := {| fs := ∅; users := None; now := 0; http := waiting ++ [ready payload];
              db_faults := []; trace := [] |} in
  exists ti report w',
    user_processing 3 w = (Returns (ti, report), w') /\
    xcoms ti !! "extract_user"
      = Some (canonical (PyInt 7) (PyStr "Ann") (PyStr "Lee") (PyStr "ann@x.com")) /\
    users w' = Some [new_user 7 "Ann" "Lee" "ann@x.com" 2].
Proof.
  intros payload waiting w.
  destruct (well_formed_payload_is_stored payload 7 "Ann" "Lee" "ann@x.com"
              waiting [ready payload] 3 w
              eq_refl eq_refl eq_refl eq_refl eq_refl eq_refl eq_refl eq_refl eq_refl
              ltac:(simpl; lia) (conj eq_refl (or_introl eq_refl)))
    as (ti & report & w' & H1 & H2 & H3 & _).
  exists ti, report, w'. split; [exact H1|]. split; [exact H2|exact H3].
Defined.

(** C1 as stated fails when the id is already taken: the payload of
    scenario A is well formed, the run succeeds and [extract_user] returns
    the canonical record (7, Ann, Lee, ann@x.com), but [ON CONFLICT (id) DO
    NOTHING] keeps the row that was there, so no row of [users] holds the
    values of the payload. *)
Lemma stored_row_differs_when_id_taken :
  let payload :=
    PyDict [("id", PyInt 7);
            ("personalInfo", PyDict [("firstName", PyStr "Ann"); ("lastName", PyStr "Lee");
                                     ("email", PyStr "ann@x.com")])] in
  let earlier := new_user 7 "Bob" "Ray" "bob@y.org" 0 in
  let w := {| fs := ∅; users := Some [earlier]; now := 10; http := [ready payload];
              db_faults := []; trace := [] |} in
  let run := user_processing 1 w in
  payload_fields payload = Some (PyInt 7, PyStr "Ann", PyStr "Lee", PyStr "ann@x.com") /\
  (exists ti report,
     fst run = Returns (ti, report) /\
     xcoms ti !! "extract_user"
       = Some (canonical (PyInt 7) (PyStr "Ann") (PyStr "Lee") (PyStr "ann@x.com"))) /\
  users (snd run) = Some [earlier] /\
  stores_row 7 "Ann" "Lee" "ann@x.com" (snd run) = false.
Proof.
  intros payload earlier w run.
  split; [reflexivity|]. split; [|split; vm_compute; reflexivity].
  eexists _, _. split; [vm_compute; reflexivity|]. vm_compute. reflexivity.
Qed.

(** ** Further properties of the tasks *)

(** *** [create_table] *)

(** X1.  [CREATE TABLE IF NOT EXISTS] never drops a row and never touches
    a file, however the statement ends; when the connection holds the
    relation exists afterwards with the rows it had, so that a second run
    changes nothing. *)
Theorem create_table_keeps_rows (w : World) :
  (forall o w', create_table w = (o, w') -> table w' = table w /\ fs w' = fs w) /\
  (fault_free w = true ->
   exists w', create_table w = (Returns tt, w') /\ users w' = Some (table w) /\
     exists w'', create_table w' = (Returns tt, w'') /\ users w'' = users w').
Proof.
  split.
  - intros o w'. unfold create_table, pg.create_table_if_not_exists, bind, pg.connect,
      pg.set_table, table.
    destruct (db_faults w) as [|[e|] fl]; cbn [users];
      destruct (users w) as [t|] eqn:Hu; intros [= <- <-]; cbn; rewrite ?Hu; auto.
  - intros Hff.
    destruct (create_table_returns w Hff) as (w' & E & Hu & _ & _ & _ & Hff').
    exists w'. repeat split; [exact E|exact Hu|].
    destruct (create_table_returns w' Hff') as (w'' & E' & Hu' & _).
    exists w''. split; [exact E'|]. rewrite Hu', Hu. unfold table at 1. now rewrite Hu.
Qed.

Lemma create_table_keeps_rows_witness :
  let earlier := new_user 7 "Bob" "Ray" "bob@y.org" 0 in
  let w := {| fs := ∅; users := Some [earlier]; now := 1; http := [];
              db_faults := []; trace := [] |} in
  exists w', create_table w = (Returns tt, w') /\ users w' = Some [earlier].
Proof.
  intros earlier w.
  destruct (proj2 (create_table_keeps_rows w) eq_refl) as (w' & E & Hu & _).
  exists w'. split; [exact E|exact Hu].
Defined.

(** *** [is_api_available] *)

(** X2.  A poke that returns reports done exactly when the answer had
    status 200 and its body could be decoded, and then carries the decoded
    body; a poke that is not done carries [None].  In either case it made
    one request and touched neither files nor relation. *)
Theorem poke_done_iff (w w' : World) (r : PokeReturnValue) :
  is_api_available w = (Returns r, w') ->
  (is_done r = true <->
   exists resp rest, http w = HttpResponds resp :: rest /\ status_code resp = 200 /\
                     json_body resp = Returns (xcom_value r)) /\
  (is_done r = false -> xcom_value r = PyNone) /\
  http w' = tl (http w) /\ fs w' = fs w /\ users w' = users w.
Proof.
  unfold is_api_available, try_except_Exception, probe, bind, requests_get,
    response_json, lift, print, log_event, ret.
  destruct (http w) as [|[e|resp] rest] eqn:Hh; cbn [tl].
  - cbn. intros [= <- <-]. cbn. repeat split; try discriminate.
    intros (resp' & rest' & ? & _). discriminate.
  - destruct (is_Exception e); [|discriminate].
    cbn. intros [= <- <-]. cbn. repeat split; try discriminate.
    intros (resp' & rest' & ? & _). discriminate.
  - destruct (Z.eqb_spec (status_code resp) 200) as [Hs|Hs].
    + destruct (json_body resp) as [p|e] eqn:Hj.
      * intros [= <- <-]. cbn. repeat split; try discriminate.
        intros _. exists resp, rest. auto.
      * destruct (is_Exception e); [|discriminate].
        cbn. intros [= <- <-]. cbn. repeat split; try discriminate.
        intros (resp' & rest' & [= <- <-] & _ & Hj'). congruence.
    + intros [= <- <-]. cbn. repeat split; try discriminate.
      intros (resp' & rest' & [= <- <-] & Hs' & _). contradiction.
Qed.

Lemma poke_done_iff_witness :
  let payload := PyDict [("id", PyInt 7)] in
  let w := {| fs := ∅; users := None; now := 0; http := [ready payload];
              db_faults := []; trace := [] |} in
  exists resp rest, http w = HttpResponds resp :: rest /\ status_code resp = 200 /\
                    json_body resp = Returns payload.
Proof.
  intros payload w.
  exact (proj1 (proj1 (poke_done_iff w _ {| is_done := true; xcom_value := payload |}
                         eq_refl)) eq_refl).
Defined.

(** X3.  [except Exception] in the poke and in the validation does not
    catch what derives from [BaseException] only: a [KeyboardInterrupt] or
    [SystemExit] raised by the probe or by a query leaves the task as it
    is, unprinted.  The bare [except:] around the XCom lookup of the three
    middle stages catches it like any other failure: the stage goes on
    with its fallback. *)
Theorem interrupts_caught_only_by_bare_except (e : exn) :
  is_Exception e = false ->
  (forall w w1, probe w = (Raises e, w1) -> is_api_available w = (Raises e, w1)) /\
  (forall context w w1, pg.get_first_count w = (Raises e, w1) ->
     validate_data context w = (Raises e, w1)) /\
  (forall context ti w,
     task_instance context = Some ti -> pull_fault ti = Some e ->
     extract_user_fake_user context w
       = (do response <- requests_get API_URL; response_json response) w /\
     process_user_user_info context w = (Returns sample_user, w) /\
     store_user_csv_file_path context w
       = (write_csv csv_path sample_user;; ret (PyStr csv_path)) w).
Proof.
  intros He. split; [|split].
  - intros w w1 Hp. unfold is_api_available, try_except_Exception. now rewrite Hp, He.
  - intros context w w1 Hq. unfold validate_data, try_except_Exception, bind at 1.
    now rewrite Hq, He.
  - intros context ti w Hti Hpf.
    assert (forall t, upstream_absent context t = true) as Habs.
    { intros t. unfold upstream_absent. now rewrite Hti, Hpf. }
    unfold extract_user_fake_user, process_user_user_info, store_user_csv_file_path.
    rewrite !try_pull, !Habs. repeat split.
Qed.

Lemma interrupts_caught_only_by_bare_except_witness :
  let e := Exn KeyboardInterrupt EmptyString in
  let w := {| fs := ∅; users := None; now := 0; http := [HttpFails e];
              db_faults := []; trace := [] |} in
  fst (is_api_available w) = Raises e /\
  process_user_user_info
    {| task_instance := Some {| xcoms := ∅; pull_fault := Some e |} |} w
  = (Returns sample_user, w).
Proof.
  intros e w.
  destruct (interrupts_caught_only_by_bare_except e eq_refl) as (H1 & _ & H3).
  split.
  - rewrite (H1 w _ eq_refl). reflexivity.
  - exact (proj1 (proj2 (H3 {| task_instance := Some {| xcoms := ∅; pull_fault := Some e |} |}
                           _ w eq_refl eq_refl))).
Defined.

(** *** [extract_user] *)

(** X4.  With nothing to pull from the sensor, [extract_user] makes one
    request of its own and uses the decoded body whatever the status code
    of the answer is; a request that fails is not caught a second time,
    its exception ends the task. *)
Theorem extract_user_direct_fetch (context : Context) (w : World) :
  upstream_absent context "is_api_available" = true ->
  (forall resp rest payload,
     http w = HttpResponds resp :: rest -> json_body resp = Returns payload ->
     extract_user context w = extract_user_fields payload (after_get w)) /\
  (forall resp rest e,
     http w = HttpResponds resp :: rest -> json_body resp = Raises e ->
     extract_user context w = (Raises e, after_get w)) /\
  (forall e rest, http w = HttpFails e :: rest ->
     extract_user context w = (Raises e, after_get w)).
Proof.
  intros Habs.
  assert (extract_user context w
          = (do fake_user <- (do response <- requests_get API_URL; response_json response);
             extract_user_fields fake_user) w) as E.
  { unfold extract_user, bind at 1 3, extract_user_fake_user.
    rewrite try_pull, Habs. reflexivity. }
  rewrite E. unfold bind, requests_get, response_json, lift, after_get.
  repeat split.
  - intros resp rest payload Hh Hj. rewrite Hh, Hj. reflexivity.
  - intros resp rest e Hh Hj. rewrite Hh, Hj. reflexivity.
  - intros e rest Hh. rewrite Hh. reflexivity.
Qed.

Lemma extract_user_direct_fetch_witness :
  let payload :=
    PyDict [("id", PyInt 7);
            ("personalInfo", PyDict [("firstName", PyStr "Ann"); ("lastName", PyStr "Lee");
                                     ("email", PyStr "ann@x.com")])] in
  let w := {| fs := ∅; users := None; now := 0;
              http := [HttpResponds {| status_code := 404; json_body := Returns payload |}];
              db_faults := []; trace := [] |} in
  fst (extract_user {| task_instance := None |} w)
  = Returns (canonical (PyInt 7) (PyStr "Ann") (PyStr "Lee") (PyStr "ann@x.com")).
Proof.
  intros payload w.
  rewrite (proj1 (extract_user_direct_fetch {| task_instance := None |} w eq_refl)
             _ _ payload eq_refl eq_refl).
  reflexivity.
Defined.

(** X5.  The mapping of the payload reads and never writes: it leaves
    the world as it is.  It returns the record of the four values, keys in
    the order id, firstname, lastname, email, exactly when the payload is an
    object with [id] and an object [personalInfo] holding the three names,
    whatever else the payload holds; every other payload ends in a
    [KeyError] or a [TypeError]. *)
Theorem extract_user_fields_cases (payload : pyval) (w : World) :
  match payload_fields payload with
  | Some (id, firstName, lastName, email) =>
      extract_user_fields payload w = (Returns (canonical id firstName lastName email), w)
  | None =>
      exists e, extract_user_fields payload w = (Raises e, w) /\
                (exn_class e = KeyError \/ exn_class e = TypeError)
  end.
Proof.
  destruct (payload_fields payload) as [[[[a b] c] d]|] eqn:Hp.
  - now apply extract_user_fields_returns.
  - revert Hp. unfold payload_fields, extract_user_fields, bind, getitem, ret, raise.
    destruct payload as [| | | | |d]; try (intros _; eexists; split; [reflexivity|cbn; auto]).
    destruct (dict_get "id" d) as [x|];
      [|intros _; eexists; split; [reflexivity|cbn; auto]].
    destruct (dict_get "personalInfo" d) as [info|];
      [|intros _; eexists; split; [reflexivity|cbn; auto]].
    destruct info as [| | | | |info]; try (intros _; eexists; split; [reflexivity|cbn; auto]).
    destruct (dict_get "firstName" info) as [a|];
      [|intros _; eexists; split; [reflexivity|cbn; auto]].
    destruct (dict_get "lastName" info) as [b|];
      [|intros _; eexists; split; [reflexivity|cbn; auto]].
    destruct (dict_get "email" info) as [c|];
      [discriminate|intros _; eexists; split; [reflexivity|cbn; auto]].
Qed.

(** *** Dicts with distinct keys *)

Lemma dict_get_fresh {A} (k : string) (d : list (string * A)) :
  ~ In k (dict_keys d) -> dict_get k d = None.
Proof.
  induction d as [|[k' v] d IH]; [reflexivity|].
  cbn [dict_keys map fst In dict_get]. intros H.
  destruct (String.eqb_spec k' k) as [->|Hne]; [tauto|]. apply IH. tauto.
Qed.

Lemma dict_set_fresh {A} (k : string) (v : A) (d : list (string * A)) :
  ~ In k (dict_keys d) -> dict_set k v d = d ++ [(k, v)].
Proof.
  induction d as [|[k' v'] d IH]; [reflexivity|].
  cbn [dict_keys map fst In dict_set]. intros H.
  destruct (String.eqb_spec k' k) as [->|Hne]; [tauto|].
  cbn [app]. f_equal. apply IH. tauto.
Qed.

Lemma dict_of_pairs_distinct {A} (l : list (string * A)) :
  NoDup (map fst l) -> dict_of_pairs l = l.
Proof.
  unfold dict_of_pairs.
  enough (forall acc, NoDup (map fst (acc ++ l)) ->
                      fold_left (fun d kv => dict_set (fst kv) (snd kv) d) l acc = acc ++ l)
    as H by (intros Hnd; apply (H [] Hnd)).
  induction l as [|[k v] l IH]; intros acc Hnd; cbn [fold_left fst snd].
  - now rewrite app_nil_r.
  - rewrite dict_set_fresh.
    + rewrite IH; rewrite <- app_assoc; [reflexivity|exact Hnd].
    + rewrite map_app in Hnd. apply NoDup_app in Hnd as (_ & Hdis & _).
      intros Hin. apply (Hdis k).
      * apply list_elem_of_In. exact Hin.
      * apply list_elem_of_In. cbn. auto.
Qed.

Lemma values_by_own_keys {A} (dflt : A) (d : list (string * A)) :
  NoDup (dict_keys d) ->
  map (fun k => default dflt (dict_get k d)) (dict_keys d) = map snd d.
Proof.
  induction d as [|[k v] d IH]; [reflexivity|].
  cbn [dict_keys map fst snd]. intros Hnd. inversion Hnd as [|? ? Hk Hd]; subst.
  cbn [dict_get]. rewrite String.eqb_refl. cbn [default from_option id]. f_equal.
  rewrite <- (IH Hd). apply map_ext_in. intros k' Hk'.
  destruct (String.eqb_spec k k') as [->|Hne]; [|reflexivity].
  exfalso. apply Hk. apply list_elem_of_In. exact Hk'.
Qed.

Lemma own_keys_allowed (keys : list string) :
  forallb (fun k => existsb (String.eqb k) keys) keys = true.
Proof.
  apply forallb_forall. intros k Hk. apply existsb_exists.
  exists k. split; [exact Hk|apply String.eqb_refl].
Qed.

Lemma dict_to_list_own_keys (d : list (string * pyval)) :
  NoDup (dict_keys d) -> csv.dict_to_list (dict_keys d) d = Returns (map snd d).
Proof.
  intros Hnd. unfold csv.dict_to_list.
  rewrite own_keys_allowed. now rewrite values_by_own_keys.
Qed.

Lemma dict_to_list_header (keys : list string) :
  NoDup keys ->
  csv.dict_to_list keys (dict_of_pairs (map (fun k => (k, PyStr k)) keys))
  = Returns (map PyStr keys).
Proof.
  intros Hnd.
  assert (map fst (map (fun k => (k, PyStr k)) keys) = keys) as Hk
      by (rewrite map_map; apply map_id).
  rewrite dict_of_pairs_distinct by (now rewrite Hk).
  assert (dict_keys (map (fun k => (k, PyStr k)) keys) = keys) as Hk' by exact Hk.
  rewrite <- Hk' at 1. rewrite dict_to_list_own_keys by (now rewrite Hk').
  now rewrite map_map.
Qed.

(** *** [process_user] *)

Lemma write_csv_dict (path : string) (d : list (string * pyval)) (w : World) :
  NoDup (dict_keys d) ->
  write_csv path (PyDict d) w =
  (Returns tt,
   add_trace [EvOpen path "w"]
     (set_fs (<[path := csv.writerow (map PyStr (dict_keys d)) +:+
                        csv.writerow (map snd d)]> (fs w)) w)).
Proof.
  intros Hnd.
  unfold write_csv, csv.DictWriter_writeheader, csv.DictWriter_writerow, py_keys.
  unfold bind, open_w, ret, lift, file_write.
  rewrite (dict_to_list_header _ Hnd), (dict_to_list_own_keys _ Hnd).
  cbn [fs users now http db_faults trace].
  rewrite !lookup_insert_eq. cbn [default from_option id].
  rewrite !insert_insert_eq. reflexivity.
Qed.

(** X6.  [process_user] writes any record it pulls, not only the
    canonical one: the artifact is a header row of the record's keys and
    one row of its values, both in the key order of the record.  The file
    is opened for writing, so what it held before is gone; the task
    returns the path. *)
Theorem process_user_artifact (context : Context) (d : list (string * pyval)) (w : World) :
  upstream_value context "extract_user" = Some (PyDict d) ->
  NoDup (dict_keys d) ->
  process_user context w =
  (Returns (PyStr csv_path),
   add_trace [EvOpen csv_path "w"]
     (set_fs (<[csv_path := csv.writerow (map PyStr (dict_keys d)) +:+
                            csv.writerow (map snd d)]> (fs w)) w)).
Proof.
  intros Hup Hnd.
  rewrite (proj2 (process_user_present _ _ w Hup ltac:(discriminate))).
  unfold bind. rewrite write_csv_dict by exact Hnd. reflexivity.
Qed.

Lemma process_user_artifact_witness :
  let d := [("email", PyStr "a,b@x.com"); ("id", PyInt 0)] in
  let context := {| task_instance := Some
       {| xcoms := {["extract_user" := PyDict d]}; pull_fault := None |} |} in
  let w := {| fs := {[csv_path := "old content"]}; users := None; now := 0; http := [];
              db_faults := []; trace := [] |} in
  fs (snd (process_user context w)) !! csv_path
  = Some ("email,id" +:+ CRLF +:+ String DQUOTE ("a,b@x.com" +:+ str1 DQUOTE) +:+ ",0" +:+ CRLF).
Proof.
  intros d context w.
  rewrite (process_user_artifact context d w eq_refl).
  - vm_compute. reflexivity.
  - apply (bool_decide_unpack (NoDup (dict_keys d))). vm_compute. exact I.
Defined.

(** X7.  A pulled value that is no record (a number, a text, a list) is
    taken as it is, and the task fails on [user_info.keys()] -- after the
    file was opened: the run ends in an [AttributeError] and leaves an
    empty artifact behind. *)
Theorem process_user_not_a_record (context : Context) (v : pyval) (w : World) :
  upstream_value context "extract_user" = Some v ->
  v <> PyNone -> is_dict v = false ->
  exists e,
    exn_class e = AttributeError /\
    process_user context w =
    (Raises e,
     add_trace [EvOpen csv_path "w"] (set_fs (<[csv_path := EmptyString]> (fs w)) w)).
Proof.
  intros Hup Hv Hd.
  rewrite (proj2 (process_user_present _ _ w Hup Hv)).
  destruct v; try discriminate; try congruence; eexists; (split; [|reflexivity]);
    reflexivity.
Qed.

Lemma process_user_not_a_record_witness :
  let context := {| task_instance := Some
       {| xcoms := {["extract_user" := PyInt 0]}; pull_fault := None |} |} in
  let w := {| fs := {[csv_path := sample_csv]}; users := None; now := 0; http := [];
              db_faults := []; trace := [] |} in
  fs (snd (process_user context w)) !! csv_path = Some EmptyString.
Proof.
  intros context w.
  destruct (process_user_not_a_record context (PyInt 0) w eq_refl ltac:(discriminate)
              eq_refl) as (e & _ & ->).
  vm_compute. reflexivity.
Defined.




(** *** From the artifact back to rows *)

Lemma read_written_rows (body : list (string * option string) -> M unit)
      (names : list string) (rows : list (list pyval)) (w : World) :
  Forall (fun row => Forall clean (map csv.cell_text row)) rows ->
  csv.DictReader_loop body (Some names) csv.parse_reset (text_lines (written rows)) w
  = for_rows body names (map (map csv.cell_text) rows) w.
Proof.
  intros Hclean. revert w. induction Hclean as [|row rows Hrow _ IH]; intros w.
  - reflexivity.
  - cbn [written map for_rows]. rewrite read_written_row by exact Hrow.
    unfold bind, csv.deliver.
    destruct (map csv.cell_text row) as [|x xs].
    + cbn [ret]. apply IH.
    + unfold bind. destruct (body _ w) as [[[]|e] w1]; [|reflexivity].
      cbn [ret]. apply IH.
Qed.

Lemma zip_row_as_row (d : list (string * pyval)) :
  csv.zip_row (dict_keys d) (map csv.cell_text (map snd d)) = as_row d.
Proof.
  induction d as [|[k v] d IH]; [reflexivity|].
  cbn [dict_keys map fst snd csv.zip_row as_row]. f_equal. exact IH.
Qed.

Lemma row_dict_as_row (d : list (string * pyval)) :
  NoDup (dict_keys d) ->
  csv.row_dict (dict_keys d) (map csv.cell_text (map snd d)) = as_row d.
Proof.
  intros Hnd. unfold csv.row_dict. rewrite zip_row_as_row.
  apply dict_of_pairs_distinct. unfold as_row. rewrite map_map. exact Hnd.
Qed.

(** X9.  What [process_user] writes for a record, the loop of [store_user]
    reads back as one row: when the record has distinct keys, at least
    one, and neither a key nor the text of a value holds a CR (or is longer
    than the reader allows), the loop over the artifact runs its body once,
    on the dict that gives every key the [str] of its value. *)
Theorem artifact_round_trip (context : Context) (d : list (string * pyval))
        (body : list (string * option string) -> M unit) (w : World) :
  upstream_value context "extract_user" = Some (PyDict d) ->
  NoDup (dict_keys d) -> d <> [] ->
  Forall clean (dict_keys d) -> Forall clean (map csv.cell_text (map snd d)) ->
  exists w1,
    process_user context w = (Returns (PyStr csv_path), w1) /\
    (do f <- open_r (PyStr csv_path); csv.DictReader_for_each f body) w1
    = (body (as_row d);; ret tt) (add_trace [EvOpen csv_path "r"] w1).
Proof.
  intros Hup Hnd Hne Hkeys Hvals.
  eexists. split.
  { rewrite (proj2 (process_user_present _ _ w Hup ltac:(discriminate))).
    unfold bind. rewrite write_csv_dict by exact Hnd. reflexivity. }
  set (w1 := add_trace _ _).
  unfold bind at 1, open_r. cbn [str_contains csv_path Ascii.eqb Bool.eqb NUL orb].
  unfold w1 at 1 2. cbn [fs add_trace set_fs]. rewrite lookup_insert_eq.
  match goal with
  | |- _ ?x = _ => change x with (add_trace [EvOpen csv_path "r"] w1)
  end.
  unfold csv.DictReader_for_each.
  rewrite read_written_row.
  2:{ rewrite map_map. cbn [csv.cell_text py_str]. now rewrite map_id. }
  unfold bind at 1. cbn [csv.deliver ret].
  assert (csv.writerow (map snd d) = written [map snd d]) as ->
      by (cbn [written]; now rewrite str_app_nil_r).
  rewrite read_written_rows by (repeat constructor; exact Hvals).
  cbn [map for_rows].
  replace (map csv.cell_text (map PyStr (dict_keys d))) with (dict_keys d)
    by (rewrite map_map; cbn [csv.cell_text py_str]; now rewrite map_id).
  rewrite (row_dict_as_row d Hnd).
  destruct d as [|kv d]; [congruence|]. reflexivity.
Qed.

Ltac clean_by_compute :=
  repeat constructor; vm_compute; first [reflexivity | intros H; discriminate H].

Lemma artifact_round_trip_witness :
  let d := [("id", PyInt 7); ("note", PyStr (String "a" (String LF (str1 DQUOTE))))] in
  let context := {| task_instance := Some
       {| xcoms := {["extract_user" := PyDict d]}; pull_fault := None |} |} in
  let w := {| fs := ∅; users := None; now := 0; http := []; db_faults := []; trace := [] |} in
  exists w1,
    process_user context w = (Returns (PyStr csv_path), w1) /\
    (do f <- open_r (PyStr csv_path); csv.DictReader_for_each f (fun row => print "row")) w1
    = (print "row";; ret tt) (add_trace [EvOpen csv_path "r"] w1).
Proof.
  intros d context w.
  apply (artifact_round_trip context d (fun row => print "row") w).
  - reflexivity.
  - apply (bool_decide_unpack (NoDup (dict_keys d))). vm_compute. exact I.
  - discriminate.
  - clean_by_compute.
  - clean_by_compute.
Defined.



(** *** [store_user] *)

(** X11.  When the path pulled from [process_user] names no file,
    [store_user] ends in [FileNotFoundError] before anything is sent to the
    database: the world is as it was. *)
Theorem store_user_missing_artifact (context : Context) (p : string) (w : World) :
  upstream_value context "process_user" = Some (PyStr p) ->
  str_contains NUL p = false ->
  fs w !! p = None ->
  exists e, exn_class e = FileNotFoundError /\ store_user context w = (Raises e, w).
Proof.
  intros Hup Hnul Hfs.
  rewrite (proj2 (store_user_present _ _ w Hup ltac:(discriminate))).
  unfold bind, open_r. rewrite Hnul, Hfs. eexists; (split; [|reflexivity]); reflexivity.
Qed.

Lemma store_user_missing_artifact_witness :
  let context := {| task_instance := Some
       {| xcoms := {["process_user" := PyStr "/tmp/gone.csv"]}; pull_fault := None |} |} in
  let w := {| fs := {[csv_path := sample_csv]}; users := Some []; now := 0; http := [];
              db_faults := []; trace := [] |} in
  exists e, exn_class e = FileNotFoundError /\ store_user context w = (Raises e, w).
Proof.
  intros context w.
  apply (store_user_missing_artifact context "/tmp/gone.csv" w); reflexivity.
Defined.

(** X12.  An artifact without data rows -- an empty file, or a header
    only -- makes [store_user] succeed without a single statement: it
    returns its confirmation even when the relation does not exist or the
    database is unreachable. *)
Theorem store_user_nothing_to_store (context : Context) (p : string)
        (header : option (list pyval)) (w : World) :
  upstream_value context "process_user" = Some (PyStr p) ->
  str_contains NUL p = false ->
  fs w !! p = Some (from_option csv.writerow EmptyString header) ->
  Forall clean (from_option (map csv.cell_text) [] header) ->
  store_user context w
  = (Returns (PyStr "User stored successfully"),
     {| fs := fs w; users := users w; now := now w; http := http w;
        db_faults := db_faults w; trace := trace w ++ [EvOpen p "r"] |}).
Proof.
  intros Hup Hnul Hfs Hclean.
  rewrite (proj2 (store_user_present _ _ w Hup ltac:(discriminate))).
  unfold bind at 1, open_r. rewrite Hnul, Hfs.
  unfold bind at 1. destruct header as [h|]; cbn [from_option] in *.
  - rewrite <- (str_app_nil_r (csv.writerow h)).
    unfold csv.DictReader_for_each. rewrite read_written_row by exact Hclean.
    reflexivity.
  - reflexivity.
Qed.

Lemma store_user_nothing_to_store_witness :
  let context := {| task_instance := Some
       {| xcoms := {["process_user" := PyStr csv_path]}; pull_fault := None |} |} in
  let w := {| fs := {[csv_path := "id,firstname,lastname,email" +:+ CRLF]};
              users := None; now := 0; http := [];
              db_faults := [Some (Exn DatabaseError "connection refused")]; trace := [] |} in
  fst (store_user context w) = Returns (PyStr "User stored successfully") /\
  users (snd (store_user context w)) = None.
Proof.
  intros context w.
  rewrite (store_user_nothing_to_store context csv_path (Some header_row) w);
    [split; reflexivity|reflexivity|reflexivity|vm_compute; reflexivity|clean_by_compute].
Defined.

Lemma store_user_csv_file_path_any (context : Context) (w wa : World) (o : outcome pyval) :
  store_user_csv_file_path context w = (o, wa) ->
  users wa = users w /\ (forall p, p <> csv_path -> fs wa !! p = fs w !! p).
Proof.
  unfold store_user_csv_file_path. rewrite try_pull.
  destruct (upstream_absent context "process_user").
  - rewrite write_sample_then_path. intros [= <- <-]. split; [reflexivity|].
    intros p Hp. cbn. now rewrite lookup_insert_ne.
  - intros [= <- <-]. auto.
Qed.

Lemma open_r_any (v : pyval) (w w' : World) (o : outcome (list string)) :
  open_r v w = (o, w') -> users w' = users w /\ fs w' = fs w.
Proof.
  unfold open_r, raise. destruct v as [| |fd|p| |]; try (intros [= <- <-]; auto).
  { destruct (fd <? 0); intros [= <- <-]; auto. }
  destruct (str_contains NUL p); [intros [= <- <-]; auto|].
  destruct (fs w !! p); intros [= <- <-]; auto.
Qed.

(** X13.  However [store_user] ends -- also when a later row is refused
    and the task fails -- it only ever appends: the rows that were in the
    relation are still there, unchanged and in front, unique ids stay
    unique, a relation that does not exist is not created, and no file
    other than the artifact is touched. *)
Theorem store_user_only_appends (context : Context) (w w' : World) (o : outcome pyval) :
  store_user context w = (o, w') ->
  (forall t, users w = Some t ->
     exists added, users w' = Some (t ++ added) /\
                   (NoDup (map u_id t) -> NoDup (map u_id (t ++ added)))) /\
  (users w = None -> users w' = None) /\
  (forall p, p <> csv_path -> fs w' !! p = fs w !! p).
Proof.
  unfold store_user. unfold bind at 1.
  destruct (store_user_csv_file_path context w) as [[v|e] wa] eqn:Hsel.
  2:{ intros [= <- <-].
      destruct (store_user_csv_file_path_any _ _ _ _ Hsel) as (Hu & Hfs).
      rewrite Hu. repeat split; auto.
      intros t Ht. exists []. rewrite app_nil_r. auto. }
  destruct (store_user_csv_file_path_any _ _ _ _ Hsel) as (Hu & Hfs).
  unfold bind at 1.
  destruct (open_r v wa) as [[lines|e] wl] eqn:Hopen;
    destruct (open_r_any _ _ _ _ Hopen) as (Hul & Hfl).
  2:{ intros [= <- <-]. rewrite Hul, Hu, Hfl. repeat split; auto.
      intros t Ht. exists []. rewrite app_nil_r. auto. }
  unfold bind at 1, csv.DictReader_for_each.
  change (fun row => pg.run_insert row) with pg.run_insert.
  destruct (csv.DictReader_loop _ _ _ lines wl) as [r w1] eqn:Hloop.
  assert (snd (match r with
               | Returns _ => ret (PyStr "User stored successfully") w1
               | Raises e => (Raises e, w1)
               end) = w1) as Hw1 by (destruct r; reflexivity).
  intros E. rewrite E in Hw1. cbn [snd] in Hw1. subst w'. clear E.
  repeat split.
  - intros t Ht.
    eapply (DictReader_loop_keeps pg.run_insert
              (fun x => exists added, users x = Some (t ++ added) /\
                          (NoDup (map u_id t) -> NoDup (map u_id (t ++ added)))));
      [apply run_insert_extends|exact Hloop|].
    exists []. rewrite app_nil_r. split; [congruence|auto].
  - intros Hnone.
    eapply (DictReader_loop_keeps pg.run_insert (fun x => users x = None));
      [|exact Hloop|congruence].
    intros row x ox x' Hins Hx.
    destruct (run_insert_any _ _ _ _ Hins) as (_ & _ & [E|(t & r' & Ht & _)]); congruence.
  - intros p Hp. rewrite <- (Hfs p Hp), <- Hfl.
    f_equal.
    eapply (DictReader_loop_keeps pg.run_insert (fun x => fs x = fs wl));
      [apply run_insert_fs|exact Hloop|reflexivity].
Qed.

Lemma store_user_only_appends_witness :
  let earlier := new_user 7 "Bob" "Ray" "bob@y.org" 0 in
  let context := {| task_instance := Some
       {| xcoms := {["process_user" := PyStr csv_path]}; pull_fault := None |} |} in
  let w := {| fs := {[csv_path :=
                        csv.writerow header_row +:+
                        written [[PyInt 8; PyStr "Ann"; PyStr "Lee"; PyStr "ann@x.com"];
                                 [PyStr "u-9"; PyStr "Cy"; PyStr "Dee"; PyStr "cy@z.net"]]]};
              users := Some [earlier]; now := 1; http := []; db_faults := []; trace := [] |} in
  let run := store_user context w in
  fst run = Raises (Exn DatabaseError "invalid input syntax for type integer") /\
  exists added, users (snd run) = Some ([earlier] ++ added) /\
                NoDup (map u_id ([earlier] ++ added)).
Proof.
  intros earlier context w run.
  split; [vm_compute; reflexivity|].
  destruct (proj1 (store_user_only_appends context w (snd run) (fst run)
                     ltac:(vm_compute; reflexivity)) [earlier] eq_refl)
    as (added & Hu & Hnd).
  exists added. split; [exact Hu|]. apply Hnd.
  apply (bool_decide_unpack (NoDup (map u_id [earlier]))). vm_compute. exact I.
Defined.

(** *** [validate_data] *)

Section Keeps.

Variable P : World -> Prop.

Lemma keeps_ret {A} (a : A) : keeps P (ret a).
Proof. intros w o w' [= <- <-]. auto. Qed.

Lemma keeps_raise {A} (e : exn) : keeps P (@raise A e).
Proof. intros w o w' [= <- <-]. auto. Qed.

Lemma keeps_bind {A B} (m : M A) (k : A -> M B) :
  keeps P m -> (forall a, keeps P (k a)) -> keeps P (bind m k).
Proof.
  intros Hm Hk w o w'. unfold bind.
  destruct (m w) as [[a|e] w1] eqn:E.
  - intros Hka Hw. eapply Hk; [exact Hka|]. eapply Hm; eauto.
  - intros [= <- <-] Hw. eapply Hm; eauto.
Qed.

Lemma keeps_try_except_Exception {A} (m : M A) (h : exn -> M A) :
  keeps P m -> (forall e, keeps P (h e)) -> keeps P (try_except_Exception m h).
Proof.
  intros Hm Hh w o w'. unfold try_except_Exception.
  destruct (m w) as [[a|e] w1] eqn:E.
  - intros [= <- <-] Hw. eapply Hm; eauto.
  - destruct (is_Exception e).
    + intros He Hw. eapply Hh; [exact He|]. eapply Hm; eauto.
    + intros [= <- <-] Hw. eapply Hm; eauto.
Qed.

Lemma keeps_tuple_getitem (t : list pyval) (i : nat) : keeps P (tuple_getitem t i).
Proof.
  unfold tuple_getitem. destruct (nth_error t i); [apply keeps_ret|apply keeps_raise].
Qed.

End Keeps.

(** What a read-only statement leaves alone. *)
Lemma connect_keeps (U : option (list UserRow)) (F : gmap string string)
      (H : list HttpOutcome) (statement : string) :
  keeps (fun w => users w = U /\ fs w = F /\ http w = H) (pg.connect statement).
Proof.
  intros w o w'. unfold pg.connect.
  destruct (db_faults w) as [|[e|] fl]; intros [= <- <-]; auto.
Qed.

Lemma get_table_keeps (P : World -> Prop) : keeps P pg.get_table.
Proof.
  intros w o w'. unfold pg.get_table. destruct (users w); intros [= <- <-]; auto.
Qed.

Lemma print_keeps (U : option (list UserRow)) (F : gmap string string)
      (H : list HttpOutcome) (line : string) :
  keeps (fun w => users w = U /\ fs w = F /\ http w = H) (print line).
Proof. intros w o w' [= <- <-]. auto. Qed.

(** X14.  [validate_data] only reads: whether it returns a report or
    raises, the relation, the files and the pending answers of the endpoint
    are as they were. *)
Theorem validate_data_reads_only (context : Context) (w w' : World) (o : outcome pyval) :
  validate_data context w = (o, w') ->
  users w' = users w /\ fs w' = fs w /\ http w' = http w.
Proof.
  intros E.
  enough (keeps (fun x => users x = users w /\ fs x = fs w /\ http x = http w)
                (validate_data context)) as Hk by (apply (Hk w o w' E); auto).
  unfold validate_data, pg.get_first_count, pg.get_first_latest.
  apply keeps_try_except_Exception.
  - repeat first
      [ apply keeps_bind; [|intros ?]
      | apply connect_keeps | apply get_table_keeps | apply print_keeps
      | apply keeps_ret | apply keeps_tuple_getitem
      | match goal with |- keeps _ (if ?b then _ else _) => destruct b end ].
  - intros e. apply keeps_bind; [apply print_keeps|intros _; apply keeps_raise].
Qed.

Lemma validate_data_reads_only_witness :
  let w := {| fs := {[csv_path := sample_csv]};
              users := Some [new_user 7 "Bob" "Ray" "bob@y.org" 0];
              now := 1; http := []; db_faults := [None; Some (Exn DatabaseError "gone")];
              trace := [] |} in
  users (snd (validate_data {| task_instance := None |} w)) = users w.
Proof.
  intros w.
  destruct (validate_data {| task_instance := None |} w) as [o w'] eqn:E.
  exact (proj1 (validate_data_reads_only _ w w' o E)).
Defined.

Lemma latest_row_greatest (t : list UserRow) (r : UserRow) :
  pg.latest_row t = Some r ->
  In r t /\ forall r', In r' t -> u_created_at r' <= u_created_at r.
Proof.
  revert r. induction t as [|x t IH]; intros r; cbn [pg.latest_row]; [discriminate|].
  destruct (pg.latest_row t) as [y|] eqn:Hy.
  - destruct (IH y eq_refl) as (Hin & Hmax).
    destruct (Z.ltb_spec (u_created_at x) (u_created_at y)); intros [= <-].
    + split; [right; exact Hin|]. intros r' [<-|Hr']; [lia|auto].
    + split; [left; reflexivity|]. intros r' [<-|Hr']; [lia|].
      specialize (Hmax r' Hr'). lia.
  - intros [= <-]. split; [left; reflexivity|].
    destruct t as [|z t]; [|cbn in Hy; destruct (pg.latest_row t); [destruct (_ <? _)|];
                            discriminate].
    intros r' [<-|[]]. lia.
Qed.

(** X15.  With the relation in place and the database reachable,
    [validate_data] returns the number of rows as [total_users] and, as
    [latest_user], the email of a row whose [created_at] no other row
    exceeds; on a relation without rows it is [None]. *)
Theorem validate_data_report (context : Context) (t : list UserRow) (w : World) :
  users w = Some t -> fault_free w = true ->
  exists latest,
    fst (validate_data context w)
    = Returns (PyDict [("total_users", PyInt (Z.of_nat (length t)));
                       ("latest_user", latest);
                       ("validation_status", PyStr "SUCCESS")]) /\
    (t = [] -> latest = PyNone) /\
    (t <> [] ->
     exists r, In r t /\ (forall r', In r' t -> u_created_at r' <= u_created_at r) /\
               latest = pg.py_text (u_email r)).
Proof.
  intros Hu Hff.
  exists (match pg.latest_row t with
          | Some r => pg.py_text (u_email r)
          | None => PyNone
          end).
  split; [|split].
  - unfold validate_data, try_except_Exception, bind,
      pg.get_first_count, pg.get_first_latest, pg.connect, pg.get_table, bind.
    unfold fault_free in Hff.
    destruct (db_faults w) as [|[f|] [|[g|] fl]]; cbn in Hff; try discriminate.
    all: cbn -[pg.latest_row]; rewrite Hu; cbn -[pg.latest_row].
    all: destruct (pg.latest_row t) as [r|]; reflexivity.
  - intros ->. reflexivity.
  - intros Hne. destruct (pg.latest_row t) as [r|] eqn:Hr.
    + destruct (latest_row_greatest t r Hr) as (Hin & Hmax). exists r. auto.
    + exfalso. destruct t as [|x t]; [congruence|]. cbn in Hr.
      destruct (pg.latest_row t); [destruct (_ <? _)|]; discriminate.
Qed.

Lemma validate_data_report_witness :
  let t := [new_user 7 "Ann" "Lee" "ann@x.com" 5; new_user 8 "Bob" "Ray" "bob@y.org" 9;
            new_user 9 "Cy" "Dee" "cy@z.net" 2] in
  let w := {| fs := ∅; users := Some t; now := 10; http := []; db_faults := [];
              trace := [] |} in
  exists latest,
    fst (validate_data {| task_instance := None |} w)
    = Returns (PyDict [("total_users", PyInt 3); ("latest_user", latest);
                       ("validation_status", PyStr "SUCCESS")]) /\
    (t <> [] ->
     exists r, In r t /\ (forall r', In r' t -> u_created_at r' <= u_created_at r) /\
               latest = pg.py_text (u_email r)).
Proof.
  intros t w.
  destruct (validate_data_report {| task_instance := None |} t w eq_refl eq_refl)
    as (latest & H1 & _ & H3).
  exists latest. split; [exact H1|exact H3].
Defined.

(** X16.  A query of [validate_data] that fails with an [Exception] is
    reported before it is raised again: the one line printed after the
    failure is "Data validation failed: " and the text of the exception,
    and the totals are not printed. *)
Theorem validate_data_logs_failure (context : Context) (w : World) (e : exn) :
  is_Exception e = true ->
  (forall w1, pg.get_first_count w = (Raises e, w1) ->
     validate_data context w
     = (Raises e, add_trace [EvPrint ("Data validation failed: " +:+ exn_str e)] w1)) /\
  (forall result w1 w2,
     pg.get_first_count w = (Returns result, w1) ->
     pg.get_first_latest w1 = (Raises e, w2) ->
     validate_data context w
     = (Raises e, add_trace [EvPrint ("Data validation failed: " +:+ exn_str e)] w2)).
Proof.
  intros He. split.
  - intros w1 H. unfold validate_data, try_except_Exception, bind at 1.
    rewrite H, He. reflexivity.
  - intros result w1 w2 H1 H2.
    unfold validate_data, try_except_Exception, bind at 1.
    rewrite H1.
    assert (exists v, (if record_truthy result
                       then tuple_getitem (default [] result) 0
                       else ret (PyInt 0)) w1 = (Returns v, w1)) as [v Hv].
    { destruct result as [[|x t]|]; cbn; eauto. }
    unfold bind at 1. rewrite Hv.
    unfold bind at 1. rewrite H2, He. reflexivity.
Qed.

Lemma validate_data_logs_failure_witness :
  let e := Exn DatabaseError "relation users does not exist" in
  let w := {| fs := ∅; users := None; now := 0; http := []; db_faults := []; trace := [] |} in
  trace (snd (validate_data {| task_instance := None |} w))
  = [EvSql pg.count_sql;
     EvPrint "Data validation failed: relation users does not exist"].
Proof.
  intros e w.
  rewrite (proj1 (validate_data_logs_failure {| task_instance := None |} w e eq_refl)
             _ eq_refl).
  reflexivity.
Defined.

(** *** The run *)

(** X17.  A ready payload that lacks a required key stops the run in
    [extract_user]: the run ends in the [KeyError] of that key, the tasks
    after it do not start, so no artifact is written and no row is stored
    -- the relation is the one [create_table] found or made. *)
Theorem run_stops_on_schema_mismatch
        (payload : pyval) (rest : list HttpOutcome) (pokes : nat) (w : World) :
  required_key_absent payload = true ->
  fault_free w = true ->
  http w = ready payload :: rest ->
  exists k w', In k required_keys /\
    user_processing (S pokes) w = (Raises (Exn KeyError k), w') /\
    fs w' = fs w /\ users w' = Some (table w).
Proof.
  intros Hmiss Hff Hhttp. unfold user_processing.
  destruct (create_table_returns w Hff) as (w1 & E1 & Hu1 & Hfs1 & Hh1 & _ & _).
  unfold bind at 1. rewrite E1.
  destruct (sensor_ready payload rest pokes w1 ltac:(congruence))
    as (w2 & E2 & Hu2 & Hfs2 & _ & _).
  unfold bind at 1, run_task at 1, bind at 1. rewrite E2. unfold ret at 1.
  assert (payload <> PyNone) as Hpn by (destruct payload; discriminate).
  pose proof (upstream_value_pushed new_task_instance "is_api_available" payload
                eq_refl Hpn) as Hv.
  unfold bind at 1, run_task at 1, bind at 1.
  rewrite (proj2 (extract_user_present _ _ w2 Hv Hpn)).
  destruct (extract_user_fields_missing payload w2 Hmiss) as (k & Hk & ->).
  exists k, w2. repeat split; [exact Hk|congruence|congruence].
Qed.

Lemma run_stops_on_schema_mismatch_witness :
  let payload := PyDict [("id", PyInt 7); ("personalInfo", PyDict [])] in
  let w := {| fs := ∅; users := None; now := 0; http := [ready payload];
              db_faults := []; trace := [] |} in
  exists k w', In k required_keys /\
    user_processing 1 w = (Raises (Exn KeyError k), w') /\
    fs w' = fs w /\ users w' = Some (table w).
Proof.
  intros payload w.
  apply (run_stops_on_schema_mismatch payload [] 0 w); reflexivity.
Defined.




(** ** The scenarios of the specification, run on the model *)

Section Scenarios.

Let payload_A : pyval :=
  PyDict [("id", PyInt 7);
          ("personalInfo", PyDict [("firstName", PyStr "Ann"); ("lastName", PyStr "Lee");
                                   ("email", PyStr "ann@x.com")])].

Let start (answers : list HttpOutcome) : World :=
  {| fs := ∅; users := None; now := 0; http := answers; db_faults := []; trace := [] |}.

Let answer (answers : list HttpOutcome) (w : World) : World :=
  {| fs := fs w; users := users w; now := now w; http := answers;
     db_faults := db_faults w; trace := trace w |}.

(** Scenario A: the row (7, Ann, Lee, ann@x.com) and the report. *)
Example scenario_A :
  let run := user_processing 1 (start [ready payload_A]) in
  option_map snd (match fst run with Returns p => Some p | Raises _ => None end)
    = Some (PyDict [("total_users", PyInt 1); ("latest_user", PyStr "ann@x.com");
                    ("validation_status", PyStr "SUCCESS")]) /\
  users (snd run) = Some [new_user 7 "Ann" "Lee" "ann@x.com" 2] /\
  fs (snd run) !! csv_path
    = Some ("id,firstname,lastname,email" +:+ CRLF +:+ "7,Ann,Lee,ann@x.com" +:+ CRLF).
Proof. vm_compute. repeat split. Qed.

(** Scenario B: the endpoint never answers; the sensor gives up and no row
    is written. *)
Example scenario_B :
  let run := user_processing 3 (start []) in
  fst run = Raises (Exn AirflowSensorTimeout "Sensor has timed out") /\
  users (snd run) = Some [].
Proof. vm_compute. repeat split. Qed.

(** Scenario C: a second run on the same payload leaves the one row. *)
Example scenario_C :
  let first := user_processing 1 (start [ready payload_A]) in
  let second := user_processing 1 (answer [ready payload_A] (snd first)) in
  users (snd second) = Some [new_user 7 "Ann" "Lee" "ann@x.com" 2] /\
  users (snd second) = users (snd first).
Proof. vm_compute. repeat split. Qed.

(** The artifact is written with [newline=''] and read without it: a CR
    inside a name comes back as LF. *)
Example carriage_return_comes_back_as_line_feed :
  let name := String "A" (String CR (str1 "B")) in
  let payload :=
    PyDict [("id", PyInt 7);
            ("personalInfo", PyDict [("firstName", PyStr name); ("lastName", PyStr "Lee");
                                     ("email", PyStr "ann@x.com")])] in
  users (snd (user_processing 1 (start [ready payload])))
  = Some [new_user 7 (String "A" (String LF (str1 "B"))) "Lee" "ann@x.com" 2].
Proof. vm_compute. reflexivity. Qed.

(** An id that is no integer is refused by the [INT] column: the run fails
    in [store_user] and no row is written. *)
Example text_id_is_refused :
  let payload :=
    PyDict [("id", PyStr "u-7");
            ("personalInfo", PyDict [("firstName", PyStr "Ann"); ("lastName", PyStr "Lee");
                                     ("email", PyStr "ann@x.com")])] in
  let run := user_processing 1 (start [ready payload]) in
  fst run = Raises (Exn DatabaseError "invalid input syntax for type integer") /\
  users (snd run) = Some [].
Proof. vm_compute. repeat split. Qed.

End Scenarios.
